(** * Telugu transcript recorder: intake, confirmation and recorder flows

    A shallow embedding of [src/components/TranscriptInput.tsx],
    [src/app/page.tsx] and [src/components/Recorder.tsx].

    The components are React function components driven by the browser
    event loop.  Every handler is embedded as the state transformer of
    its synchronous segment; each [await] ends a segment and leaves a
    continuation in a queue of pending promises, which a later event
    resumes with the answer of the backend or of the platform.  The
    managed backend (table, object storage) and the media platform
    (capture streams, MediaRecorder) are explicit components of the
    world the segments run in. *)

From Stdlib Require Import NArith List Bool Ascii String Lia Sorted Permutation.
From stdpp Require Import base option list gmap strings.
Import ListNotations.

Local Open Scope string_scope.
Local Open Scope list_scope.
Local Open Scope N_scope.

(** ** JavaScript strings of user text *)

Module Js.

(** User text is a sequence of UTF-16 code units: [String.prototype.trim]
    strips code units of the WhiteSpace and LineTerminator productions,
    several of which lie above the Latin-1 range. *)
Definition jsstring := list N.

Definition isWhiteSpace (c : N) : bool :=
  (c =? 9) || (c =? 11) || (c =? 12) || (c =? 32) || (c =? 160)
  || (c =? 5760) || ((8192 <=? c) && (c <=? 8202))
  || (c =? 8239) || (c =? 8287) || (c =? 12288) || (c =? 65279).

Definition isLineTerminator (c : N) : bool :=
  (c =? 10) || (c =? 13) || (c =? 8232) || (c =? 8233).

Definition isStrWhiteSpaceChar (c : N) : bool :=
  isWhiteSpace c || isLineTerminator c.

Fixpoint trimStart (s : jsstring) : jsstring :=
  match s with
  | [] => []
  | c :: r => if isStrWhiteSpaceChar c then trimStart r else s
  end.

Definition trimEnd (s : jsstring) : jsstring := rev (trimStart (rev s)).

(** [s.trim()] *)
Definition trim (s : jsstring) : jsstring := trimEnd (trimStart s).

(** The code unit of ["\n"]. *)
Definition LF : N := 10.

(** [s.split('\n')]: never empty, [""] splits into [[""]]. *)
Fixpoint split_nl (s : jsstring) : list jsstring :=
  match s with
  | [] => [[]]
  | c :: r =>
      if c =? LF then [] :: split_nl r
      else match split_nl r with
           | l :: ls => (c :: l) :: ls
           | [] => [[c]]
           end
  end.

(** [line.length > 0] *)
Definition nonEmpty (s : jsstring) : bool :=
  match s with [] => false | _ :: _ => true end.

(** Truthiness of a string: [!s] is [negb (truthy s)]. *)
Definition truthy (s : jsstring) : bool := nonEmpty s.

(** Code units of an ASCII literal. *)
Fixpoint lit (s : string) : jsstring :=
  match s with
  | EmptyString => []
  | String a r => Ascii.N_of_ascii a :: lit r
  end.

End Js.

(** ** The backend: task table and object storage *)

Module Backend.

Inductive Status := pending | completed.

Definition Status_eqb (a b : Status) : bool :=
  match a, b with
  | pending, pending | completed, completed => true
  | _, _ => false
  end.

(** [interface Transcript] of page.tsx.  [created_at] is an ISO timestamp
    in the source; only its order is used, so it is a number here. *)
Record Transcript := mkTranscript {
  id : string;
  transcript : Js.jsstring;
  audio_url : option string;
  status : Status;
  created_at : N
}.

Definition Blob := list N.

Record t := mk {
  table : list Transcript;
  storage : gmap string Blob
}.

(** Requests the client sends; the log of a run is a list of these. *)
Inductive Call :=
| CountAll
| CountCompleted
| SelectNextPending
| SelectCompleted
| StorageUpload (bucket path : string) (blob : Blob) (upsert : bool)
| StorageGetPublicUrl (bucket path : string)
| TableUpdate (rowId : string) (url : string) (st : Status)
| TableInsert (rows : list Js.jsstring).

(** What the service decides on its own for one request: whether it
    fails (and with which message), the public URL it resolves for a
    path, and the identifiers and timestamps it assigns to new rows. *)
Record Srv := mkSrv {
  fault : Call -> option string;
  publicUrl : string -> option string;
  stamps : list (string * N)
}.

Definition isPending (r : Transcript) : bool := Status_eqb (status r) pending.
Definition isCompleted (r : Transcript) : bool := Status_eqb (status r) completed.

(** [.select('*', { count: 'exact', head: true })] *)
Definition countAll (b : t) : nat := length (table b).

(** [... .eq('status', 'completed')] *)
Definition countCompleted (b : t) : nat :=
  length (List.filter isCompleted (table b)).

(** First row of least [created_at]. *)
Fixpoint oldest (rows : list Transcript) : option Transcript :=
  match rows with
  | [] => None
  | r :: rest =>
      match oldest rest with
      | None => Some r
      | Some m => if created_at r <=? created_at m then Some r else Some m
      end
  end.

(** [.eq('status','pending').order('created_at', { ascending: true })
     .limit(1).maybeSingle()] *)
Definition nextPending (b : t) : option Transcript :=
  oldest (List.filter isPending (table b)).

Fixpoint insertDesc (r : Transcript) (rows : list Transcript) : list Transcript :=
  match rows with
  | [] => [r]
  | x :: rest =>
      if created_at x <? created_at r then r :: rows
      else x :: insertDesc r rest
  end.

(** [.eq('status','completed').order('created_at', { ascending: false })] *)
Definition completedList (b : t) : list Transcript :=
  fold_right insertDesc [] (List.filter isCompleted (table b)).

(** [.update({ audio_url: url, status: st }).eq('id', rowId)] *)
Definition updateRow (rowId url : string) (st : Status) (r : Transcript) : Transcript :=
  if String.eqb (id r) rowId
  then mkTranscript (id r) (transcript r) (Some url) st (created_at r)
  else r.

Definition update (rowId url : string) (st : Status) (b : t) : t :=
  mk (map (updateRow rowId url st) (table b)) (storage b).

(** [storage.from(bucket).upload(path, blob, { upsert })]: with [upsert]
    an object already at [path] is replaced. *)
Definition upload (path : string) (blob : Blob) (upsert : bool) (b : t)
  : option string * t :=
  match storage b !! path with
  | Some _ =>
      if upsert then (None, mk (table b) (<[path := blob]> (storage b)))
      else (Some "The resource already exists", b)
  | None => (None, mk (table b) (<[path := blob]> (storage b)))
  end.

Definition ids (b : t) : list string := map id (table b).

Definition fresh (b : t) (i : string) : bool :=
  negb (existsb (String.eqb i) (ids b)).

(** Modelled from the spec: the table definition is not part of the
    sources.  Bulk insert creates one record per submitted text with
    default status pending, a null audio reference, and an identifier
    and creation timestamp assigned by the server; identifiers are
    unique, so a stamp that repeats one makes the whole batch fail. *)
Fixpoint insertRows (st : list (string * N)) (rows : list Js.jsstring) (b : t)
  {struct rows} : option string * t :=
  match rows with
  | [] => (None, b)
  | text :: rest =>
      match st with
      | [] => (Some "no identifier assigned", b)
      | (i, ts) :: st' =>
          if fresh b i
          then insertRows st' rest
                 (mk (table b ++ [mkTranscript i text None pending ts]) (storage b))
          else (Some "duplicate key value violates unique constraint", b)
      end
  end.

(** The batch is one statement: it applies whole or not at all. *)
Definition insert (st : list (string * N)) (rows : list Js.jsstring) (b : t)
  : option string * t :=
  match insertRows st rows b with
  | (None, b') => (None, b')
  | (Some e, _) => (Some e, b)
  end.

End Backend.

(** ** TranscriptInput.tsx: component state *)

Module TranscriptInput.

Record State := mkState {
  transcriptList : Js.jsstring;
  isSubmitting : bool;
  error : option string
}.

Definition init : State := mkState [] false None.

Definition setTranscriptList (v : Js.jsstring) (s : State) : State :=
  mkState v (isSubmitting s) (error s).
Definition setIsSubmitting (v : bool) (s : State) : State :=
  mkState (transcriptList s) v (error s).
Definition setError (v : option string) (s : State) : State :=
  mkState (transcriptList s) (isSubmitting s) v.

(** [transcriptList.trim().split('\n').map(line => line.trim())
      .filter(line => line.length > 0)] *)
Definition lines (transcriptList : Js.jsstring) : list Js.jsstring :=
  List.filter Js.nonEmpty (map Js.trim (Js.split_nl (Js.trim transcriptList))).

(** Following the spec's words, "the non-empty trimmed lines of the
    input": the lines of the raw text, each trimmed, blank ones dropped. *)
Definition nonEmptyTrimmedLines (text : Js.jsstring) : list Js.jsstring :=
  List.filter Js.nonEmpty (map Js.trim (Js.split_nl text)).

(** What [handleSubmit] decides before it touches the backend. *)
Inductive Validation :=
| RejectEmpty          (* 'Transcript list cannot be empty.' *)
| RejectNoLines        (* 'No valid transcript lines found.' *)
| Accept (rows : list Js.jsstring).

Definition validate (transcriptList : Js.jsstring) : Validation :=
  if negb (Js.truthy (Js.trim transcriptList)) then RejectEmpty
  else
    let ls := lines transcriptList in
    if Nat.eqb (length ls) 0 then RejectNoLines
    else Accept ls.

(** [(err as Error).message || 'Unknown error'] *)
Definition messageOr (m : string) : string :=
  if String.eqb m "" then "Unknown error" else m.

End TranscriptInput.

(** ** page.tsx: component state of [Home] *)

Module Home.

Import Backend.

Inductive Mode := record | review.

Definition Mode_eqb (a b : Mode) : bool :=
  match a, b with
  | record, record | review, review => true
  | _, _ => false
  end.

(** The [useState] cells of [Home].  The [isLoading] spinner flag and the
    two mount effects that drive it only read from the backend; they are
    embedded apart, in [Startup] and [HomeEffect]. *)
Record State := mkState {
  transcriptsExist : option bool;
  currentTranscript : option Transcript;
  totalCount : nat;
  completedCount : nat;
  error : option string;
  isUploading : bool;
  mode : Mode;
  reviewList : list Transcript;
  isFetchingReviewList : bool;
  transcriptToRerecord : option Transcript
}.

Definition init : State :=
  mkState None None 0 0 None false record [] false None.

Definition setTranscriptsExist v (s : State) : State :=
  mkState v (currentTranscript s) (totalCount s) (completedCount s) (error s)
    (isUploading s) (mode s) (reviewList s) (isFetchingReviewList s)
    (transcriptToRerecord s).
Definition setCurrentTranscript v (s : State) : State :=
  mkState (transcriptsExist s) v (totalCount s) (completedCount s) (error s)
    (isUploading s) (mode s) (reviewList s) (isFetchingReviewList s)
    (transcriptToRerecord s).
Definition setTotalCount v (s : State) : State :=
  mkState (transcriptsExist s) (currentTranscript s) v (completedCount s) (error s)
    (isUploading s) (mode s) (reviewList s) (isFetchingReviewList s)
    (transcriptToRerecord s).
Definition setCompletedCount v (s : State) : State :=
  mkState (transcriptsExist s) (currentTranscript s) (totalCount s) v (error s)
    (isUploading s) (mode s) (reviewList s) (isFetchingReviewList s)
    (transcriptToRerecord s).
Definition setError v (s : State) : State :=
  mkState (transcriptsExist s) (currentTranscript s) (totalCount s)
    (completedCount s) v
    (isUploading s) (mode s) (reviewList s) (isFetchingReviewList s)
    (transcriptToRerecord s).
Definition setIsUploading v (s : State) : State :=
  mkState (transcriptsExist s) (currentTranscript s) (totalCount s)
    (completedCount s) (error s)
    v (mode s) (reviewList s) (isFetchingReviewList s)
    (transcriptToRerecord s).
Definition setMode v (s : State) : State :=
  mkState (transcriptsExist s) (currentTranscript s) (totalCount s)
    (completedCount s) (error s)
    (isUploading s) v (reviewList s) (isFetchingReviewList s)
    (transcriptToRerecord s).
Definition setReviewList v (s : State) : State :=
  mkState (transcriptsExist s) (currentTranscript s) (totalCount s)
    (completedCount s) (error s)
    (isUploading s) (mode s) v (isFetchingReviewList s)
    (transcriptToRerecord s).
Definition setIsFetchingReviewList v (s : State) : State :=
  mkState (transcriptsExist s) (currentTranscript s) (totalCount s)
    (completedCount s) (error s)
    (isUploading s) (mode s) (reviewList s) v
    (transcriptToRerecord s).
Definition setTranscriptToRerecord v (s : State) : State :=
  mkState (transcriptsExist s) (currentTranscript s) (totalCount s)
    (completedCount s) (error s)
    (isUploading s) (mode s) (reviewList s) (isFetchingReviewList s)
    v.

Definition tableName : string := "transcripts".
Definition bucketName : string := "audio".

(** [`${bucketName}/${transcriptId}.webm`] *)
Definition filePath (transcriptId : string) : string :=
  String.append bucketName (String.append "/" (String.append transcriptId ".webm")).

(** [a?.id === b] on [string | undefined]. *)
Definition optId (x : option Transcript) : option string :=
  match x with Some r => Some (id r) | None => None end.

Definition strictEq (a b : option string) : bool :=
  match a, b with
  | Some x, Some y => String.eqb x y
  | None, None => true
  | _, _ => false
  end.

(** [transcriptToRerecord ?? currentTranscript] *)
Definition activeTranscript (s : State) : option Transcript :=
  match transcriptToRerecord s with
  | Some r => Some r
  | None => currentTranscript s
  end.

(** The realtime payload: [payload.new] is [{}] on a delete and
    [payload.old] is [{}] on an insert. *)
Inductive EventType := INSERT | UPDATE | DELETE.

Record Payload := mkPayload {
  eventType : EventType;
  new : option Transcript;
  old : option Transcript
}.

Definition isUpdate (e : EventType) : bool :=
  match e with UPDATE => true | _ => false end.

(** The record a notification is about. *)
Definition changedId (p : Payload) : option string :=
  match eventType p with
  | DELETE => optId (old p)
  | _ => optId (new p)
  end.

End Home.

(** ** The page at run time: components, backend, pending promises *)

Module App.

Import Backend.

(** A promise some handler awaits, with what its continuation closed
    over.  The request reaches the backend when the promise settles. *)
Inductive Kont :=
| KCountTotal
| KCountCompleted
| KNextPending
| KCompletedList
| KUpload (transcriptId : string) (isRerecord : bool) (path : string) (blob : Blob)
| KUpdate (transcriptId : string) (isRerecord : bool) (downloadURL : string)
| KInsert (rows : list Js.jsstring).

Record World := mkWorld {
  home : Home.State;
  input : TranscriptInput.State;
  backend : Backend.t;
  issued : list Call;
  pending : list Kont
}.

Definition init (b : Backend.t) : World :=
  mkWorld Home.init TranscriptInput.init b [] [].

Definition onHome (f : Home.State -> Home.State) (w : World) : World :=
  mkWorld (f (home w)) (input w) (backend w) (issued w) (pending w).
Definition onInput (f : TranscriptInput.State -> TranscriptInput.State) (w : World) : World :=
  mkWorld (home w) (f (input w)) (backend w) (issued w) (pending w).
Definition setBackend (b : Backend.t) (w : World) : World :=
  mkWorld (home w) (input w) b (issued w) (pending w).
Definition send (c : Call) (w : World) : World :=
  mkWorld (home w) (input w) (backend w) (issued w ++ [c]) (pending w).
Definition await (k : Kont) (w : World) : World :=
  mkWorld (home w) (input w) (backend w) (issued w) (pending w ++ [k]).

(** *** Data fetching functions: synchronous segments *)

Definition fetchCounts (w : World) : World :=
  await KCountTotal (send CountAll w).

Definition fetchNextPendingTranscript (w : World) : World :=
  await KNextPending (send SelectNextPending (onHome (Home.setError None) w)).

Definition fetchCompletedTranscripts (w : World) : World :=
  await KCompletedList
    (send SelectCompleted
       (onHome (Home.setError None)
          (onHome (Home.setIsFetchingReviewList true) w))).

(** *** Handlers of [Home] *)

Definition handleTranscriptsSubmitted (w : World) : World :=
  onHome (Home.setTranscriptToRerecord None)
    (onHome (Home.setMode Home.record)
       (onHome (Home.setTranscriptsExist (Some true)) w)).

Definition handleRecordingConfirm (blob : option Blob) (transcriptId : string)
    (w : World) : World :=
  let isRerecord :=
    Home.strictEq (Home.optId (Home.transcriptToRerecord (home w))) (Some transcriptId) in
  let targetTranscript := Home.activeTranscript (home w) in
  match blob with
  | None => onHome (Home.setError (Some "Recording data is missing.")) w
  | Some b =>
      if String.eqb transcriptId ""
      then onHome (Home.setError (Some "Recording data is missing.")) w
      else
        match targetTranscript with
        | None => onHome (Home.setError (Some "Transcript ID mismatch.")) w
        | Some tr =>
            if negb (String.eqb (id tr) transcriptId)
            then onHome (Home.setError (Some "Transcript ID mismatch.")) w
            else
              let path := Home.filePath transcriptId in
              await (KUpload transcriptId isRerecord path b)
                (send (StorageUpload Home.bucketName path b true)
                   (onHome (Home.setError None)
                      (onHome (Home.setIsUploading true) w)))
        end
  end.

Definition handleStartRerecord (tr : Transcript) (w : World) : World :=
  onHome (Home.setError None)
    (onHome (Home.setMode Home.record)
       (onHome (Home.setCurrentTranscript None)
          (onHome (Home.setTranscriptToRerecord (Some tr)) w))).

Definition switchToRecordMode (w : World) : World :=
  onHome (Home.setError None)
    (onHome (Home.setTranscriptToRerecord None)
       (onHome (Home.setMode Home.record) w)).

Definition switchToReviewMode (w : World) : World :=
  fetchCompletedTranscripts
    (onHome (Home.setError None)
       (onHome (Home.setTranscriptToRerecord None)
          (onHome (Home.setMode Home.review) w))).

(** The [postgres_changes] callback of the realtime channel.  The
    updater passed to [setMode] sees the mode as it is when the
    notification arrives and returns it unchanged. *)
Definition onPostgresChanges (payload : Home.Payload) (w : World) : World :=
  let rerecordId := Home.optId (Home.transcriptToRerecord (home w)) in
  let w1 := fetchCounts w in
  let w2 := fetchNextPendingTranscript w1 in
  let w3 :=
    if Home.Mode_eqb (Home.mode (home w2)) Home.review
    then fetchCompletedTranscripts w2 else w2 in
  if Home.isUpdate (Home.eventType payload)
     && Home.strictEq (Home.optId (Home.new payload)) rerecordId
  then onHome (Home.setMode Home.review)
         (onHome (Home.setTranscriptToRerecord None) w3)
  else w3.

(** *** [handleSubmit] of TranscriptInput *)

Definition handleSubmit (w : World) : World :=
  match TranscriptInput.validate (TranscriptInput.transcriptList (input w)) with
  | TranscriptInput.RejectEmpty =>
      onInput (TranscriptInput.setError (Some "Transcript list cannot be empty.")) w
  | TranscriptInput.RejectNoLines =>
      onInput (TranscriptInput.setError (Some "No valid transcript lines found.")) w
  | TranscriptInput.Accept rows =>
      await (KInsert rows)
        (send (TableInsert rows)
           (onInput (TranscriptInput.setError None)
              (onInput (TranscriptInput.setIsSubmitting true) w)))
  end.

(** *** Continuations *)

(** [catch]/[finally] of [handleRecordingConfirm]. *)
Definition confirmFailed (msg : string) (w : World) : World :=
  onHome (Home.setIsUploading false)
    (onHome (Home.setError (Some (String.append "Failed to save recording: " msg))) w).

Definition submitFailed (msg : string) (w : World) : World :=
  onInput (TranscriptInput.setIsSubmitting false)
    (onInput (TranscriptInput.setError
       (Some (String.append "Failed to submit transcripts: "
                (TranscriptInput.messageOr msg)))) w).

(** [!urlData || !urlData.publicUrl] *)
Definition usableUrl (u : option string) : option string :=
  match u with
  | Some s => if String.eqb s "" then None else Some s
  | None => None
  end.

Definition resume (srv : Srv) (k : Kont) (w : World) : World :=
  match k with
  | KCountTotal =>
      match fault srv CountAll with
      | Some e =>
          onHome (Home.setError (Some (String.append "Failed to fetch counts: " e))) w
      | None =>
          await KCountCompleted
            (send CountCompleted
               (onHome (Home.setTotalCount (countAll (backend w))) w))
      end
  | KCountCompleted =>
      match fault srv CountCompleted with
      | Some e =>
          onHome (Home.setError (Some (String.append "Failed to fetch counts: " e))) w
      | None => onHome (Home.setCompletedCount (countCompleted (backend w))) w
      end
  | KNextPending =>
      match fault srv SelectNextPending with
      | Some e =>
          onHome (Home.setCurrentTranscript None)
            (onHome (Home.setError
               (Some (String.append "Failed to fetch next transcript: " e))) w)
      | None => onHome (Home.setCurrentTranscript (nextPending (backend w))) w
      end
  | KCompletedList =>
      match fault srv SelectCompleted with
      | Some e =>
          onHome (Home.setIsFetchingReviewList false)
            (onHome (Home.setReviewList [])
               (onHome (Home.setError
                  (Some (String.append "Failed to fetch review list: " e))) w))
      | None =>
          onHome (Home.setIsFetchingReviewList false)
            (onHome (Home.setReviewList (completedList (backend w))) w)
      end
  | KUpload transcriptId isRerecord path blob =>
      match fault srv (StorageUpload Home.bucketName path blob true) with
      | Some e => confirmFailed e w
      | None =>
          match upload path blob true (backend w) with
          | (Some e, _) => confirmFailed e w
          | (None, b') =>
              let w1 := send (StorageGetPublicUrl Home.bucketName path) (setBackend b' w) in
              match usableUrl (publicUrl srv path) with
              | None => confirmFailed "Could not get public URL after upload." w1
              | Some downloadURL =>
                  await (KUpdate transcriptId isRerecord downloadURL)
                    (send (TableUpdate transcriptId downloadURL completed) w1)
              end
          end
      end
  | KUpdate transcriptId isRerecord downloadURL =>
      match fault srv (TableUpdate transcriptId downloadURL completed) with
      | Some e => confirmFailed e w
      | None =>
          let w1 := setBackend (update transcriptId downloadURL completed (backend w)) w in
          let w2 :=
            if isRerecord
            then fetchCompletedTranscripts
                   (onHome (Home.setMode Home.review)
                      (onHome (Home.setTranscriptToRerecord None) w1))
            else w1 in
          onHome (Home.setIsUploading false) w2
      end
  | KInsert rows =>
      match fault srv (TableInsert rows) with
      | Some e => submitFailed e w
      | None =>
          match insert (stamps srv) rows (backend w) with
          | (Some e, _) => submitFailed e w
          | (None, b') =>
              onInput (TranscriptInput.setIsSubmitting false)
                (handleTranscriptsSubmitted
                   (onInput (TranscriptInput.setTranscriptList []) (setBackend b' w)))
          end
      end
  end.

(** *** The event loop *)

Inductive Event :=
| Typed (text : Js.jsstring)              (* textarea onChange *)
| Submit                                  (* form onSubmit *)
| Confirm (blob : option Blob) (transcriptId : string)  (* Recorder onConfirm *)
| StartRerecord (tr : Transcript)
| SwitchToRecord
| SwitchToReview                          (* also Cancel Re-record *)
| AddMore                                 (* setTranscriptsExist(false) *)
| Change (payload : Home.Payload)         (* realtime notification *)
| Settle (n : nat) (srv : Srv).           (* the n-th pending promise settles *)

Definition isTrue (o : option bool) : bool :=
  match o with Some true => true | _ => false end.

Definition step (e : Event) (w : World) : World :=
  match e with
  | Typed text => onInput (TranscriptInput.setTranscriptList text) w
  | Submit => handleSubmit w
  | Confirm blob transcriptId => handleRecordingConfirm blob transcriptId w
  | StartRerecord tr => handleStartRerecord tr w
  | SwitchToRecord => switchToRecordMode w
  | SwitchToReview => switchToReviewMode w
  | AddMore => onHome (Home.setTranscriptsExist (Some false)) w
  | Change payload =>
      (* the channel exists only while [transcriptsExist === true] *)
      if isTrue (Home.transcriptsExist (home w)) then onPostgresChanges payload w else w
  | Settle n srv =>
      match pending w !! n with
      | Some k =>
          resume srv k
            (mkWorld (home w) (input w) (backend w) (issued w) (delete n (pending w)))
      | None => w
      end
  end.

Definition run (es : list Event) (w : World) : World :=
  fold_left (fun w e => step e w) es w.

(** Continuations whose request writes to the backend. *)
Definition writing (k : Kont) : bool :=
  match k with
  | KUpload _ _ _ _ | KUpdate _ _ _ | KInsert _ => true
  | _ => false
  end.

(** Events other than a confirmation or a submission. *)
Definition quiet (e : Event) : bool :=
  match e with
  | Confirm _ _ | Submit => false
  | _ => true
  end.

(** No write is under way. *)
Definition noWritePending (w : World) : Prop :=
  Forall (fun k => writing k = false) (pending w).

(** Status of the row called [i], if there is one. *)
Definition statusOf (b : Backend.t) (i : string) : option Status :=
  match List.find (fun r => String.eqb (id r) i) (table b) with
  | Some r => Some (status r)
  | None => None
  end.

Definition audioOf (b : Backend.t) (i : string) : option (option string) :=
  match List.find (fun r => String.eqb (id r) i) (table b) with
  | Some r => Some (audio_url r)
  | None => None
  end.

End App.

(** ** Recorder.tsx *)

Module Recorder.

Import Backend.

(** *** The media platform *)

Inductive RecordingState := inactive | recording | paused.

Definition isInactive (s : RecordingState) : bool :=
  match s with inactive => true | _ => false end.
Definition isRecordingState (s : RecordingState) : bool :=
  match s with recording => true | _ => false end.

(** What a handler closed over at the render it was created in. *)
Record Closure := mkClosure {
  c_permissionGranted : option bool;
  c_audioUrl : option nat
}.

(** A [MediaRecorder] object: its [state], the stream it records, and
    the closure of the [startRecording] call that installed its
    handlers. *)
Record MediaRecorder := mkRecorder {
  state : RecordingState;
  stream : nat;
  owner : Closure
}.

(** [streams !! s] tells whether the tracks of capture stream [s] are
    live; [urls !! u] whether object URL [u] is still registered. *)
Record Platform := mkPlatform {
  hasMediaDevices : bool;
  recorderError : option string;   (* thrown by [new MediaRecorder], if any *)
  streams : list bool;
  recorders : list MediaRecorder;
  urls : list bool
}.

(** *** Component state, refs and props *)

Record State := mkState {
  isRecording : bool;
  audioBlob : option Blob;
  audioUrl : option nat;
  permissionGranted : option bool;
  error : option string;
  mediaRecorder : option nat;        (* mediaRecorder.current *)
  audioChunks : list Blob            (* audioChunks.current *)
}.

Inductive Kont :=
| KPermission (next : option Closure)  (* getMicPermission awaits getUserMedia *)
| KEnumerate (cl : Closure)            (* startRecording awaits enumerateDevices *)
| KCapture (cl : Closure).             (* startRecording awaits getUserMedia *)

Record World := mkWorld {
  ui : State;
  transcriptId : string;             (* props.transcript.id *)
  isUploading : bool;                (* props.isUploading *)
  platform : Platform;
  pending : list Kont;               (* promises not yet settled *)
  stopTasks : list nat;              (* recorders whose stop events are queued *)
  confirmed : list (Blob * string)   (* calls of props.onConfirm *)
}.

Definition onUi (f : State -> State) (w : World) : World :=
  mkWorld (f (ui w)) (transcriptId w) (isUploading w) (platform w)
    (pending w) (stopTasks w) (confirmed w).
Definition onPlatform (f : Platform -> Platform) (w : World) : World :=
  mkWorld (ui w) (transcriptId w) (isUploading w) (f (platform w))
    (pending w) (stopTasks w) (confirmed w).
Definition await (k : Kont) (w : World) : World :=
  mkWorld (ui w) (transcriptId w) (isUploading w) (platform w)
    (pending w ++ [k]) (stopTasks w) (confirmed w).
Definition queueStop (r : nat) (w : World) : World :=
  mkWorld (ui w) (transcriptId w) (isUploading w) (platform w)
    (pending w) (stopTasks w ++ [r]) (confirmed w).

Definition setIsRecording v (s : State) : State :=
  mkState v (audioBlob s) (audioUrl s) (permissionGranted s) (error s)
    (mediaRecorder s) (audioChunks s).
Definition setAudioBlob v (s : State) : State :=
  mkState (isRecording s) v (audioUrl s) (permissionGranted s) (error s)
    (mediaRecorder s) (audioChunks s).
Definition setAudioUrl v (s : State) : State :=
  mkState (isRecording s) (audioBlob s) v (permissionGranted s) (error s)
    (mediaRecorder s) (audioChunks s).
Definition setPermissionGranted v (s : State) : State :=
  mkState (isRecording s) (audioBlob s) (audioUrl s) v (error s)
    (mediaRecorder s) (audioChunks s).
Definition setError v (s : State) : State :=
  mkState (isRecording s) (audioBlob s) (audioUrl s) (permissionGranted s) v
    (mediaRecorder s) (audioChunks s).
Definition setMediaRecorder v (s : State) : State :=
  mkState (isRecording s) (audioBlob s) (audioUrl s) (permissionGranted s) (error s)
    v (audioChunks s).
Definition setAudioChunks v (s : State) : State :=
  mkState (isRecording s) (audioBlob s) (audioUrl s) (permissionGranted s) (error s)
    (mediaRecorder s) v.

(** *** Platform operations *)

(** [getUserMedia] resolves: a new live stream. *)
Definition openStream (p : Platform) : nat * Platform :=
  (length (streams p),
   mkPlatform (hasMediaDevices p) (recorderError p) (streams p ++ [true])
     (recorders p) (urls p)).

(** [stream.getTracks().forEach(track => track.stop())] *)
Definition stopTracks (s : nat) (p : Platform) : Platform :=
  mkPlatform (hasMediaDevices p) (recorderError p) (<[s := false]> (streams p))
    (recorders p) (urls p).

(** [new MediaRecorder(stream, ...)] once it did not throw. *)
Definition newRecorder (s : nat) (cl : Closure) (p : Platform) : nat * Platform :=
  (length (recorders p),
   mkPlatform (hasMediaDevices p) (recorderError p) (streams p)
     (recorders p ++ [mkRecorder inactive s cl]) (urls p)).

Definition setRecorderState (r : nat) (st : RecordingState) (p : Platform) : Platform :=
  match recorders p !! r with
  | Some rec =>
      mkPlatform (hasMediaDevices p) (recorderError p) (streams p)
        (<[r := mkRecorder st (stream rec) (owner rec)]> (recorders p)) (urls p)
  | None => p
  end.

Definition recorderState (r : nat) (p : Platform) : RecordingState :=
  match recorders p !! r with
  | Some rec => state rec
  | None => inactive
  end.

(** [URL.createObjectURL(blob)] *)
Definition createObjectURL (p : Platform) : nat * Platform :=
  (length (urls p),
   mkPlatform (hasMediaDevices p) (recorderError p) (streams p)
     (recorders p) (urls p ++ [true])).

(** [URL.revokeObjectURL(url)] *)
Definition revokeObjectURL (u : nat) (p : Platform) : Platform :=
  mkPlatform (hasMediaDevices p) (recorderError p) (streams p)
    (recorders p) (<[u := false]> (urls p)).

(** Capture streams whose tracks are live. *)
Definition openStreams (w : World) : nat :=
  length (List.filter (fun b : bool => b) (streams (platform w))).

(** [recorder.stop()] on a recorder that is not inactive: the state
    changes at once, the [dataavailable] and [stop] events are queued. *)
Definition recorderStop (r : nat) (w : World) : World :=
  queueStop r (onPlatform (setRecorderState r inactive) w).

(** *** Functions of the component *)

Definition sameUrl (a b : option nat) : bool :=
  match a, b with
  | Some x, Some y => Nat.eqb x y
  | None, None => true
  | _, _ => false
  end.

(** [setAudioUrl(v)], together with the cleanup of the effect on
    [audioUrl], which revokes the previous URL when the cell changes. *)
Definition changeAudioUrl (v : option nat) (w : World) : World :=
  let w' := onUi (setAudioUrl v) w in
  match audioUrl (ui w) with
  | Some u => if sameUrl v (Some u) then w' else onPlatform (revokeObjectURL u) w'
  | None => w'
  end.

Definition resetState (cl : Closure) (w : World) : World :=
  let w1 := onUi (setAudioBlob None) (onUi (setIsRecording false) w) in
  let w2 :=
    match c_audioUrl cl with
    | Some u => changeAudioUrl None (onPlatform (revokeObjectURL u) w1)
    | None => w1
    end in
  let w3 := onUi (setAudioChunks []) w2 in
  let w4 :=
    match mediaRecorder (ui w3) with
    | Some r =>
        if negb (isInactive (recorderState r (platform w3)))
        then recorderStop r w3 else w3
    | None => w3
    end in
  onUi (setMediaRecorder None) w4.

(** [getMicPermission] up to its [await]; [next] is the caller that
    awaits it, if any.  The result tells whether a promise is pending. *)
Definition getMicPermission (next : option Closure) (w : World) : bool * World :=
  let w1 := onUi (setError None) w in
  if negb (hasMediaDevices (platform w1))
  then (false,
        onUi (setPermissionGranted (Some false))
          (onUi (setError (Some "Media Devices API not supported in this browser.")) w1))
  else (true, await (KPermission next) w1).

(** The part of [startRecording] after the permission block. *)
Definition startCapture (cl : Closure) (w : World) : World :=
  await (KCapture cl) (onUi (setError None) (resetState cl w)).

Definition isGranted (o : option bool) : bool :=
  match o with Some true => true | _ => false end.

Definition startRecording (cl : Closure) (w : World) : World :=
  if negb (isGranted (c_permissionGranted cl))
  then snd (getMicPermission (Some cl) w)
       (* without a media devices API the function returns after the await *)
  else startCapture cl w.

Definition stopRecording (w : World) : World :=
  match mediaRecorder (ui w) with
  | Some r =>
      if isRecordingState (recorderState r (platform w))
      then onUi (setIsRecording false) (recorderStop r w)
      else w
  | None => w
  end.

Definition handleConfirm (w : World) : World :=
  match audioBlob (ui w) with
  | Some b =>
      mkWorld (ui w) (transcriptId w) (isUploading w) (platform w)
        (pending w) (stopTasks w) (confirmed w ++ [(b, transcriptId w)])
  | None => w
  end.

(** How a platform promise settles: [getUserMedia] resolves with a stream
    or rejects; [enumerateDevices] resolves with a device list, of which
    only the presence of an audio input matters, or rejects. *)
Inductive Outcome :=
| Resolved (audioInput : bool)
| Rejected (message : string).

Definition resume (o : Outcome) (k : Kont) (w : World) : World :=
  match k with
  | KPermission next =>
      let w1 :=
        match o with
        | Resolved _ =>
            let '(s, p) := openStream (platform w) in
            onPlatform (stopTracks s)
              (onUi (setPermissionGranted (Some true)) (onPlatform (fun _ => p) w))
        | Rejected _ =>
            onUi (setPermissionGranted (Some false))
              (onUi (setError (Some
                 "Microphone permission denied. Please allow access in your browser settings.")) w)
        end in
      match next with
      | Some cl => await (KEnumerate cl) w1
      | None => w1
      end
  | KEnumerate cl =>
      match o with
      | Resolved true =>
          match c_permissionGranted cl with
          | Some false => w
          | _ => startCapture cl w
          end
      | _ =>
          onUi (setPermissionGranted (Some false))
            (onUi (setError (Some "Microphone access is required to start recording.")) w)
      end
  | KCapture cl =>
      match o with
      | Resolved _ =>
          let '(s, p) := openStream (platform w) in
          let w1 := onPlatform (fun _ => p) w in
          match recorderError p with
          | Some msg =>
              resetState cl
                (onUi (setError (Some (String.append "Could not start recording: " msg))) w1)
          | None =>
              let '(r, p') := newRecorder s cl p in
              onUi (setIsRecording true)
                (onPlatform (setRecorderState r recording)
                   (onUi (setMediaRecorder (Some r)) (onPlatform (fun _ => p') w1)))
          end
      | Rejected msg =>
          resetState cl
            (onUi (setError (Some (String.append "Could not start recording: " msg))) w)
      end
  end.

(** The queued events of a stopped recorder: [ondataavailable] with the
    data gathered, then [onstop]. *)
Definition fireStop (r : nat) (data : Blob) (w : World) : World :=
  match recorders (platform w) !! r with
  | Some rec =>
      let w1 :=
        if Nat.ltb 0 (length data)
        then onUi (fun s => setAudioChunks (audioChunks s ++ [data]) s) w
        else w in
      let blob := concat (audioChunks (ui w1)) in
      let '(u, p) := createObjectURL (platform w1) in
      onPlatform (stopTracks (stream rec))
        (onUi (setAudioChunks [])
           (changeAudioUrl (Some u)
              (onPlatform (fun _ => p) (onUi (setAudioBlob (Some blob)) w1))))
  | None => w
  end.

(** The effect on [transcript.id]: [getMicPermission(); resetState()]. *)
Definition transcriptEffect (w : World) : World :=
  let cl := mkClosure (permissionGranted (ui w)) (audioUrl (ui w)) in
  resetState cl (snd (getMicPermission None w)).

Definition mount (transcriptId : string) (isUploading : bool) (p : Platform) : World :=
  transcriptEffect
    (mkWorld (mkState false None None None None None [])
       transcriptId isUploading p [] [] []).

(** *** What is on screen *)

Inductive View :=
| AccessDenied            (* panel with the Retry Permission button *)
| Checking                (* 'Checking microphone access...' *)
| Controls (recordButton stopButton previewButtons disabled : bool).

Definition isSome {A} (o : option A) : bool :=
  match o with Some _ => true | None => false end.

Definition render (w : World) : View :=
  match permissionGranted (ui w) with
  | Some false => AccessDenied
  | None => Checking
  | Some true =>
      Controls
        (negb (isRecording (ui w)) && negb (isSome (audioBlob (ui w))))
        (isRecording (ui w))
        (isSome (audioUrl (ui w)) && isSome (audioBlob (ui w)))
        (isUploading w)
  end.

(** *** The event loop *)

Inductive Event :=
| ClickRecord
| ClickStop
| ClickRedo
| ClickConfirm
| ClickRetryPermission
| TranscriptChanged (newId : string)
| SetUploading (b : bool)
| Settle (n : nat) (o : Outcome)          (* the n-th pending promise settles *)
| FireStop (n : nat) (data : Blob).       (* the n-th queued stop task runs *)

Definition closureOf (w : World) : Closure :=
  mkClosure (permissionGranted (ui w)) (audioUrl (ui w)).

(** A click reaches its handler only if the button is rendered and not
    disabled. *)
Definition step (e : Event) (w : World) : World :=
  match e with
  | ClickRecord =>
      match render w with
      | Controls true _ _ false => startRecording (closureOf w) w
      | _ => w
      end
  | ClickStop =>
      match render w with
      | Controls _ true _ false => stopRecording w
      | _ => w
      end
  | ClickRedo =>
      match render w with
      | Controls _ _ true false => resetState (closureOf w) w
      | _ => w
      end
  | ClickConfirm =>
      match render w with
      | Controls _ _ true false => handleConfirm w
      | _ => w
      end
  | ClickRetryPermission =>
      match render w with
      | AccessDenied => snd (getMicPermission None w)
      | _ => w
      end
  | TranscriptChanged newId =>
      if String.eqb newId (transcriptId w) then w
      else transcriptEffect
             (mkWorld (ui w) newId (isUploading w) (platform w)
                (pending w) (stopTasks w) (confirmed w))
  | SetUploading b =>
      mkWorld (ui w) (transcriptId w) b (platform w)
        (pending w) (stopTasks w) (confirmed w)
  | Settle n o =>
      match pending w !! n with
      | Some k =>
          resume o k
            (mkWorld (ui w) (transcriptId w) (isUploading w) (platform w)
               (delete n (pending w)) (stopTasks w) (confirmed w))
      | None => w
      end
  | FireStop n data =>
      match stopTasks w !! n with
      | Some r =>
          fireStop r data
            (mkWorld (ui w) (transcriptId w) (isUploading w) (platform w)
               (pending w) (delete n (stopTasks w)) (confirmed w))
      | None => w
      end
  end.

Definition run (es : list Event) (w : World) : World :=
  fold_left (fun w e => step e w) es w.

End Recorder.

(** ** Vocabulary of the statements and sample sessions *)

(** The lines [handleSubmit] keeps among [ls]. *)
Definition kept (ls : list Js.jsstring) : list Js.jsstring :=
  List.filter Js.nonEmpty (map Js.trim ls).

(** Appending a code unit other than the separator extends the last line. *)
Fixpoint appLast (ls : list Js.jsstring) (c : N) : list Js.jsstring :=
  match ls with
  | [] => [[c]]
  | [l] => [l ++ [c]]
  | l :: ls' => l :: appLast ls' c
  end.

(** A record as the bulk insert creates it. *)
Definition freshRow (r : Backend.Transcript) : Prop :=
  Backend.status r = Backend.pending /\ Backend.audio_url r = None.

(** The text ["a\n\nb\n  \nc"]. *)
Definition exampleText : Js.jsstring := [97; 10; 10; 98; 10; 32; 32; 10; 99].

(** A service that answers every request and assigns "t1", "t2", "t3". *)
Definition exampleSrv : Backend.Srv :=
  Backend.mkSrv (fun _ => None) (fun p => Some (String.append "https://cdn/" p))
    [("t1", 1); ("t2", 2); ("t3", 3)].

Definition emptyBackend : Backend.t := Backend.mk [] ∅.

(** The example text typed into the form of a page without tasks. *)
Definition typedWorld : App.World :=
  App.step (App.Typed exampleText) (App.init emptyBackend).

(** A session recording the pending task "t1". *)
Definition recordingWorld : App.World :=
  App.mkWorld
    (Home.mkState (Some true)
       (Some (Backend.mkTranscript "t1" [97] None Backend.pending 1))
       1 0 None false Home.record [] false None)
    TranscriptInput.init
    (Backend.mk [Backend.mkTranscript "t1" [97] None Backend.pending 1] ∅)
    [] [].

Definition doneRow : Backend.Transcript :=
  Backend.mkTranscript "t1" [97] (Some "https://cdn/old") Backend.completed 1.

(** A session re-recording the completed task "t1". *)
Definition rerecordWorld : App.World :=
  App.mkWorld
    (Home.mkState (Some true) None 1 1 None false Home.record [doneRow] false
       (Some doneRow))
    TranscriptInput.init
    (Backend.mk [doneRow] {[ Home.filePath "t1" := [9] ]})
    [] [].

(** The same session once the confirmed blob is uploaded. *)
Definition rerecordUploaded : App.World :=
  App.resume exampleSrv (App.KUpload "t1" true (Home.filePath "t1") [1; 2])
    (App.handleRecordingConfirm (Some [1; 2]) "t1" rerecordWorld).

Definition pendingRow : Backend.Transcript :=
  Backend.mkTranscript "t2" [98] None Backend.pending 2.

(** The review list is on screen over a table of one completed and one
    pending task. *)
Definition reviewWorld : App.World :=
  App.mkWorld
    (Home.mkState (Some true) None 0 0 None false Home.review [] false None)
    TranscriptInput.init
    (Backend.mk [doneRow; pendingRow] ∅)
    [] [].

Definition insertPayload : Home.Payload :=
  Home.mkPayload Home.INSERT (Some pendingRow) None.

(** A delete notification for the task being re-recorded. *)
Definition deletePayload : Home.Payload :=
  Home.mkPayload Home.DELETE None (Some doneRow).

Definition updatePayload : Home.Payload :=
  Home.mkPayload Home.UPDATE (Some doneRow) (Some doneRow).

(** The three shapes a step can give the table. *)
Inductive TableStep (old new : list Backend.Transcript) : Prop :=
| Unchanged : new = old -> TableStep old new
| Completed (rowId url : string) :
    new = map (Backend.updateRow rowId url Backend.completed) old -> TableStep old new
| Inserted (news : list Backend.Transcript) :
    new = old ++ news -> Forall freshRow news -> TableStep old new.

(** A completed task is re-recorded and confirmed while new lines are
    submitted in between. *)
Definition rerecordRun : list App.Event :=
  [App.StartRerecord doneRow;
   App.Typed exampleText; App.Submit;
   App.Confirm (Some [1; 2]) "t1";
   App.Settle 0 (Backend.mkSrv (fun _ => None) (fun _ => None)
                   [("t3", 3); ("t4", 4); ("t5", 5)]);
   App.Settle 0 exampleSrv;
   App.Settle 0 exampleSrv].

(** A notification arrives during the re-record and its first two
    fetches are answered. *)
Definition rerecordThenNotified : list App.Event :=
  [App.Change insertPayload; App.Settle 0 exampleSrv; App.Settle 0 exampleSrv].

(** A browser with a microphone and no stream open. *)
Definition browser : Recorder.Platform :=
  Recorder.mkPlatform true None [] [] [].

(** The recorder of task "t1", mounted, permission granted. *)
Definition readyRecorder : Recorder.World :=
  Recorder.step (Recorder.Settle 0 (Recorder.Resolved true))
    (Recorder.mount "t1" false browser).

(** Two clicks on the record control before the first capture request
    has resolved, then both requests resolve. *)
Definition doubleStart : list Recorder.Event :=
  [Recorder.ClickRecord; Recorder.ClickRecord;
   Recorder.Settle 0 (Recorder.Resolved true);
   Recorder.Settle 0 (Recorder.Resolved true)].

(** A browser whose MediaRecorder rejects the requested container. *)
Definition legacyBrowser : Recorder.Platform :=
  Recorder.mkPlatform true (Some "mimeType is not supported") [] [] [].

Definition legacyRecorder : Recorder.World :=
  Recorder.step (Recorder.Settle 0 (Recorder.Resolved true))
    (Recorder.mount "t1" false legacyBrowser).

(** A start whose capture resolves, then a second one. *)
Definition startTwice : list Recorder.Event :=
  [Recorder.ClickRecord; Recorder.Settle 0 (Recorder.Resolved true);
   Recorder.ClickRecord; Recorder.Settle 0 (Recorder.Resolved true)].

(** ** Further parts of the components *)

(** The submit button of TranscriptInput. *)
Module InputView.

(** [transcriptList.trim()
      ? transcriptList.trim().split('\n').filter(l => l.trim()).length : 0] *)
Definition lineCount (transcriptList : Js.jsstring) : nat :=
  if Js.truthy (Js.trim transcriptList)
  then length (List.filter (fun l => Js.truthy (Js.trim l))
                 (Js.split_nl (Js.trim transcriptList)))
  else 0%nat.

(** [disabled={isSubmitting || lineCount === 0}] *)
Definition submitDisabled (s : TranscriptInput.State) : bool :=
  TranscriptInput.isSubmitting s
  || Nat.eqb (lineCount (TranscriptInput.transcriptList s)) 0.

(** The form is submitted through its button only. *)
Definition clickSubmit (w : App.World) : App.World :=
  if submitDisabled (App.input w) then w else App.handleSubmit w.

End InputView.

(** What [Home] returns from its render. *)
Module HomeView.

Inductive RecorderArea :=
| NoRecorderArea
| LoadingTranscript                       (* 'Loading transcript...' *)
| RecorderFor (tr : Backend.Transcript) (cancelButton : bool)
| AllPendingDone.

Inductive Screen :=
| LoadingScreen                           (* first early return *)
| ErrorScreen (message : string)          (* second early return *)
| Page (modeButtons : option (bool * bool))  (* disabled flags, when shown *)
       (uploadingOverlay intakeForm : bool)
       (recorderArea : RecorderArea)
       (reviewBlock fallback : bool).

Definition isNull {A} (o : option A) : bool :=
  match o with None => true | Some _ => false end.

Definition isFalse (o : option bool) : bool :=
  match o with Some false => true | _ => false end.

(** Truthiness of [error]: [null] and [''] are falsy. *)
Definition shownError (e : option string) : option string :=
  match e with
  | Some m => if String.eqb m "" then None else Some m
  | None => None
  end.

Definition render (isLoading : bool) (s : Home.State) : Screen :=
  if isLoading && isNull (Home.transcriptsExist s) then LoadingScreen
  else
    match shownError (Home.error s) with
    | Some m => ErrorScreen m
    | None =>
        let exist := App.isTrue (Home.transcriptsExist s) in
        let rerecord := negb (isNull (Home.transcriptToRerecord s)) in
        let inRecord := Home.Mode_eqb (Home.mode s) Home.record in
        let inReview := Home.Mode_eqb (Home.mode s) Home.review in
        let active := Home.activeTranscript s in
        Page
          (if exist
           then Some (inRecord && negb rerecord, inReview || rerecord)
           else None)
          (Home.isUploading s)
          (isFalse (Home.transcriptsExist s) && negb isLoading)
          (if exist && (inRecord || rerecord)
           then
             if isLoading && isNull active then LoadingTranscript
             else match active with
                  | Some tr => RecorderFor tr rerecord
                  | None => AllPendingDone
                  end
           else NoRecorderArea)
          (exist && inReview && negb rerecord)
          (exist && negb isLoading && isNull active && inRecord && negb rerecord)
    end.

End HomeView.

(** Only blank lines and spaces in the form. *)
Definition blankWorld : App.World :=
  App.step (App.Typed [32; 10; 10; 9; 32]) (App.init emptyBackend).

(** The service's verdict on a bulk insert: the error it reports, if any. *)
Definition insertVerdict (srv : Backend.Srv) (rows : list Js.jsstring) (b : Backend.t)
  : option string :=
  match Backend.fault srv (Backend.TableInsert rows) with
  | Some e => Some e
  | None => fst (Backend.insert (Backend.stamps srv) rows b)
  end.

(** A service that refuses every request without giving a reason. *)
Definition downSrv : Backend.Srv :=
  Backend.mkSrv (fun _ => Some "") (fun _ => None) [].

(** Newest first. *)
Definition newerOrSame (a b : Backend.Transcript) : Prop :=
  (Backend.created_at b <= Backend.created_at a)%N.

(** What no write of the page may change in a record. *)
Definition core (r : Backend.Transcript) : string * Js.jsstring * N :=
  (Backend.id r, Backend.transcript r, Backend.created_at r).

(** A service that stores objects but cannot resolve their public URL. *)
Definition noUrlSrv : Backend.Srv :=
  Backend.mkSrv (fun _ => None) (fun _ => None) [].

(** The first effect of [Home]: the existence check run on mount, with
    the [isLoading] cell it drives. *)
Module Startup.

Record World := mk {
  isLoading : bool;
  checking : bool;                   (* the count query is under way *)
  page : App.World
}.

Definition mounted (b : Backend.t) : World := mk true false (App.init b).

(** [checkExistence] up to its [await]. *)
Definition checkExistence (l : World) : World :=
  mk true true (App.onHome (Home.setError None) (page l)).

(** The count query settles: with an error message, or with the count,
    which is [null] or the number of records. *)
Definition settle (answer : string + option nat) (l : World) : World :=
  if checking l then
    match answer with
    | inl e =>
        mk false false
          (App.onHome (Home.setTranscriptsExist (Some false))
             (App.onHome (Home.setError
                (Some (String.append "Failed to check for transcripts: " e))) (page l)))
    | inr count =>
        let exist := Nat.ltb 0 (match count with Some n => n | None => 0%nat end) in
        let p1 := App.onHome (Home.setTranscriptsExist (Some exist)) (page l) in
        mk false false
          (if exist then p1 else App.onHome (Home.setMode Home.record) p1)
    end
  else l.

(** What the service answers on the table as it is. *)
Definition answerOf (err : option string) (l : World) : string + option nat :=
  match err with
  | Some e => inl e
  | None => inr (Some (Backend.countAll (App.backend (page l))))
  end.

Definition screen (l : World) : HomeView.Screen :=
  HomeView.render (isLoading l) (App.home (page l)).

End Startup.

(** An upload under way stores its blob at the path of its task. *)
Definition pathOfTask (k : App.Kont) : Prop :=
  match k with
  | App.KUpload t _ path _ => path = Home.filePath t
  | _ => True
  end.

(** Number of streams of [l] whose tracks are live. *)
Definition live (l : list bool) : nat := length (List.filter (fun b : bool => b) l).

Arguments live : simpl never.

(** The recording flag is up only while the recorder in the ref records. *)
Definition recordingConsistent (w : Recorder.World) : Prop :=
  Recorder.isRecording (Recorder.ui w) = true ->
  exists r,
    Recorder.mediaRecorder (Recorder.ui w) = Some r /\
    Recorder.recorderState r (Recorder.platform w) = Recorder.recording.

(** Every object URL still registered is the one in [audioUrl]. *)
Definition urlsTidy (w : Recorder.World) : Prop :=
  forall v,
    Recorder.urls (Recorder.platform w) !! v = Some true ->
    Recorder.audioUrl (Recorder.ui w) = Some v.

(** [w'] has the recording flag, the ref and the recorders of [w]. *)
Definition keeps (w w' : Recorder.World) : Prop :=
  Recorder.isRecording (Recorder.ui w') = Recorder.isRecording (Recorder.ui w) /\
  Recorder.mediaRecorder (Recorder.ui w') = Recorder.mediaRecorder (Recorder.ui w) /\
  Recorder.recorders (Recorder.platform w') = Recorder.recorders (Recorder.platform w).

(** The recording flag is down, or the ref holds a recorder that records. *)
Definition settled (w' : Recorder.World) : Prop :=
  Recorder.isRecording (Recorder.ui w') = false \/
  exists r, Recorder.mediaRecorder (Recorder.ui w') = Some r /\
            Recorder.recorderState r (Recorder.platform w') = Recorder.recording.

(** The ready recorder after a start whose capture resolved. *)
Definition recorderAtWork : Recorder.World :=
  Recorder.run [Recorder.ClickRecord; Recorder.Settle 0 (Recorder.Resolved true)]
    readyRecorder.




(** The second effect of [Home] (page.tsx l.151-207) and the renders
    that re-run it. *)
Module HomeEffect.

(** The dependencies that can change between renders:
    [transcriptsExist] and [transcriptToRerecord?.id]; the three fetch
    functions in the list are memoised with [useCallback(..., [])]. *)
Definition deps (s : Home.State) : option bool * option string :=
  (Home.transcriptsExist s, Home.optId (Home.transcriptToRerecord s)).

Definition sameDeps (a b : Home.State) : bool :=
  bool_decide (deps a = deps b).

(** The effect's requests: under [transcriptsExist === true] it calls
    [fetchCounts()] and then [fetchNextPendingTranscript()], each up to
    its first [await], and renews the subscription the [Change] events
    arrive through.  The [isLoading] flag it raises until both have
    returned is not a cell of [Home.State]. *)
Definition body (w : App.World) : App.World :=
  if App.isTrue (Home.transcriptsExist (App.home w))
  then App.fetchNextPendingTranscript (App.fetchCounts w)
  else w.

(** The state updates of one synchronous segment are rendered together;
    after that render, and before the next event is handled, the effect
    runs again when a dependency differs from the render before. *)
Definition commit (before : Home.State) (w : App.World) : App.World :=
  if sameDeps before (App.home w) then w else body w.

Definition step (e : App.Event) (w : App.World) : App.World :=
  commit (App.home w) (App.step e w).

Definition run (es : list App.Event) (w : App.World) : App.World :=
  fold_left (fun w e => step e w) es w.

End HomeEffect.

(** Events of a [MediaRecorder] the component did not ask for. *)
Module PlatformEvents.

Import Recorder.

(** [recorder.onerror] (Recorder.tsx l.125-130); [resetState] is the one
    of the [startRecording] call that created the recorder. *)
Definition onerror (r : nat) (w : World) : World :=
  match recorders (platform w) !! r with
  | Some rec =>
      onPlatform (stopTracks (stream rec))
        (resetState (owner rec)
           (onUi (setError (Some "An error occurred during recording.")) w))
  | None => w
  end.

(** The platform ends a recording by itself, as when the tracks of the
    captured stream end: the recorder becomes inactive and its
    [dataavailable] and [stop] events are queued, as after [stop()]. *)
Definition endedByPlatform (r : nat) (w : World) : World :=
  if isInactive (recorderState r (platform w)) then w else recorderStop r w.

Inductive Event :=
| Component (e : Recorder.Event)          (* an event of [Recorder.step] *)
| RecorderError (r : nat)                 (* the error event of recorder r *)
| PlatformStop (r : nat).                 (* recorder r is stopped by the platform *)

Definition step (e : Event) (w : World) : World :=
  match e with
  | Component e' => Recorder.step e' w
  | RecorderError r => onerror r w
  | PlatformStop r => endedByPlatform r w
  end.

Definition run (es : list Event) (w : World) : World :=
  fold_left (fun w e => step e w) es w.

Definition isPlatformStop (e : Event) : bool :=
  match e with PlatformStop _ => true | _ => false end.

End PlatformEvents.

(** A recording is broken off by a recorder error, and a second one is
    started. *)
Definition recordedAfterError : list PlatformEvents.Event :=
  [PlatformEvents.Component (Recorder.Settle 0 (Recorder.Resolved true));
   PlatformEvents.Component Recorder.ClickRecord;
   PlatformEvents.Component (Recorder.Settle 0 (Recorder.Resolved true));
   PlatformEvents.RecorderError 0;
   PlatformEvents.Component Recorder.ClickRecord;
   PlatformEvents.Component (Recorder.Settle 0 (Recorder.Resolved true))].

(** * Properties *)

(** ** Intake: lines of the submitted text *)

Section Lines.

Import Js.

Lemma split_nl_not_nil (s : jsstring) : split_nl s <> [].
Proof.
  destruct s as [|c r]; simpl; [discriminate|].
  destruct (c =? LF); [discriminate|].
  destruct (split_nl r); discriminate.
Qed.

Lemma trim_cons_ws (c : N) (l : jsstring) :
  isStrWhiteSpaceChar c = true -> trim (c :: l) = trim l.
Proof. intros H. unfold trim. simpl. now rewrite H. Qed.

Lemma trimEnd_snoc_ws (c : N) (l : jsstring) :
  isStrWhiteSpaceChar c = true -> trimEnd (l ++ [c]) = trimEnd l.
Proof. intros H. unfold trimEnd. rewrite rev_unit. simpl. now rewrite H. Qed.

Lemma trim_snoc_ws (c : N) (l : jsstring) :
  isStrWhiteSpaceChar c = true -> trim (l ++ [c]) = trim l.
Proof.
  intros H. unfold trim. induction l as [|d r IH]; simpl.
  - now rewrite H.
  - destruct (isStrWhiteSpaceChar d); [exact IH|].
    change (d :: r ++ [c]) with ((d :: r) ++ [c]).
    now apply trimEnd_snoc_ws.
Qed.

Lemma split_nl_snoc (x : jsstring) (c : N) :
  split_nl (x ++ [c]) =
  if c =? LF then split_nl x ++ [[]] else appLast (split_nl x) c.
Proof.
  induction x as [|d r IH]; simpl.
  - destruct (c =? LF); reflexivity.
  - rewrite IH. pose proof (split_nl_not_nil r) as Hne.
    destruct (d =? LF), (c =? LF); simpl; try reflexivity.
    + destruct (split_nl r) as [|l0 ls0]; [congruence | reflexivity].
    + destruct (split_nl r) as [|l0 ls0]; [congruence | reflexivity].
    + destruct (split_nl r) as [|l0 [|l1 ls1]]; [congruence | reflexivity | reflexivity].
Qed.

Lemma kept_split_cons_ws (c : N) (s : jsstring) :
  isStrWhiteSpaceChar c = true ->
  kept (split_nl (c :: s)) = kept (split_nl s).
Proof.
  intros H. simpl. destruct (c =? LF); [reflexivity|].
  pose proof (split_nl_not_nil s) as Hne.
  destruct (split_nl s) as [|l ls]; [congruence|].
  unfold kept. simpl. now rewrite (trim_cons_ws c l H).
Qed.

Lemma kept_appLast_ws (c : N) (ls : list jsstring) :
  isStrWhiteSpaceChar c = true -> ls <> [] ->
  kept (appLast ls c) = kept ls.
Proof.
  intros H. induction ls as [|l [|l' ls'] IH]; intros Hne; [congruence| |].
  - unfold kept. simpl. now rewrite (trim_snoc_ws c l H).
  - change (appLast (l :: l' :: ls') c) with (l :: appLast (l' :: ls') c).
    unfold kept in *. simpl map. simpl List.filter.
    simpl map in IH. rewrite IH by discriminate. reflexivity.
Qed.

Lemma kept_split_snoc_ws (c : N) (x : jsstring) :
  isStrWhiteSpaceChar c = true ->
  kept (split_nl (x ++ [c])) = kept (split_nl x).
Proof.
  intros H. rewrite split_nl_snoc. destruct (c =? LF).
  - unfold kept. rewrite map_app, List.filter_app. simpl. apply app_nil_r.
  - apply kept_appLast_ws; [exact H | apply split_nl_not_nil].
Qed.

Lemma kept_split_trimStart (s : jsstring) :
  kept (split_nl (trimStart s)) = kept (split_nl s).
Proof.
  induction s as [|c r IH]; [reflexivity|].
  simpl trimStart. destruct (isStrWhiteSpaceChar c) eqn:E; [|reflexivity].
  rewrite IH. symmetry. now apply kept_split_cons_ws.
Qed.

Lemma kept_split_trimEnd (s : jsstring) :
  kept (split_nl (trimEnd s)) = kept (split_nl s).
Proof.
  unfold trimEnd. rewrite <- (rev_involutive s) at 2.
  induction (rev s) as [|c r IH]; [reflexivity|].
  simpl trimStart. destruct (isStrWhiteSpaceChar c) eqn:E; [|reflexivity].
  rewrite IH. simpl rev. symmetry. now apply kept_split_snoc_ws.
Qed.

(** Trimming the whole text first does not change which lines are kept. *)
Lemma lines_nonEmptyTrimmedLines (text : jsstring) :
  TranscriptInput.lines text = TranscriptInput.nonEmptyTrimmedLines text.
Proof.
  change (kept (split_nl (trim text)) = kept (split_nl text)).
  unfold trim. now rewrite kept_split_trimEnd, kept_split_trimStart.
Qed.

Lemma validate_lines (text : jsstring) :
  TranscriptInput.validate text =
  match TranscriptInput.nonEmptyTrimmedLines text with
  | [] => if nonEmpty (trim text)
          then TranscriptInput.RejectNoLines else TranscriptInput.RejectEmpty
  | rows => TranscriptInput.Accept rows
  end.
Proof.
  unfold TranscriptInput.validate, truthy.
  rewrite <- lines_nonEmptyTrimmedLines.
  destruct (nonEmpty (trim text)) eqn:E; simpl.
  - destruct (TranscriptInput.lines text); reflexivity.
  - unfold TranscriptInput.lines.
    destruct (trim text); [reflexivity | discriminate].
Qed.

End Lines.

(** ** Backend writes *)

Section BackendFacts.

Import Backend.

Lemma insertRows_appends (rows : list Js.jsstring) :
  forall st b b',
    insertRows st rows b = (None, b') ->
    storage b' = storage b /\
    exists news,
      table b' = table b ++ news /\
      map transcript news = rows /\
      Forall freshRow news.
Proof.
  induction rows as [|text rest IH]; intros st b b' H; simpl in H.
  - inversion H; subst. split; [reflexivity|].
    exists []. rewrite app_nil_r. repeat split; constructor.
  - destruct st as [|[i ts] st']; [discriminate|].
    destruct (fresh b i); [|discriminate].
    apply IH in H. simpl in H. destruct H as [Hs (news & Ht & Hm & Hf)].
    split; [exact Hs|].
    exists (mkTranscript i text None pending ts :: news).
    rewrite Ht, <- app_assoc. simpl. repeat split.
    + now rewrite Hm.
    + constructor; [split; reflexivity | exact Hf].
Qed.

Lemma insert_appends st rows b b' :
  insert st rows b = (None, b') ->
  storage b' = storage b /\
  exists news,
    table b' = table b ++ news /\
    map transcript news = rows /\
    Forall freshRow news.
Proof.
  unfold insert. destruct (insertRows st rows b) as [[e|] b1] eqn:E; [discriminate|].
  intros H; inversion H; subst. now apply insertRows_appends with (st := st).
Qed.

Lemma insert_rejected st rows b e b' :
  insert st rows b = (Some e, b') -> b' = b.
Proof.
  unfold insert. destruct (insertRows st rows b) as [[e'|] b1]; intros H; now inversion H.
Qed.

End BackendFacts.

(** ** Claims *)

(** C1. For every text in the intake form, [handleSubmit] sends one bulk
    insert whose rows are exactly the non-empty trimmed lines of the text
    (and sends nothing when there is none); when the service accepts the
    batch the table grows by one pending record without audio per such
    line, carrying the trimmed line as its text.  The text
    ["a\n\nb\n  \nc"] gives the three rows "a", "b", "c". *)
Theorem C1_intake_creates_one_task_per_line (text : Js.jsstring) (w : App.World) :
  TranscriptInput.transcriptList (App.input w) = text ->
  let rows := TranscriptInput.nonEmptyTrimmedLines text in
  let w1 := App.handleSubmit w in
  App.backend w1 = App.backend w /\
  (rows = [] ->
     App.pending w1 = App.pending w /\ App.issued w1 = App.issued w) /\
  (rows <> [] ->
     App.pending w1 = App.pending w ++ [App.KInsert rows] /\
     App.issued w1 = App.issued w ++ [Backend.TableInsert rows]) /\
  (forall (srv : Backend.Srv) (w2 : App.World),
     Backend.fault srv (Backend.TableInsert rows) = None ->
     fst (Backend.insert (Backend.stamps srv) rows (App.backend w2)) = None ->
     exists news,
       Backend.table (App.backend (App.resume srv (App.KInsert rows) w2))
         = Backend.table (App.backend w2) ++ news /\
       length news = length rows /\
       map Backend.transcript news = rows /\
       Forall freshRow news) /\
  TranscriptInput.nonEmptyTrimmedLines exampleText = [[97]; [98]; [99]].
Proof.
  intros Htext rows w1. subst w1 rows.
  unfold App.handleSubmit. rewrite Htext, validate_lines.
  repeat split.
  - destruct (TranscriptInput.nonEmptyTrimmedLines text);
      [destruct (Js.nonEmpty (Js.trim text))|]; reflexivity.
  - rewrite H. destruct (Js.nonEmpty (Js.trim text)); reflexivity.
  - rewrite H. destruct (Js.nonEmpty (Js.trim text)); reflexivity.
  - destruct (TranscriptInput.nonEmptyTrimmedLines text); [congruence | reflexivity].
  - destruct (TranscriptInput.nonEmptyTrimmedLines text); [congruence | reflexivity].
  - intros srv w2 Hfault Hins. cbn [App.resume]. rewrite Hfault.
    destruct (Backend.insert (Backend.stamps srv)
                (TranscriptInput.nonEmptyTrimmedLines text) (App.backend w2))
      as [[e|] b'] eqn:E; [discriminate|].
    apply insert_appends in E. destruct E as [_ (news & Ht & Hm & Hf)].
    exists news. cbn. repeat split; try assumption.
    rewrite <- Hm. now rewrite length_map.
Qed.

Lemma C1_intake_witness :
  TranscriptInput.transcriptList (App.input typedWorld) = exampleText /\
  exists news,
    Backend.table
      (App.backend
         (App.resume exampleSrv (App.KInsert [[97]; [98]; [99]])
            (App.handleSubmit typedWorld)))
      = [] ++ news /\
    length news = 3%nat /\
    map Backend.transcript news = [[97]; [98]; [99]] /\
    Forall freshRow news.
Proof.
  split; [reflexivity|].
  exact (proj1 (proj2 (proj2 (proj2
           (C1_intake_creates_one_task_per_line exampleText typedWorld eq_refl))))
         exampleSrv (App.handleSubmit typedWorld) eq_refl eq_refl).
Defined.

(** ** Confirmation of a recording *)

Section Confirm.

Import Backend.

Lemma find_updateRow (i rowId url : string) (st : Status) (rows : list Transcript) :
  List.find (fun r => String.eqb (id r) i) (map (updateRow rowId url st) rows)
  = option_map (updateRow rowId url st)
      (List.find (fun r => String.eqb (id r) i) rows).
Proof.
  induction rows as [|r rest IH]; [reflexivity|].
  simpl. assert (Hid : id (updateRow rowId url st r) = id r).
  { unfold updateRow. destruct (String.eqb (id r) rowId); reflexivity. }
  rewrite Hid. destruct (String.eqb (id r) i); [reflexivity | exact IH].
Qed.

Lemma statusOf_update_same (rowId url : string) (st : Status) (b : Backend.t) :
  App.statusOf b rowId <> None ->
  App.statusOf (update rowId url st b) rowId = Some st /\
  App.audioOf (update rowId url st b) rowId = Some (Some url).
Proof.
  unfold App.statusOf, App.audioOf, update. simpl. rewrite find_updateRow.
  destruct (List.find _ (table b)) as [r|] eqn:E; [|congruence].
  intros _. apply List.find_some in E. destruct E as [_ E].
  simpl. unfold updateRow. rewrite E. split; reflexivity.
Qed.

Lemma statusOf_update_other (i rowId url : string) (st : Status) (b : Backend.t) :
  i <> rowId ->
  App.statusOf (update rowId url st b) i = App.statusOf b i /\
  App.audioOf (update rowId url st b) i = App.audioOf b i.
Proof.
  intros Hne. unfold App.statusOf, App.audioOf, update. simpl. rewrite find_updateRow.
  destruct (List.find _ (table b)) as [r|] eqn:E; [|split; reflexivity].
  apply List.find_some in E. destruct E as [_ E].
  apply String.eqb_eq in E. simpl. unfold updateRow.
  destruct (String.eqb (id r) rowId) eqn:E'; [|split; reflexivity].
  apply String.eqb_eq in E'. congruence.
Qed.

End Confirm.

(** C10. Without a blob, or with an empty task identifier,
    [handleRecordingConfirm] only sets the error "Recording data is
    missing.": it sends nothing, leaves no promise pending, does not touch
    the backend and does not raise the uploading flag. *)
Theorem C10_missing_recording_data
    (blob : option Backend.Blob) (transcriptId : string) (w : App.World) :
  blob = None \/ transcriptId = "" ->
  let w' := App.handleRecordingConfirm blob transcriptId w in
  w' = App.onHome (Home.setError (Some "Recording data is missing.")) w /\
  Home.error (App.home w') = Some "Recording data is missing." /\
  Home.isUploading (App.home w') = Home.isUploading (App.home w) /\
  App.backend w' = App.backend w /\
  App.issued w' = App.issued w /\
  App.pending w' = App.pending w.
Proof.
  intros H w'. assert (E : w' = App.onHome (Home.setError (Some "Recording data is missing.")) w).
  { subst w'. unfold App.handleRecordingConfirm.
    destruct H as [-> | ->]; [reflexivity|]. destruct blob; reflexivity. }
  rewrite E. repeat split.
Qed.

Lemma C10_missing_recording_data_witness :
  Home.error (App.home (App.handleRecordingConfirm None "t1" recordingWorld))
    = Some "Recording data is missing." /\
  App.issued (App.handleRecordingConfirm (Some [1; 2]) "" recordingWorld) = [].
Proof.
  split.
  - exact (proj1 (proj2
      (C10_missing_recording_data None "t1" recordingWorld (or_introl eq_refl)))).
  - exact (proj1 (proj2 (proj2 (proj2 (proj2
      (C10_missing_recording_data (Some [1; 2]) "" recordingWorld (or_intror eq_refl))))))).
Defined.

(** C3. With a blob and an identifier that is not the one of the active
    task (the re-record target if set, otherwise the current pending task;
    also when there is no active task), [handleRecordingConfirm] only sets a
    validation error: nothing is sent, no promise is left pending, the
    backend and the uploading flag are untouched. *)
Theorem C3_mismatched_identifier_rejected
    (blob : Backend.Blob) (transcriptId : string) (w : App.World) :
  Home.optId (Home.activeTranscript (App.home w)) <> Some transcriptId ->
  let w' := App.handleRecordingConfirm (Some blob) transcriptId w in
  Home.error (App.home w')
    = Some (if String.eqb transcriptId ""
            then "Recording data is missing." else "Transcript ID mismatch.") /\
  Home.isUploading (App.home w') = Home.isUploading (App.home w) /\
  App.backend w' = App.backend w /\
  App.issued w' = App.issued w /\
  App.pending w' = App.pending w.
Proof.
  intros H w'. subst w'. unfold App.handleRecordingConfirm.
  destruct (String.eqb transcriptId "") eqn:E0; [repeat split|].
  destruct (Home.activeTranscript (App.home w)) as [tr|]; [|repeat split].
  destruct (String.eqb (Backend.id tr) transcriptId) eqn:E; [|repeat split].
  apply String.eqb_eq in E. simpl in H. congruence.
Qed.

Lemma C3_mismatched_identifier_witness :
  Home.optId (Home.activeTranscript (App.home recordingWorld)) <> Some "t2" /\
  Home.error (App.home (App.handleRecordingConfirm (Some [1; 2]) "t2" recordingWorld))
    = Some "Transcript ID mismatch." /\
  App.issued (App.handleRecordingConfirm (Some [1; 2]) "t2" recordingWorld) = [].
Proof.
  assert (H : Home.optId (Home.activeTranscript (App.home recordingWorld)) <> Some "t2")
    by discriminate.
  split; [exact H|].
  pose proof (C3_mismatched_identifier_rejected [1; 2] "t2" recordingWorld H) as T.
  split; [exact (proj1 T) | exact (proj1 (proj2 (proj2 (proj2 T))))].
Defined.

(** C2. A confirmation for the active task [t] uploads the blob to
    [filePath t], a path computed from [t] alone, with upsert; when the
    upload settles without error the object at that path is the new blob
    (whatever was there before), the public URL is resolved and one update
    carrying both the URL and status completed is sent; when that update
    settles without error every row called [t] has the URL and status
    completed, so a re-recorded task is still completed. *)
Theorem C2_confirm_uploads_then_completes
    (blob : Backend.Blob) (t : string) (tr : Backend.Transcript) (w : App.World) :
  Home.activeTranscript (App.home w) = Some tr ->
  Backend.id tr = t ->
  t <> "" ->
  let path := Home.filePath t in
  let isRerecord :=
    Home.strictEq (Home.optId (Home.transcriptToRerecord (App.home w))) (Some t) in
  let w1 := App.handleRecordingConfirm (Some blob) t w in
  (* the synchronous segment *)
  (path = String.append "audio/" (String.append t ".webm") /\
   App.issued w1 = App.issued w ++ [Backend.StorageUpload "audio" path blob true] /\
   App.pending w1 = App.pending w ++ [App.KUpload t isRerecord path blob] /\
   App.backend w1 = App.backend w /\
   Home.isUploading (App.home w1) = true) /\
  (* the upload settles *)
  (forall (srv : Backend.Srv) (w2 : App.World) (url : string),
     Backend.fault srv (Backend.StorageUpload "audio" path blob true) = None ->
     App.usableUrl (Backend.publicUrl srv path) = Some url ->
     let w3 := App.resume srv (App.KUpload t isRerecord path blob) w2 in
     Backend.storage (App.backend w3) !! path = Some blob /\
     Backend.table (App.backend w3) = Backend.table (App.backend w2) /\
     App.issued w3 = App.issued w2 ++
       [Backend.StorageGetPublicUrl "audio" path;
        Backend.TableUpdate t url Backend.completed] /\
     App.pending w3 = App.pending w2 ++ [App.KUpdate t isRerecord url]) /\
  (* the update settles *)
  (forall (srv : Backend.Srv) (w4 : App.World) (url : string),
     Backend.fault srv (Backend.TableUpdate t url Backend.completed) = None ->
     let w5 := App.resume srv (App.KUpdate t isRerecord url) w4 in
     App.backend w5 = Backend.update t url Backend.completed (App.backend w4) /\
     (App.statusOf (App.backend w4) t <> None ->
        App.statusOf (App.backend w5) t = Some Backend.completed /\
        App.audioOf (App.backend w5) t = Some (Some url)) /\
     (forall i, i <> t ->
        App.statusOf (App.backend w5) i = App.statusOf (App.backend w4) i /\
        App.audioOf (App.backend w5) i = App.audioOf (App.backend w4) i) /\
     App.issued w5 = App.issued w4 ++
       (if isRerecord then [Backend.SelectCompleted] else []) /\
     Home.isUploading (App.home w5) = false).
Proof.
  intros Hact Hid Hne path isRerecord w1.
  split; [|split].
  - subst w1. unfold App.handleRecordingConfirm.
    apply String.eqb_neq in Hne. rewrite Hne, Hact.
    subst t. rewrite String.eqb_refl. repeat split.
  - intros srv w2 url Hfault Hurl w3. subst w3. cbn [App.resume].
    change Home.bucketName with "audio". rewrite Hfault.
    assert (Hup : exists b', Backend.upload path blob true (App.backend w2) = (None, b')
                    /\ Backend.storage b' = <[path := blob]> (Backend.storage (App.backend w2))
                    /\ Backend.table b' = Backend.table (App.backend w2)).
    { unfold Backend.upload.
      destruct (Backend.storage (App.backend w2) !! path); eexists; repeat split. }
    destruct Hup as (b' & -> & Hst & Htb). rewrite Hurl. cbn.
    rewrite Hst, Htb. repeat split.
    + apply lookup_insert_eq.
    + now rewrite <- app_assoc.
  - intros srv w4 url Hfault w5. subst w5. cbn [App.resume]. rewrite Hfault.
    assert (Hb : App.backend
              (App.onHome (Home.setIsUploading false)
                 (if isRerecord
                  then App.fetchCompletedTranscripts
                         (App.onHome (Home.setMode Home.review)
                            (App.onHome (Home.setTranscriptToRerecord None)
                               (App.setBackend
                                  (Backend.update t url Backend.completed (App.backend w4)) w4)))
                  else App.setBackend
                         (Backend.update t url Backend.completed (App.backend w4)) w4))
              = Backend.update t url Backend.completed (App.backend w4))
      by (destruct isRerecord; reflexivity).
    cbv zeta. rewrite Hb. split; [reflexivity|]. split; [|split; [|split]].
    + now apply statusOf_update_same.
    + intros i Hi. now apply statusOf_update_other.
    + destruct isRerecord; cbn; [reflexivity | now rewrite app_nil_r].
    + destruct isRerecord; reflexivity.
Qed.

Lemma C2_confirm_witness :
  Home.activeTranscript (App.home rerecordWorld) = Some doneRow /\
  Backend.storage (App.backend rerecordUploaded) !! Home.filePath "t1" = Some [1; 2] /\
  App.statusOf
    (App.backend
       (App.resume exampleSrv
          (App.KUpdate "t1" true "https://cdn/audio/t1.webm") rerecordUploaded)) "t1"
  = Some Backend.completed.
Proof.
  assert (Hne : "t1" <> "") by discriminate.
  pose proof (C2_confirm_uploads_then_completes [1; 2] "t1" doneRow rerecordWorld
                eq_refl eq_refl Hne) as T.
  split; [reflexivity|]. split.
  - exact (proj1 (proj1 (proj2 T) exampleSrv
             (App.handleRecordingConfirm (Some [1; 2]) "t1" rerecordWorld)
             "https://cdn/audio/t1.webm" eq_refl eq_refl)).
  - assert (Hrow : App.statusOf (App.backend rerecordUploaded) "t1" <> None)
      by (vm_compute; discriminate).
    exact (proj1 (proj1 (proj2 (proj2 (proj2 T) exampleSrv rerecordUploaded
             "https://cdn/audio/t1.webm" eq_refl)) Hrow)).
Defined.

(** ** Realtime reconciliation *)

Section Reconcile.

Import Backend.

Lemma oldest_least (rows : list Transcript) (r : Transcript) :
  oldest rows = Some r ->
  In r rows /\ forall r', In r' rows -> (created_at r <= created_at r')%N.
Proof.
  revert r. induction rows as [|x rest IH]; intros r H; [discriminate|].
  simpl in H. destruct (oldest rest) as [m|] eqn:E.
  - destruct (IH m eq_refl) as [Hin Hle].
    destruct (created_at x <=? created_at m)%N eqn:C; inversion H; subst.
    + apply N.leb_le in C. split; [now left|].
      intros r' [<- | Hr']; [lia|]. specialize (Hle r' Hr'). lia.
    + apply N.leb_gt in C. split; [now right|].
      intros r' [<- | Hr']; [lia | now apply Hle].
  - inversion H; subst. destruct rest as [|y rest'].
    + split; [now left|]. intros r' [<- | []]. lia.
    + simpl in E. destruct (oldest rest'); [destruct (_ <=? _)%N|]; discriminate.
Qed.

Lemma oldest_none (rows : list Transcript) : oldest rows = None -> rows = [].
Proof.
  destruct rows as [|x rest]; [reflexivity|]. simpl.
  destruct (oldest rest); [destruct (_ <=? _)%N|]; discriminate.
Qed.

Lemma isPending_true (r : Transcript) : isPending r = true <-> status r = pending.
Proof. unfold isPending. destruct (status r); simpl; split; congruence. Qed.

(** [nextPending] returns a pending row that no pending row predates. *)
Lemma nextPending_oldest (b : Backend.t) (r : Transcript) :
  nextPending b = Some r ->
  In r (table b) /\ status r = pending /\
  forall r', In r' (table b) -> status r' = pending ->
             (created_at r <= created_at r')%N.
Proof.
  unfold nextPending. intros H. apply oldest_least in H. destruct H as [Hin Hle].
  apply List.filter_In in Hin. destruct Hin as [Hin Hp].
  split; [exact Hin|]. split; [now apply isPending_true|].
  intros r' Hr' Hs. apply Hle. apply List.filter_In. split; [exact Hr'|].
  now apply isPending_true.
Qed.

Lemma nextPending_none (b : Backend.t) :
  nextPending b = None ->
  forall r, In r (table b) -> status r <> pending.
Proof.
  unfold nextPending. intros H r Hr Hs. apply oldest_none in H.
  assert (Hin : In r (List.filter isPending (table b))).
  { apply List.filter_In. split; [exact Hr | now apply isPending_true]. }
  rewrite H in Hin. destruct Hin.
Qed.

End Reconcile.




(** The claim of C7 as stated fails: the notification that the task under
    re-recording was deleted leaves the target set and the mode unchanged. *)
Lemma C7_delete_keeps_target :
  ~ (forall (payload : Home.Payload) (w : App.World),
       Home.optId (Home.transcriptToRerecord (App.home w)) <> None ->
       Home.changedId payload = Home.optId (Home.transcriptToRerecord (App.home w)) ->
       Home.transcriptToRerecord (App.home (App.onPostgresChanges payload w)) = None /\
       Home.mode (App.home (App.onPostgresChanges payload w)) = Home.review).
Proof.
  intros H.
  assert (Hset : Home.optId (Home.transcriptToRerecord (App.home rerecordWorld)) <> None)
    by discriminate.
  destruct (H deletePayload rerecordWorld Hset eq_refl) as [Hnone _].
  discriminate Hnone.
Qed.

(** C7 (amended). An UPDATE notification whose new record carries the
    identifier of the re-record target clears the target and sets the mode
    to review; a notification of another type, or an UPDATE for another
    record, leaves the target and the mode as they are. *)
Theorem C7_update_of_target_clears_rerecord (payload : Home.Payload) (w : App.World) :
  let w' := App.onPostgresChanges payload w in
  (Home.eventType payload = Home.UPDATE ->
   Home.optId (Home.new payload) = Home.optId (Home.transcriptToRerecord (App.home w)) ->
   Home.transcriptToRerecord (App.home w') = None /\
   Home.mode (App.home w') = Home.review) /\
  (Home.eventType payload <> Home.UPDATE \/
   Home.optId (Home.new payload) <> Home.optId (Home.transcriptToRerecord (App.home w)) ->
   Home.transcriptToRerecord (App.home w') = Home.transcriptToRerecord (App.home w) /\
   Home.mode (App.home w') = Home.mode (App.home w)).
Proof.
  assert (Heq : forall a b, Home.strictEq a b = true <-> a = b).
  { intros [x|] [y|]; simpl; split; try congruence.
    - intros E. apply String.eqb_eq in E. congruence.
    - intros E. inversion E. apply String.eqb_refl. }
  intros w'. subst w'. unfold App.onPostgresChanges.
  change (Home.mode (App.home (App.fetchNextPendingTranscript (App.fetchCounts w))))
    with (Home.mode (App.home w)).
  split.
  - intros Hty Hid. rewrite Hty. apply Heq in Hid. rewrite Hid. simpl.
    destruct (Home.Mode_eqb (Home.mode (App.home w)) Home.review); split; reflexivity.
  - intros H.
    assert (C : Home.isUpdate (Home.eventType payload)
                && Home.strictEq (Home.optId (Home.new payload))
                     (Home.optId (Home.transcriptToRerecord (App.home w))) = false).
    { apply andb_false_iff. destruct H as [H | H].
      - left. destruct (Home.eventType payload); simpl; congruence.
      - right. destruct (Home.strictEq _ _) eqn:E; [|reflexivity].
        apply Heq in E. congruence. }
    rewrite C.
    destruct (Home.Mode_eqb (Home.mode (App.home w)) Home.review); split; reflexivity.
Qed.

Lemma C7_update_of_target_witness :
  Home.transcriptToRerecord
    (App.home (App.onPostgresChanges updatePayload rerecordWorld)) = None /\
  Home.mode (App.home (App.onPostgresChanges updatePayload rerecordWorld)) = Home.review /\
  Home.transcriptToRerecord
    (App.home (App.onPostgresChanges deletePayload rerecordWorld)) = Some doneRow.
Proof.
  pose proof (proj1 (C7_update_of_target_clears_rerecord updatePayload rerecordWorld)
                eq_refl eq_refl) as [T1 T2].
  assert (Hd : Home.eventType deletePayload <> Home.UPDATE) by discriminate.
  pose proof (proj2 (C7_update_of_target_clears_rerecord deletePayload rerecordWorld)
                (or_introl Hd)) as [T3 _].
  split; [exact T1|]. split; [exact T2 | exact T3].
Defined.

(** ** Writes to the table over a run *)

Section Runs.

Import Backend.

Lemma run_cons (e : App.Event) (es : list App.Event) (w : App.World) :
  App.run (e :: es) w = App.run es (App.step e w).
Proof. reflexivity. Qed.

Lemma run_app (es es' : list App.Event) (w : App.World) :
  App.run (es ++ es') w = App.run es' (App.run es w).
Proof. unfold App.run. apply fold_left_app. Qed.

Lemma resume_table (srv : Srv) (k : App.Kont) (w : App.World) :
  TableStep (table (App.backend w)) (table (App.backend (App.resume srv k w))).
Proof.
  destruct k as [ | | | |t r path blob|t r url|rows]; cbn [App.resume].
  - destruct (fault srv CountAll); now apply Unchanged.
  - destruct (fault srv CountCompleted); now apply Unchanged.
  - destruct (fault srv SelectNextPending); now apply Unchanged.
  - destruct (fault srv SelectCompleted); now apply Unchanged.
  - destruct (fault srv _); [now apply Unchanged|].
    unfold upload. destruct (storage (App.backend w) !! path);
      destruct (App.usableUrl (publicUrl srv path)); now apply Unchanged.
  - destruct (fault srv _); [now apply Unchanged|].
    apply Completed with (rowId := t) (url := url). destruct r; reflexivity.
  - destruct (fault srv _); [now apply Unchanged|].
    destruct (insert (stamps srv) rows (App.backend w)) as [[e|] b'] eqn:E;
      [now apply Unchanged|].
    apply insert_appends in E. destruct E as [_ (news & Ht & _ & Hf)].
    now apply Inserted with (news := news).
Qed.

Lemma step_table (e : App.Event) (w : App.World) :
  TableStep (table (App.backend w)) (table (App.backend (App.step e w))).
Proof.
  destruct e as [text| |blob t|tr| | | |payload|n srv]; cbn [App.step];
    try (now apply Unchanged).
  - unfold App.handleSubmit.
    destruct (TranscriptInput.validate _); now apply Unchanged.
  - unfold App.handleRecordingConfirm.
    destruct blob; [|now apply Unchanged].
    destruct (String.eqb t ""); [now apply Unchanged|].
    destruct (Home.activeTranscript (App.home w)); [|now apply Unchanged].
    destruct (negb _); now apply Unchanged.
  - destruct (App.isTrue _); [|now apply Unchanged].
    unfold App.onPostgresChanges.
    destruct (Home.Mode_eqb _ _); destruct (_ && _); now apply Unchanged.
  - destruct (App.pending w !! n) as [k|]; [|now apply Unchanged].
    apply (resume_table srv k
             (App.mkWorld (App.home w) (App.input w) (App.backend w) (App.issued w)
                (delete n (App.pending w)))).
Qed.

Lemma find_app_some {A} (f : A -> bool) (l l' : list A) (x : A) :
  List.find f l = Some x -> List.find f (l ++ l') = Some x.
Proof.
  induction l as [|a l IH]; [discriminate|]. simpl.
  destruct (f a); [trivial | exact IH].
Qed.

Lemma tableStep_keeps_completed (old new : list Transcript) (i : string) :
  TableStep old new ->
  App.statusOf (mk old ∅) i = Some completed ->
  App.statusOf (mk new ∅) i = Some completed.
Proof.
  unfold App.statusOf. simpl. intros [-> | rowId url -> | news -> _] H.
  - exact H.
  - rewrite find_updateRow.
    destruct (List.find _ old) as [r|]; [|discriminate]. simpl.
    unfold updateRow. destruct (String.eqb (id r) rowId); [reflexivity | exact H].
  - destruct (List.find _ old) as [r|] eqn:E; [|discriminate].
    now rewrite (find_app_some _ _ news _ E).
Qed.

Lemma statusOf_table (b : Backend.t) (i : string) :
  App.statusOf b i = App.statusOf (mk (table b) ∅) i.
Proof. reflexivity. Qed.

Lemma tableStep_keeps_rows (old new : list Transcript) (r : Transcript) :
  TableStep old new ->
  In r old -> status r = completed ->
  exists r', In r' new /\ id r' = id r /\ transcript r' = transcript r
             /\ status r' = completed.
Proof.
  intros [-> | rowId url -> | news -> _] Hin Hs.
  - exists r. repeat split; assumption.
  - exists (updateRow rowId url completed r). split; [now apply in_map|].
    unfold updateRow. destruct (String.eqb (id r) rowId); repeat split; assumption.
  - exists r. repeat split; try assumption. apply in_or_app. now left.
Qed.

Lemma step_quiet (e : App.Event) (w : App.World) :
  App.quiet e = true -> App.noWritePending w ->
  App.backend (App.step e w) = App.backend w /\ App.noWritePending (App.step e w).
Proof.
  unfold App.noWritePending.
  destruct e as [text| |blob t|tr| | | |payload|n srv]; cbn [App.step App.quiet];
    intros Hq Hp; try discriminate.
  - split; [reflexivity | exact Hp].
  - split; [reflexivity | exact Hp].
  - split; [reflexivity | exact Hp].
  - split; [reflexivity|]. cbn. apply Forall_app. split; [exact Hp | now repeat constructor].
  - split; [reflexivity | exact Hp].
  - destruct (App.isTrue _); [|split; [reflexivity | exact Hp]].
    unfold App.onPostgresChanges.
    destruct (Home.Mode_eqb _ _); destruct (_ && _); (split; [reflexivity|]); cbn;
      rewrite ?Forall_app; repeat split; try exact Hp; now repeat constructor.
  - destruct (App.pending w !! n) as [k|] eqn:E; [|split; [reflexivity | exact Hp]].
    assert (Hk : App.writing k = false).
    { rewrite Forall_forall in Hp. apply Hp.
      eapply list_elem_of_lookup_2. exact E. }
    assert (Hd : Forall (fun k => App.writing k = false) (delete n (App.pending w)))
      by now apply Forall_delete.
    destruct k; try discriminate; cbn [App.resume].
    + destruct (fault srv CountAll); (split; [reflexivity|]); cbn; [exact Hd|].
      apply Forall_app. split; [exact Hd | now repeat constructor].
    + destruct (fault srv CountCompleted); (split; [reflexivity | exact Hd]).
    + destruct (fault srv SelectNextPending); (split; [reflexivity | exact Hd]).
    + destruct (fault srv SelectCompleted); (split; [reflexivity | exact Hd]).
Qed.

Lemma run_quiet (es : list App.Event) :
  forall w, Forall (fun e => App.quiet e = true) es -> App.noWritePending w ->
  App.backend (App.run es w) = App.backend w /\ App.noWritePending (App.run es w).
Proof.
  induction es as [|e es IH]; intros w Hq Hp; [split; [reflexivity | exact Hp]|].
  inversion Hq as [|? ? He Hes]; subst. rewrite run_cons.
  destruct (step_quiet e w He Hp) as [Hb Hp'].
  destruct (IH (App.step e w) Hes Hp') as [Hb' Hp''].
  split; [congruence | exact Hp''].
Qed.

End Runs.

(** C5. Over every sequence of events of the page (submissions,
    confirmations, re-records, notifications, settling promises, in any
    interleaving) a task that is completed stays completed; a step changes
    the table only by appending pending records without audio or by an
    update that sets status completed. *)
Theorem C5_status_never_reverts (es : list App.Event) (w : App.World) :
  (forall i,
     App.statusOf (App.backend w) i = Some Backend.completed ->
     App.statusOf (App.backend (App.run es w)) i = Some Backend.completed) /\
  (forall r,
     In r (Backend.table (App.backend w)) ->
     Backend.status r = Backend.completed ->
     exists r',
       In r' (Backend.table (App.backend (App.run es w))) /\
       Backend.id r' = Backend.id r /\
       Backend.transcript r' = Backend.transcript r /\
       Backend.status r' = Backend.completed) /\
  (forall (e : App.Event) (w0 : App.World),
     TableStep (Backend.table (App.backend w0))
       (Backend.table (App.backend (App.step e w0)))).
Proof.
  split; [|split].
  - revert w. induction es as [|e es IH]; intros w i H; [exact H|].
    rewrite run_cons. apply IH.
    rewrite statusOf_table. rewrite statusOf_table in H.
    exact (tableStep_keeps_completed _ _ i (step_table e w) H).
  - revert w. induction es as [|e es IH]; intros w r Hin Hs.
    + exists r. repeat split; assumption.
    + rewrite run_cons.
      destruct (tableStep_keeps_rows _ _ r (step_table e w) Hin Hs)
        as (r1 & Hin1 & Hid1 & Htx1 & Hs1).
      destruct (IH (App.step e w) r1 Hin1 Hs1) as (r2 & Hin2 & Hid2 & Htx2 & Hs2).
      exists r2. repeat split; try assumption; congruence.
  - intros e w0. apply step_table.
Qed.

Lemma C5_status_never_reverts_witness :
  App.statusOf (App.backend reviewWorld) "t1" = Some Backend.completed /\
  App.statusOf (App.backend (App.run rerecordRun reviewWorld)) "t1"
    = Some Backend.completed.
Proof.
  split; [reflexivity|].
  exact (proj1 (C5_status_never_reverts rerecordRun reviewWorld) "t1" eq_refl).
Defined.

(** C9. From the moment a re-record is started until it is cancelled, as
    long as nothing is confirmed or submitted and no write was already
    under way, the backend is not written: the cancel returns the page to
    the review list, clears the target and only reads the completed list,
    and every task has the status and audio reference it had before. *)
Theorem C9_cancel_rerecord_writes_nothing
    (tr : Backend.Transcript) (es : list App.Event) (w : App.World) :
  App.noWritePending w ->
  Forall (fun e => App.quiet e = true) es ->
  let started := App.run (App.StartRerecord tr :: es) w in
  let w' := App.step App.SwitchToReview started in
  App.backend w' = App.backend w /\
  (forall i,
     App.statusOf (App.backend w') i = App.statusOf (App.backend w) i /\
     App.audioOf (App.backend w') i = App.audioOf (App.backend w) i) /\
  Home.mode (App.home w') = Home.review /\
  Home.transcriptToRerecord (App.home w') = None /\
  App.issued w' = App.issued started ++ [Backend.SelectCompleted] /\
  App.noWritePending w'.
Proof.
  intros Hp Hq started w'.
  assert (Hq' : Forall (fun e => App.quiet e = true) (App.StartRerecord tr :: es))
    by (constructor; [reflexivity | exact Hq]).
  destruct (run_quiet _ w Hq' Hp) as [Hb Hp']. fold started in Hb, Hp'.
  destruct (step_quiet App.SwitchToReview started eq_refl Hp') as [Hb2 Hp2].
  fold w' in Hb2, Hp2.
  assert (E : App.backend w' = App.backend w) by congruence.
  split; [exact E|]. split; [intros i; now rewrite E|].
  repeat split. exact Hp2.
Qed.

Lemma C9_cancel_rerecord_witness :
  App.noWritePending reviewWorld /\
  Forall (fun e => App.quiet e = true) rerecordThenNotified /\
  App.backend
    (App.step App.SwitchToReview
       (App.run (App.StartRerecord doneRow :: rerecordThenNotified) reviewWorld))
  = App.backend reviewWorld.
Proof.
  assert (Hp : App.noWritePending reviewWorld) by constructor.
  assert (Hq : Forall (fun e => App.quiet e = true) rerecordThenNotified)
    by (repeat constructor).
  split; [exact Hp|]. split; [exact Hq|].
  exact (proj1 (C9_cancel_rerecord_writes_nothing doneRow rerecordThenNotified
                  reviewWorld Hp Hq)).
Defined.

(** ** The recorder *)

(** [resetState] opens no stream and leaves the recording flag down. *)
Lemma resetState_streams (cl : Recorder.Closure) (w : Recorder.World) :
  Recorder.streams (Recorder.platform (Recorder.resetState cl w))
    = Recorder.streams (Recorder.platform w) /\
  Recorder.isRecording (Recorder.ui (Recorder.resetState cl w)) = false.
Proof.
  unfold Recorder.resetState, Recorder.changeAudioUrl, Recorder.recorderStop,
    Recorder.setRecorderState.
  destruct (Recorder.c_audioUrl cl) as [u|]; cbn;
    destruct (Recorder.audioUrl (Recorder.ui w)) as [u'|]; cbn;
    destruct (Recorder.mediaRecorder (Recorder.ui w)) as [r|]; cbn;
    try (destruct (Recorder.recorders (Recorder.platform w) !! r) as [rec|]; cbn);
    try (destruct (negb (Recorder.isInactive _)); cbn);
    try (destruct (Recorder.recorders (Recorder.platform w) !! r) as [rec'|]; cbn);
    split; reflexivity.
Qed.

(** C8. While the permission flag is not [true], or while an upload is in
    progress, a click on the record control changes nothing: the control
    is not rendered or is disabled, so [startRecording] is not entered, no
    capture is requested, no stream is opened and the recording flag is as
    before.  A capture request the platform refuses opens no stream and
    leaves the recording flag down. *)
Theorem C8_record_rejected_without_permission_or_during_upload (w : Recorder.World) :
  Recorder.permissionGranted (Recorder.ui w) <> Some true \/
  Recorder.isUploading w = true ->
  let w' := Recorder.step Recorder.ClickRecord w in
  (w' = w /\
   Recorder.openStreams w' = Recorder.openStreams w /\
   Recorder.pending w' = Recorder.pending w /\
   Recorder.isRecording (Recorder.ui w') = Recorder.isRecording (Recorder.ui w)) /\
  (forall (cl : Recorder.Closure) (message : string) (w0 : Recorder.World),
     let w1 := Recorder.resume (Recorder.Rejected message) (Recorder.KCapture cl) w0 in
     Recorder.openStreams w1 = Recorder.openStreams w0 /\
     Recorder.isRecording (Recorder.ui w1) = false).
Proof.
  intros H w'. split.
  - assert (E : w' = w).
    { subst w'. cbn [Recorder.step]. unfold Recorder.render.
      destruct (Recorder.permissionGranted (Recorder.ui w)) as [[|]|]; try reflexivity.
      destruct H as [H | H]; [congruence|]. rewrite H.
      destruct (negb _ && negb _); reflexivity. }
    rewrite E. repeat split.
  - intros cl message w0 w1. subst w1. cbn [Recorder.resume].
    unfold Recorder.openStreams.
    destruct (resetState_streams cl
                (Recorder.onUi (Recorder.setError
                   (Some (String.append "Could not start recording: " message))) w0))
      as [Hs Hr].
    rewrite Hs, Hr. split; reflexivity.
Qed.

Lemma C8_record_rejected_witness :
  Recorder.step Recorder.ClickRecord
    (Recorder.step (Recorder.SetUploading true) readyRecorder)
  = Recorder.step (Recorder.SetUploading true) readyRecorder /\
  Recorder.step Recorder.ClickRecord (Recorder.mount "t1" false browser)
  = Recorder.mount "t1" false browser.
Proof.
  split.
  - exact (proj1 (proj1 (C8_record_rejected_without_permission_or_during_upload
                    (Recorder.step (Recorder.SetUploading true) readyRecorder)
                    (or_intror eq_refl)))).
  - assert (H : Recorder.permissionGranted
                  (Recorder.ui (Recorder.mount "t1" false browser)) <> Some true)
      by discriminate.
    exact (proj1 (proj1 (C8_record_rejected_without_permission_or_during_upload
                    (Recorder.mount "t1" false browser) (or_introl H)))).
Defined.

(** C4. The claim fails on the code: after two overlapping starts two
    capture streams are live at once, the ref holds only the second
    recorder, and stopping the recording releases only the second stream;
    the first stays open. *)
Theorem C4_overlapping_starts_open_two_streams :
  let w := Recorder.run doubleStart readyRecorder in
  Recorder.openStreams readyRecorder = 0%nat /\
  Recorder.openStreams w = 2%nat /\
  Recorder.mediaRecorder (Recorder.ui w) = Some 1%nat /\
  Recorder.openStreams
    (Recorder.run [Recorder.ClickStop; Recorder.FireStop 0 [1; 2; 3]] w) = 1%nat.
Proof. repeat split. Qed.

(** Where [new MediaRecorder] throws, the stream just acquired is never
    released: two starts in a row, with no overlap, also leave two streams
    open. *)
Lemma failed_starts_leak_streams :
  let w := Recorder.run startTwice legacyRecorder in
  Recorder.openStreams legacyRecorder = 0%nat /\
  Recorder.openStreams w = 2%nat /\
  Recorder.isRecording (Recorder.ui w) = false /\
  Recorder.mediaRecorder (Recorder.ui w) = None.
Proof. repeat split. Qed.

(** * Further properties *)

(** ** Intake: what is kept of the text *)

Section Trimmed.

Import Js.

Lemma trimStart_nil_iff (s : jsstring) :
  trimStart s = [] <-> forallb isStrWhiteSpaceChar s = true.
Proof.
  induction s as [|c r IH]; simpl; [split; intros _; reflexivity|].
  destruct (isStrWhiteSpaceChar c); simpl; [exact IH|].
  split; discriminate.
Qed.

Lemma trimStart_head (s : jsstring) (c : N) (r : jsstring) :
  trimStart s = c :: r -> isStrWhiteSpaceChar c = false.
Proof.
  induction s as [|d t IH]; simpl; [discriminate|].
  destruct (isStrWhiteSpaceChar d) eqn:E; [exact IH|].
  intros H; inversion H; subst; exact E.
Qed.

Lemma trimStart_suffix (s : jsstring) : exists w, s = w ++ trimStart s.
Proof.
  induction s as [|d t [w IH]]; [now exists []|]. simpl.
  destruct (isStrWhiteSpaceChar d).
  - exists (d :: w). simpl. now rewrite <- IH.
  - now exists [].
Qed.

Lemma trimEnd_prefix (s : jsstring) : exists w, s = trimEnd s ++ w.
Proof.
  unfold trimEnd. destruct (trimStart_suffix (rev s)) as [w H].
  exists (rev w). rewrite <- rev_app_distr, <- H. now rewrite rev_involutive.
Qed.

Lemma forallb_rev (f : N -> bool) (l : list N) :
  forallb f (rev l) = forallb f l.
Proof.
  induction l as [|a l IH]; [reflexivity|]. simpl.
  rewrite forallb_app, IH. simpl. rewrite andb_true_r. apply andb_comm.
Qed.

Lemma trimEnd_nil_iff (s : jsstring) :
  trimEnd s = [] <-> forallb isStrWhiteSpaceChar s = true.
Proof.
  unfold trimEnd. rewrite <- (forallb_rev _ s), <- trimStart_nil_iff.
  split; intros H.
  - apply (f_equal (@rev N)) in H. now rewrite rev_involutive in H.
  - now rewrite H.
Qed.

Lemma trim_nil_iff (s : jsstring) :
  trim s = [] <-> forallb isStrWhiteSpaceChar s = true.
Proof.
  unfold trim. split; intros H.
  - apply trimEnd_nil_iff in H.
    destruct (trimStart s) as [|c r] eqn:E; [now apply trimStart_nil_iff|].
    apply trimStart_head in E. simpl in H. rewrite E in H. discriminate.
  - apply trimStart_nil_iff in H. now rewrite H.
Qed.

Lemma trim_head (s : jsstring) (c : N) (r : jsstring) :
  trim s = c :: r -> isStrWhiteSpaceChar c = false.
Proof.
  unfold trim. intros H.
  destruct (trimEnd_prefix (trimStart s)) as [w Hw]. rewrite H in Hw.
  simpl in Hw. now apply trimStart_head in Hw.
Qed.

Lemma trim_last (s : jsstring) (p : jsstring) (c : N) :
  trim s = p ++ [c] -> isStrWhiteSpaceChar c = false.
Proof.
  unfold trim, trimEnd. intros H.
  apply (f_equal (@rev N)) in H. rewrite rev_involutive, rev_unit in H.
  now apply trimStart_head in H.
Qed.

Lemma trim_In (s : jsstring) (c : N) : In c (trim s) -> In c s.
Proof.
  unfold trim. intros H.
  destruct (trimEnd_prefix (trimStart s)) as [w Hw].
  destruct (trimStart_suffix s) as [v Hv].
  rewrite Hv. apply in_or_app. right. rewrite Hw. apply in_or_app. now left.
Qed.

Lemma split_nl_no_LF (s : jsstring) :
  Forall (fun l => ~ In LF l) (split_nl s).
Proof.
  induction s as [|c r IH]; simpl.
  - constructor; [intros [] | constructor].
  - destruct (c =? LF) eqn:E.
    + constructor; [intros [] | exact IH].
    + apply N.eqb_neq in E. destruct (split_nl r) as [|l ls].
      * constructor; [|constructor]. intros [H | []]. congruence.
      * inversion IH; subst. constructor; [|assumption].
        intros [H | H]; [congruence | contradiction].
Qed.

Lemma filter_map_length {A B} (f : B -> bool) (g : A -> B) (l : list A) :
  length (List.filter (fun x => f (g x)) l) = length (List.filter f (map g l)).
Proof.
  induction l as [|a l IH]; [reflexivity|]. simpl.
  destruct (f (g a)); simpl; now rewrite IH.
Qed.

Lemma lines_not_nil (text : jsstring) :
  trim text <> [] -> TranscriptInput.lines text <> [].
Proof.
  unfold TranscriptInput.lines. intros Hne.
  destruct (trim text) as [|c r] eqn:E; [congruence|]. clear Hne.
  apply trim_head in E.
  assert (Hc : (c =? LF) = false).
  { destruct (c =? LF) eqn:C; [|reflexivity].
    apply N.eqb_eq in C. subst c. discriminate E. }
  simpl. rewrite Hc.
  assert (Hl : forall l, nonEmpty (trim (c :: l)) = true).
  { intros l. destruct (trim (c :: l)) eqn:T; [|reflexivity].
    apply trim_nil_iff in T. simpl in T. rewrite E in T. discriminate. }
  destruct (split_nl r) as [|l ls]; simpl; rewrite Hl; discriminate.
Qed.

End Trimmed.

(** X1. Every row [handleSubmit] sends is clean: it is not empty, starts
    and ends with a code unit that is not white space, and contains no
    line feed. *)
Theorem X1_submitted_rows_are_clean (text row : Js.jsstring) :
  In row (TranscriptInput.lines text) ->
  row <> [] /\
  (forall c r, row = c :: r -> Js.isStrWhiteSpaceChar c = false) /\
  (forall p c, row = p ++ [c] -> Js.isStrWhiteSpaceChar c = false) /\
  ~ In Js.LF row.
Proof.
  unfold TranscriptInput.lines. intros H.
  apply List.filter_In in H. destruct H as [Hin Hne].
  apply in_map_iff in Hin. destruct Hin as (l & <- & Hl).
  split; [|split; [|split]].
  - destruct (Js.trim l); [discriminate | discriminate].
  - intros c r E. now apply trim_head in E.
  - intros p c E. now apply trim_last in E.
  - intros HLF. apply trim_In in HLF.
    pose proof (split_nl_no_LF (Js.trim text)) as F.
    rewrite List.Forall_forall in F. exact (F l Hl HLF).
Qed.

Lemma X1_submitted_rows_witness :
  In [98] (TranscriptInput.lines exampleText) /\ ~ In Js.LF [98].
Proof.
  assert (H : In [98] (TranscriptInput.lines exampleText))
    by (vm_compute; right; left; reflexivity).
  split; [exact H|].
  exact (proj2 (proj2 (proj2 (X1_submitted_rows_are_clean exampleText [98] H)))).
Defined.

(** X2. [handleSubmit] rejects a text exactly when all its code units are
    white space (blank lines included), with 'Transcript list cannot be
    empty.'; any other text is accepted with at least one row, so the
    second message, 'No valid transcript lines found.', is never set. *)
Theorem X2_only_blank_text_is_rejected (w : App.World) :
  let text := TranscriptInput.transcriptList (App.input w) in
  (forallb Js.isStrWhiteSpaceChar text = true ->
   App.handleSubmit w
   = App.onInput (TranscriptInput.setError (Some "Transcript list cannot be empty.")) w) /\
  (forallb Js.isStrWhiteSpaceChar text = false ->
   exists rows,
     rows <> [] /\ rows = TranscriptInput.lines text /\
     TranscriptInput.validate text = TranscriptInput.Accept rows /\
     App.pending (App.handleSubmit w) = App.pending w ++ [App.KInsert rows]) /\
  TranscriptInput.validate text <> TranscriptInput.RejectNoLines.
Proof.
  intros text.
  assert (Hacc : Js.trim text <> [] ->
            TranscriptInput.validate text
            = TranscriptInput.Accept (TranscriptInput.lines text)
            /\ TranscriptInput.lines text <> []).
  { intros Hne. pose proof (lines_not_nil text Hne) as Hl.
    unfold TranscriptInput.validate, Js.truthy.
    destruct (Js.trim text); [congruence|]. simpl.
    destruct (TranscriptInput.lines text); [congruence|]. split; [reflexivity | discriminate]. }
  split; [|split].
  - intros H. apply trim_nil_iff in H.
    unfold App.handleSubmit, TranscriptInput.validate. fold text. now rewrite H.
  - intros H.
    assert (Hne : Js.trim text <> []).
    { intros E. apply trim_nil_iff in E. congruence. }
    destruct (Hacc Hne) as [Hv Hl].
    exists (TranscriptInput.lines text). repeat split; try assumption.
    unfold App.handleSubmit. fold text. now rewrite Hv.
  - destruct (decide (Js.trim text = [])) as [E | Hne].
    + unfold TranscriptInput.validate. rewrite E. discriminate.
    + destruct (Hacc Hne) as [Hv _]. rewrite Hv. discriminate.
Qed.

Lemma X2_only_blank_text_witness :
  App.issued (App.handleSubmit blankWorld) = [] /\
  exists rows,
    rows <> [] /\ rows = TranscriptInput.lines exampleText /\
    TranscriptInput.validate exampleText = TranscriptInput.Accept rows /\
    App.pending (App.handleSubmit typedWorld) = [] ++ [App.KInsert rows].
Proof.
  split.
  - rewrite (proj1 (X2_only_blank_text_is_rejected blankWorld) eq_refl). reflexivity.
  - exact (proj1 (proj2 (X2_only_blank_text_is_rejected typedWorld)) eq_refl).
Defined.

(** X3. The count shown on the submit button is the number of rows
    [handleSubmit] would send, and the button is disabled when it is zero:
    a click either does nothing or sends the bulk insert, so neither
    validation message is ever set through the button. *)
Theorem X3_button_count_is_row_count (w : App.World) :
  let s := App.input w in
  let text := TranscriptInput.transcriptList s in
  InputView.lineCount text = length (TranscriptInput.lines text) /\
  (InputView.submitDisabled s = true -> InputView.clickSubmit w = w) /\
  (InputView.submitDisabled s = false ->
   InputView.lineCount text <> 0%nat /\
   App.issued (InputView.clickSubmit w)
   = App.issued w ++ [Backend.TableInsert (TranscriptInput.lines text)] /\
   App.pending (InputView.clickSubmit w)
   = App.pending w ++ [App.KInsert (TranscriptInput.lines text)] /\
   TranscriptInput.error (App.input (InputView.clickSubmit w)) = None /\
   TranscriptInput.isSubmitting (App.input (InputView.clickSubmit w)) = true).
Proof.
  intros s text.
  assert (Hcount : InputView.lineCount text = length (TranscriptInput.lines text)).
  { unfold InputView.lineCount, TranscriptInput.lines, Js.truthy.
    destruct (Js.trim text) as [|c r] eqn:E; [reflexivity|].
    cbn [Js.nonEmpty].
    apply (filter_map_length Js.nonEmpty Js.trim). }
  split; [exact Hcount|]. split.
  - intros H. unfold InputView.clickSubmit. fold s. now rewrite H.
  - intros H. unfold InputView.clickSubmit. fold s. rewrite H.
    unfold InputView.submitDisabled in H. fold text in H.
    apply orb_false_iff in H. destruct H as [_ H].
    apply Nat.eqb_neq in H. split; [exact H|].
    assert (Hv : TranscriptInput.validate text
                 = TranscriptInput.Accept (TranscriptInput.lines text)).
    { unfold TranscriptInput.validate.
      destruct (negb (Js.truthy (Js.trim text))) eqn:T.
      - exfalso. apply H. unfold InputView.lineCount.
        apply negb_true_iff in T. now rewrite T.
      - rewrite <- Hcount. apply Nat.eqb_neq in H. now rewrite H. }
    unfold App.handleSubmit. fold s text. rewrite Hv. repeat split.
Qed.

Lemma X3_button_count_witness :
  InputView.clickSubmit blankWorld = blankWorld /\
  InputView.lineCount exampleText = 3%nat /\
  App.pending (InputView.clickSubmit typedWorld)
  = [] ++ [App.KInsert (TranscriptInput.lines exampleText)].
Proof.
  split; [exact (proj1 (proj2 (X3_button_count_is_row_count blankWorld)) eq_refl)|].
  split; [exact (proj1 (X3_button_count_is_row_count typedWorld))|].
  exact (proj1 (proj2 (proj2 (proj2 (proj2 (X3_button_count_is_row_count typedWorld))
           eq_refl)))).
Defined.

(** X4. When the bulk insert settles: if the service reports an error the
    table and the typed text are kept, the page is not notified, the
    submitting flag is lowered and the message is 'Failed to submit
    transcripts: ' followed by the service's message, or by 'Unknown error'
    when that message is empty; otherwise the text is cleared, the page
    learns that transcripts exist, goes to record mode without re-record
    target, and the submitting flag is lowered. *)
Theorem X4_submit_outcome
    (srv : Backend.Srv) (rows : list Js.jsstring) (w : App.World) :
  let w' := App.resume srv (App.KInsert rows) w in
  (forall e,
     insertVerdict srv rows (App.backend w) = Some e ->
     App.backend w' = App.backend w /\
     App.home w' = App.home w /\
     TranscriptInput.transcriptList (App.input w')
       = TranscriptInput.transcriptList (App.input w) /\
     TranscriptInput.isSubmitting (App.input w') = false /\
     TranscriptInput.error (App.input w')
       = Some (String.append "Failed to submit transcripts: "
                 (if String.eqb e "" then "Unknown error" else e))) /\
  (insertVerdict srv rows (App.backend w) = None ->
   TranscriptInput.transcriptList (App.input w') = [] /\
   TranscriptInput.isSubmitting (App.input w') = false /\
   TranscriptInput.error (App.input w') = TranscriptInput.error (App.input w) /\
   Home.transcriptsExist (App.home w') = Some true /\
   Home.mode (App.home w') = Home.record /\
   Home.transcriptToRerecord (App.home w') = None /\
   map Backend.transcript (Backend.table (App.backend w'))
     = map Backend.transcript (Backend.table (App.backend w)) ++ rows).
Proof.
  intros w'. subst w'. unfold insertVerdict. cbn [App.resume].
  destruct (Backend.fault srv (Backend.TableInsert rows)) as [e0|].
  - split; [|discriminate]. intros e H. inversion H; subst. repeat split.
  - destruct (Backend.insert (Backend.stamps srv) rows (App.backend w))
      as [[e0|] b'] eqn:E; simpl.
    + split; [|discriminate]. intros e H. inversion H; subst. repeat split.
    + split; [discriminate|]. intros _.
      apply insert_appends in E. destruct E as [_ (news & Ht & Hm & _)].
      repeat split. cbn. now rewrite Ht, map_app, Hm.
Qed.

Lemma X4_submit_outcome_witness :
  TranscriptInput.error
    (App.input (App.resume downSrv (App.KInsert [[97]]) typedWorld))
  = Some "Failed to submit transcripts: Unknown error" /\
  Home.transcriptsExist
    (App.home (App.resume exampleSrv (App.KInsert [[97]]) typedWorld)) = Some true.
Proof.
  split.
  - exact (proj2 (proj2 (proj2 (proj2
      (proj1 (X4_submit_outcome downSrv [[97]] typedWorld) "" eq_refl))))).
  - exact (proj1 (proj2 (proj2 (proj2
      (proj2 (X4_submit_outcome exampleSrv [[97]] typedWorld) eq_refl))))).
Defined.

(** ** Confirmation: failures *)

(** X5. A confirmation that fails, at whichever of its three steps, leaves
    the table as it was, lowers the uploading flag, sets 'Failed to save
    recording: ' followed by the reason, and keeps the mode, the re-record
    target and the current task, so the same recording can be confirmed
    again.  After a refused upload nothing more is sent.  When only the
    public URL cannot be resolved the blob has already been stored under
    the task's path, although no update is sent. *)
Theorem X5_failed_confirmation_keeps_the_task
    (srv : Backend.Srv) (t path url : string) (isRerecord : bool)
    (blob : Backend.Blob) (w : App.World) :
  let failed (reason : string) (w' : App.World) :=
    Backend.table (App.backend w') = Backend.table (App.backend w) /\
    App.pending w' = App.pending w /\
    App.home w'
    = Home.setIsUploading false
        (Home.setError (Some (String.append "Failed to save recording: " reason))
           (App.home w)) /\
    Home.mode (App.home w') = Home.mode (App.home w) /\
    Home.transcriptToRerecord (App.home w') = Home.transcriptToRerecord (App.home w) /\
    Home.currentTranscript (App.home w') = Home.currentTranscript (App.home w) /\
    Home.isUploading (App.home w') = false in
  (forall e,
     Backend.fault srv (Backend.StorageUpload Home.bucketName path blob true) = Some e ->
     let w' := App.resume srv (App.KUpload t isRerecord path blob) w in
     failed e w' /\ App.backend w' = App.backend w /\ App.issued w' = App.issued w) /\
  (Backend.fault srv (Backend.StorageUpload Home.bucketName path blob true) = None ->
   App.usableUrl (Backend.publicUrl srv path) = None ->
   let w' := App.resume srv (App.KUpload t isRerecord path blob) w in
   failed "Could not get public URL after upload." w' /\
   Backend.storage (App.backend w') !! path = Some blob /\
   App.issued w' = App.issued w ++ [Backend.StorageGetPublicUrl Home.bucketName path]) /\
  (forall e,
     Backend.fault srv (Backend.TableUpdate t url Backend.completed) = Some e ->
     let w' := App.resume srv (App.KUpdate t isRerecord url) w in
     failed e w' /\ App.backend w' = App.backend w /\ App.issued w' = App.issued w).
Proof.
  intros failed. subst failed. cbv beta. split; [|split].
  - intros e H w'. subst w'. cbn [App.resume]. rewrite H. repeat split.
  - intros H Hu w'. subst w'. cbn [App.resume]. rewrite H.
    unfold Backend.upload.
    destruct (Backend.storage (App.backend w) !! path); rewrite Hu; cbn;
      repeat split; apply lookup_insert_eq.
  - intros e H w'. subst w'. cbn [App.resume]. rewrite H. repeat split.
Qed.

Lemma X5_failed_confirmation_witness :
  Backend.table
    (App.backend (App.resume noUrlSrv
       (App.KUpload "t1" false (Home.filePath "t1") [1; 2]) recordingWorld))
  = Backend.table (App.backend recordingWorld) /\
  Backend.storage
    (App.backend (App.resume noUrlSrv
       (App.KUpload "t1" false (Home.filePath "t1") [1; 2]) recordingWorld))
    !! Home.filePath "t1" = Some [1; 2] /\
  App.issued (App.resume downSrv (App.KUpdate "t1" false "u") recordingWorld) = [].
Proof.
  pose proof (X5_failed_confirmation_keeps_the_task noUrlSrv "t1" (Home.filePath "t1")
                "u" false [1; 2] recordingWorld) as T.
  pose proof (X5_failed_confirmation_keeps_the_task downSrv "t1" (Home.filePath "t1")
                "u" false [1; 2] recordingWorld) as D.
  destruct (proj1 (proj2 T) eq_refl eq_refl) as [[Ht _] [Hs _]].
  split; [exact Ht|]. split; [exact Hs|].
  exact (proj2 (proj2 (proj2 (proj2 D) "" eq_refl))).
Defined.

(** ** Fetching: errors and what the fetched values are *)

(** X6. A failed fetch of the next pending task drops the current task and
    puts the error screen in place of the page; every realtime
    notification clears the error, so after it the error screen is gone. *)
Theorem X6_error_screen_comes_and_goes
    (srv : Backend.Srv) (payload : Home.Payload) (isLoading : bool) (w : App.World) :
  (forall e,
     Backend.fault srv Backend.SelectNextPending = Some e ->
     let w' := App.resume srv App.KNextPending w in
     Home.currentTranscript (App.home w') = None /\
     App.backend w' = App.backend w /\
     (isLoading && HomeView.isNull (Home.transcriptsExist (App.home w)) = false ->
      HomeView.render isLoading (App.home w')
      = HomeView.ErrorScreen (String.append "Failed to fetch next transcript: " e))) /\
  Home.error (App.home (App.onPostgresChanges payload w)) = None /\
  (forall m, HomeView.render isLoading (App.home (App.onPostgresChanges payload w))
             <> HomeView.ErrorScreen m).
Proof.
  assert (Hnone : Home.error (App.home (App.onPostgresChanges payload w)) = None).
  { unfold App.onPostgresChanges.
    change (Home.mode (App.home (App.fetchNextPendingTranscript (App.fetchCounts w))))
      with (Home.mode (App.home w)).
    destruct (Home.Mode_eqb (Home.mode (App.home w)) Home.review);
      destruct (_ && _); reflexivity. }
  split; [|split; [exact Hnone|]].
  - intros e H w'. subst w'. cbn [App.resume]. rewrite H.
    split; [reflexivity|]. split; [reflexivity|].
    intros Hl. unfold HomeView.render. cbn. rewrite Hl. reflexivity.
  - intros m. unfold HomeView.render. rewrite Hnone. cbn.
    destruct (isLoading && _); discriminate.
Qed.

Lemma X6_error_screen_witness :
  HomeView.render false (App.home (App.resume downSrv App.KNextPending recordingWorld))
  = HomeView.ErrorScreen "Failed to fetch next transcript: " /\
  Home.error
    (App.home (App.onPostgresChanges insertPayload
                 (App.resume downSrv App.KNextPending recordingWorld))) = None.
Proof.
  split.
  - exact (proj2 (proj2 (proj1 (X6_error_screen_comes_and_goes downSrv insertPayload
             false recordingWorld) "" eq_refl)) eq_refl).
  - exact (proj1 (proj2 (X6_error_screen_comes_and_goes downSrv insertPayload false
             (App.resume downSrv App.KNextPending recordingWorld)))).
Defined.

Section Queries.

Import Backend.

Lemma insertDesc_perm (r : Transcript) (rows : list Transcript) :
  Permutation (insertDesc r rows) (r :: rows).
Proof.
  induction rows as [|x rest IH]; simpl; [reflexivity|].
  destruct (created_at x <? created_at r)%N; [reflexivity|].
  rewrite IH. apply perm_swap.
Qed.

Lemma insertDesc_sorted (r : Transcript) (rows : list Transcript) :
  StronglySorted newerOrSame rows ->
  StronglySorted newerOrSame (insertDesc r rows).
Proof.
  induction rows as [|x rest IH]; intros H; simpl.
  - constructor; constructor.
  - inversion H as [|? ? Hs Hall]; subst.
    destruct (created_at x <? created_at r)%N eqn:C.
    + apply N.ltb_lt in C. constructor; [exact H|].
      constructor; [unfold newerOrSame; lia|].
      eapply Forall_impl; [exact Hall|].
      unfold newerOrSame. intros y Hy. lia.
    + apply N.ltb_ge in C. constructor; [now apply IH|].
      rewrite (insertDesc_perm r rest). constructor; [exact C | exact Hall].
Qed.

Lemma completedList_perm (b : Backend.t) :
  Permutation (completedList b) (List.filter isCompleted (table b)).
Proof.
  unfold completedList.
  induction (List.filter isCompleted (table b)) as [|x rest IH]; simpl; [reflexivity|].
  rewrite insertDesc_perm. now constructor.
Qed.

Lemma completedList_sorted (b : Backend.t) :
  StronglySorted newerOrSame (completedList b).
Proof.
  unfold completedList.
  induction (List.filter isCompleted (table b)) as [|x rest IH]; simpl;
    [constructor | now apply insertDesc_sorted].
Qed.

Lemma isCompleted_true (r : Transcript) : isCompleted r = true <-> status r = completed.
Proof. unfold isCompleted. destruct (status r); simpl; split; congruence. Qed.

Lemma filter_length_lt {A} (f : A -> bool) (l : list A) (x : A) :
  In x l -> f x = false -> (length (List.filter f l) < length l)%nat.
Proof.
  induction l as [|a l IH]; intros Hin Hf; [destruct Hin|].
  pose proof (List.filter_length_le f l) as Hle. simpl.
  destruct Hin as [-> | Hin].
  - rewrite Hf. lia.
  - specialize (IH Hin Hf). destruct (f a); simpl; lia.
Qed.

Lemma pending_leaves_room (b : Backend.t) (r : Transcript) :
  nextPending b = Some r -> (countCompleted b < countAll b)%nat.
Proof.
  intros H. apply nextPending_oldest in H. destruct H as (Hin & Hs & _).
  unfold countCompleted, countAll. apply filter_length_lt with (x := r); [exact Hin|].
  unfold isCompleted. now rewrite Hs.
Qed.



End Queries.

(** X7. When the list query started by [switchToReviewMode] is answered,
    the review list holds exactly the completed tasks of the table, each
    once, newest first, and the list's loading flag, raised by the switch,
    is lowered. *)
Theorem X7_review_list_is_completed_newest_first (srv : Backend.Srv) (w w2 : App.World) :
  let w1 := App.switchToReviewMode w in
  (App.pending w1 = App.pending w ++ [App.KCompletedList] /\
   Home.isFetchingReviewList (App.home w1) = true /\
   Home.mode (App.home w1) = Home.review) /\
  (Backend.fault srv Backend.SelectCompleted = None ->
   let w3 := App.resume srv App.KCompletedList w2 in
   let l := Home.reviewList (App.home w3) in
   Permutation l (List.filter Backend.isCompleted (Backend.table (App.backend w2))) /\
   (forall r, In r l <->
              In r (Backend.table (App.backend w2)) /\
              Backend.status r = Backend.completed) /\
   StronglySorted newerOrSame l /\
   Home.isFetchingReviewList (App.home w3) = false).
Proof.
  intros w1. split; [repeat split|].
  intros H w3 l. subst l w3. cbn [App.resume]. rewrite H. cbn.
  split; [apply completedList_perm|]. split; [|split; [apply completedList_sorted | reflexivity]].
  intros r. rewrite <- isCompleted_true, <- List.filter_In.
  split; apply Permutation_in; [|symmetry]; apply completedList_perm.
Qed.

Lemma X7_review_list_witness :
  Home.reviewList
    (App.home (App.resume exampleSrv App.KCompletedList
                 (App.switchToReviewMode reviewWorld))) = [doneRow] /\
  StronglySorted newerOrSame
    (Home.reviewList
       (App.home (App.resume exampleSrv App.KCompletedList
                    (App.switchToReviewMode reviewWorld)))).
Proof.
  split; [reflexivity|].
  exact (proj1 (proj2 (proj2
    (proj2 (X7_review_list_is_completed_newest_first exampleSrv reviewWorld
              (App.switchToReviewMode reviewWorld)) eq_refl)))).
Defined.

(** X8. Counts and next pending task fetched from the same table agree:
    when a task is offered for recording the completed count is below the
    total, so the label 'Recording k+1 of n' never runs past n. *)
Theorem X8_progress_label_within_total (srv : Backend.Srv) (w : App.World) :
  Backend.fault srv Backend.CountAll = None ->
  Backend.fault srv Backend.CountCompleted = None ->
  Backend.fault srv Backend.SelectNextPending = None ->
  let w' :=
    App.resume srv App.KNextPending
      (App.resume srv App.KCountCompleted (App.resume srv App.KCountTotal w)) in
  App.backend w' = App.backend w /\
  Home.totalCount (App.home w') = Backend.countAll (App.backend w) /\
  Home.completedCount (App.home w') = Backend.countCompleted (App.backend w) /\
  (Home.completedCount (App.home w') <= Home.totalCount (App.home w'))%nat /\
  (Home.currentTranscript (App.home w') <> None ->
   (Home.completedCount (App.home w') + 1 <= Home.totalCount (App.home w'))%nat).
Proof.
  intros H1 H2 H3 w'. subst w'. cbn [App.resume]. rewrite H1. cbn [App.resume].
  rewrite H2. cbn [App.resume]. rewrite H3. cbn.
  repeat split.
  - unfold Backend.countCompleted, Backend.countAll. apply List.filter_length_le.
  - intros Hc. destruct (Backend.nextPending (App.backend w)) as [r|] eqn:E; [|congruence].
    apply pending_leaves_room in E. lia.
Qed.

Lemma X8_progress_label_witness :
  Home.totalCount
    (App.home (App.resume exampleSrv App.KNextPending
       (App.resume exampleSrv App.KCountCompleted
          (App.resume exampleSrv App.KCountTotal reviewWorld)))) = 2%nat /\
  (Home.completedCount
     (App.home (App.resume exampleSrv App.KNextPending
        (App.resume exampleSrv App.KCountCompleted
           (App.resume exampleSrv App.KCountTotal reviewWorld)))) + 1 <= 2)%nat.
Proof.
  pose proof (X8_progress_label_within_total exampleSrv reviewWorld
                eq_refl eq_refl eq_refl) as T.
  split; [exact (proj1 (proj2 T))|].
  assert (Hc : Home.currentTranscript
                 (App.home (App.resume exampleSrv App.KNextPending
                    (App.resume exampleSrv App.KCountCompleted
                       (App.resume exampleSrv App.KCountTotal reviewWorld)))) <> None)
    by discriminate.
  exact (proj2 (proj2 (proj2 (proj2 T))) Hc).
Defined.



(** ** What no run of the page does *)

Section Frames.

Import Backend.

Lemma core_updateRow (t url : string) (st : Status) (r : Transcript) :
  core (updateRow t url st r) = core r.
Proof. unfold updateRow, core. destruct (String.eqb (id r) t); reflexivity. Qed.

Lemma tableStep_core (old new : list Transcript) :
  TableStep old new -> exists extra, map core new = map core old ++ extra.
Proof.
  intros [-> | t url -> | news -> _].
  - exists []. now rewrite app_nil_r.
  - exists []. rewrite app_nil_r, map_map. apply map_ext. intros r. apply core_updateRow.
  - exists (map core news). apply map_app.
Qed.

Lemma upload_upsert (path : string) (blob : Blob) (b : Backend.t) :
  upload path blob true b = (None, mk (table b) (<[path := blob]> (storage b))).
Proof. unfold upload. destruct (storage b !! path); reflexivity. Qed.

Lemma step_storage (e : App.Event) (w : App.World) :
  Forall pathOfTask (App.pending w) ->
  Forall pathOfTask (App.pending (App.step e w)) /\
  forall p, storage (App.backend (App.step e w)) !! p = storage (App.backend w) !! p
            \/ exists t, p = Home.filePath t.
Proof.
  intros Hp.
  destruct e as [text| |blob t|tr| | | |payload|n srv]; cbn [App.step].
  - split; [exact Hp | now left].
  - unfold App.handleSubmit. destruct (TranscriptInput.validate _);
      (split; [|now left]); try exact Hp.
    cbn. apply Forall_app. split; [exact Hp | now repeat constructor].
  - unfold App.handleRecordingConfirm.
    destruct blob; [|split; [exact Hp | now left]].
    destruct (String.eqb t ""); [split; [exact Hp | now left]|].
    destruct (Home.activeTranscript (App.home w)); [|split; [exact Hp | now left]].
    destruct (negb _); (split; [|now left]); [exact Hp|].
    cbn. apply Forall_app. split; [exact Hp | now repeat constructor].
  - split; [exact Hp | now left].
  - split; [exact Hp | now left].
  - split; [|now left]. cbn. apply Forall_app. split; [exact Hp | now repeat constructor].
  - split; [exact Hp | now left].
  - destruct (App.isTrue _); [|split; [exact Hp | now left]].
    unfold App.onPostgresChanges.
    destruct (Home.Mode_eqb _ _); destruct (_ && _); (split; [|now left]); cbn;
      rewrite ?Forall_app; repeat split; try exact Hp; now repeat constructor.
  - destruct (App.pending w !! n) as [k|] eqn:E; [|split; [exact Hp | now left]].
    assert (Hk : pathOfTask k).
    { rewrite Forall_forall in Hp. apply Hp. eapply list_elem_of_lookup_2. exact E. }
    assert (Hd : Forall pathOfTask (delete n (App.pending w))) by now apply Forall_delete.
    destruct k as [ | | | |t r path blob|t r url|rows]; cbn [App.resume].
    + destruct (fault srv CountAll); (split; [|now left]); cbn; [exact Hd|].
      apply Forall_app. split; [exact Hd | now repeat constructor].
    + destruct (fault srv CountCompleted); (split; [exact Hd | now left]).
    + destruct (fault srv SelectNextPending); (split; [exact Hd | now left]).
    + destruct (fault srv SelectCompleted); (split; [exact Hd | now left]).
    + destruct (fault srv _); [split; [exact Hd | now left]|].
      cbn [App.backend]. rewrite upload_upsert.
      destruct (App.usableUrl (publicUrl srv path)); cbn.
      * split; [apply Forall_app; split; [exact Hd | now repeat constructor]|].
        intros p. destruct (decide (path = p)) as [<- | Hne].
        -- right. exists t. exact Hk.
        -- left. now apply lookup_insert_ne.
      * split; [exact Hd|].
        intros p. destruct (decide (path = p)) as [<- | Hne].
        -- right. exists t. exact Hk.
        -- left. now apply lookup_insert_ne.
    + destruct (fault srv _); [split; [exact Hd | now left]|].
      destruct r; cbn; (split; [|now left]); [|exact Hd].
      apply Forall_app. split; [exact Hd | now repeat constructor].
    + destruct (fault srv _); [split; [exact Hd | now left]|].
      cbn [App.backend].
      destruct (insert (stamps srv) rows (App.backend w)) as [[e|] b'] eqn:I;
        [split; [exact Hd | now left]|].
      apply insert_appends in I. destruct I as [Hs _]. cbn.
      split; [exact Hd|]. intros p. left. now rewrite Hs.
Qed.

End Frames.

(** X10. No run of the page deletes a record or changes the identifier,
    the text or the creation time of one: the records present before are
    all still there, in place, with those three fields as they were;
    records are only added after them. *)
Theorem X10_records_are_never_lost (es : list App.Event) (w : App.World) :
  exists extra,
    map core (Backend.table (App.backend (App.run es w)))
    = map core (Backend.table (App.backend w)) ++ extra.
Proof.
  revert w. induction es as [|e es IH]; intros w.
  - exists []. now rewrite app_nil_r.
  - rewrite run_cons. destruct (IH (App.step e w)) as [x Hx].
    destruct (tableStep_core _ _ (step_table e w)) as [y Hy].
    exists (y ++ x). now rewrite Hx, Hy, <- app_assoc.
Qed.

(** X11. Objects are stored only under paths of the form
    [audio/<id>.webm]: over any run started with no foreign upload under
    way, the object at any other path is the one that was there before. *)
Theorem X11_storage_written_only_at_task_paths (es : list App.Event) (w : App.World) :
  Forall pathOfTask (App.pending w) ->
  forall p,
    Backend.storage (App.backend (App.run es w)) !! p
    = Backend.storage (App.backend w) !! p
    \/ exists t, p = Home.filePath t.
Proof.
  revert w. induction es as [|e es IH]; intros w Hp p; [now left|].
  rewrite run_cons. destruct (step_storage e w Hp) as [Hp' Hs].
  destruct (IH (App.step e w) Hp' p) as [H | H]; [|now right].
  destruct (Hs p) as [H' | H']; [left; congruence | now right].
Qed.

Lemma X11_storage_witness :
  Backend.storage (App.backend (App.run rerecordRun reviewWorld)) !! "notes.txt"
  = Backend.storage (App.backend reviewWorld) !! "notes.txt"
  \/ exists t, "notes.txt" = Home.filePath t.
Proof.
  assert (Hp : Forall pathOfTask (App.pending reviewWorld)) by constructor.
  exact (X11_storage_written_only_at_task_paths rerecordRun reviewWorld Hp "notes.txt").
Defined.

(** ** A whole re-record *)

Section Effect.

Lemma effect_step (e : App.Event) (w w2 : App.World) :
  App.step e w = w2 -> HomeEffect.step e w = HomeEffect.commit (App.home w) w2.
Proof. intros <-. reflexivity. Qed.

Lemma commit_same (before : Home.State) (w : App.World) :
  HomeEffect.deps before = HomeEffect.deps (App.home w) ->
  HomeEffect.commit before w = w.
Proof.
  intros H. unfold HomeEffect.commit, HomeEffect.sameDeps.
  now rewrite bool_decide_eq_true_2.
Qed.

(** A run of the effect under [transcriptsExist === true]: two requests,
    two promises, and the error cleared by [fetchNextPendingTranscript]. *)
Lemma commit_changed (before : Home.State) (w : App.World) :
  HomeEffect.deps before <> HomeEffect.deps (App.home w) ->
  Home.transcriptsExist (App.home w) = Some true ->
  HomeEffect.commit before w
  = App.mkWorld (Home.setError None (App.home w)) (App.input w) (App.backend w)
      (App.issued w ++ [Backend.CountAll; Backend.SelectNextPending])
      (App.pending w ++ [App.KCountTotal; App.KNextPending]).
Proof.
  intros H Hex. unfold HomeEffect.commit, HomeEffect.sameDeps.
  rewrite bool_decide_eq_false_2 by exact H.
  unfold HomeEffect.body. rewrite Hex. cbn [App.isTrue].
  destruct w as [hm inp be iss pend].
  unfold App.fetchNextPendingTranscript, App.fetchCounts, App.await, App.send, App.onHome.
  cbn. now rewrite <- !app_assoc.
Qed.

End Effect.

(** X12. A whole re-record with the effect on the re-record target
    taken along.  On a page that shows the review list, choosing a
    completed task for re-record makes the second effect of [Home] run
    again and ask for the counts and the next pending task; confirming a
    recording and letting the upload and the update succeed stores the
    blob at the task's path, gives every record of that identifier the
    new URL with status completed, and brings the page back to review
    mode with no target, the uploading flag lowered and the completed
    list being fetched; clearing the target makes the effect run once
    more.  Eight requests are sent in all, two of them writes; the six
    reads are those of the two effect runs and of the list, and five of
    them are still unanswered at the end. *)
Theorem X12_rerecord_from_choice_to_review
    (srv : Backend.Srv) (tr : Backend.Transcript) (blob : Backend.Blob)
    (url : string) (w : App.World) :
  App.pending w = [] ->
  Home.transcriptsExist (App.home w) = Some true ->
  Home.transcriptToRerecord (App.home w) = None ->
  Backend.id tr <> "" ->
  Backend.fault srv
    (Backend.StorageUpload "audio" (Home.filePath (Backend.id tr)) blob true) = None ->
  App.usableUrl (Backend.publicUrl srv (Home.filePath (Backend.id tr))) = Some url ->
  Backend.fault srv (Backend.TableUpdate (Backend.id tr) url Backend.completed) = None ->
  let t := Backend.id tr in
  let w1 := HomeEffect.step (App.StartRerecord tr) w in
  let w' := HomeEffect.run [App.Confirm (Some blob) t;
                            App.Settle 2 srv; App.Settle 2 srv] w1 in
  (App.issued w1 = App.issued w ++ [Backend.CountAll; Backend.SelectNextPending] /\
   App.pending w1 = [App.KCountTotal; App.KNextPending] /\
   App.backend w1 = App.backend w) /\
  App.backend w'
  = Backend.update t url Backend.completed
      (Backend.mk (Backend.table (App.backend w))
         (<[Home.filePath t := blob]> (Backend.storage (App.backend w)))) /\
  Home.mode (App.home w') = Home.review /\
  Home.transcriptToRerecord (App.home w') = None /\
  Home.isUploading (App.home w') = false /\
  Home.error (App.home w') = None /\
  Home.isFetchingReviewList (App.home w') = true /\
  App.pending w'
  = [App.KCountTotal; App.KNextPending; App.KCompletedList;
     App.KCountTotal; App.KNextPending] /\
  App.issued w' = App.issued w ++
    [Backend.CountAll; Backend.SelectNextPending;
     Backend.StorageUpload "audio" (Home.filePath t) blob true;
     Backend.StorageGetPublicUrl "audio" (Home.filePath t);
     Backend.TableUpdate t url Backend.completed;
     Backend.SelectCompleted;
     Backend.CountAll; Backend.SelectNextPending].
Proof.
  intros Hp Hex Hnone Hne Hup Hurl Hupd t w1 w'. subst t.
  apply String.eqb_neq in Hne.
  destruct w as [[ex cur tot done err upl md lst fetching target] inp be iss pend].
  cbn in Hp, Hex, Hnone. subst pend ex target.
  cbn [App.issued App.backend Backend.table Backend.storage].
  set (be' := Backend.mk (Backend.table be)
                (<[Home.filePath (Backend.id tr) := blob]> (Backend.storage be))).
  set (hm := fun up => Home.mkState (Some true) None tot done None up Home.record lst
                         fetching (Some tr)).
  set (reads := [Backend.CountAll; Backend.SelectNextPending]).
  set (upload := Backend.StorageUpload "audio" (Home.filePath (Backend.id tr)) blob true).
  assert (E1 : w1 = App.mkWorld (hm upl) inp be (iss ++ reads)
                 [App.KCountTotal; App.KNextPending]).
  { subst w1. rewrite (effect_step _ _ _ eq_refl).
    rewrite commit_changed; [reflexivity | intros Hd; discriminate Hd | reflexivity]. }
  assert (E2 : HomeEffect.step (App.Confirm (Some blob) (Backend.id tr))
                 (App.mkWorld (hm upl) inp be (iss ++ reads)
                    [App.KCountTotal; App.KNextPending])
               = App.mkWorld (hm true) inp be ((iss ++ reads) ++ [upload])
                   [App.KCountTotal; App.KNextPending;
                    App.KUpload (Backend.id tr) true (Home.filePath (Backend.id tr)) blob]).
  { erewrite effect_step.
    2:{ cbn [App.step]. unfold App.handleRecordingConfirm.
        cbn [App.home hm Home.activeTranscript Home.transcriptToRerecord Home.optId
             Home.strictEq].
        rewrite Hne, String.eqb_refl. cbn [negb]. reflexivity. }
    now rewrite commit_same. }
  assert (E3 : HomeEffect.step (App.Settle 2 srv)
                 (App.mkWorld (hm true) inp be ((iss ++ reads) ++ [upload])
                    [App.KCountTotal; App.KNextPending;
                     App.KUpload (Backend.id tr) true (Home.filePath (Backend.id tr))
                       blob])
               = App.mkWorld (hm true) inp be'
                   ((((iss ++ reads) ++ [upload])
                     ++ [Backend.StorageGetPublicUrl "audio"
                           (Home.filePath (Backend.id tr))])
                    ++ [Backend.TableUpdate (Backend.id tr) url Backend.completed])
                   [App.KCountTotal; App.KNextPending;
                    App.KUpdate (Backend.id tr) true url]).
  { erewrite effect_step.
    2:{ cbn [App.step App.pending].
        cbn [lookup list_lookup delete list_delete App.resume App.home App.input
             App.backend App.issued].
        change Home.bucketName with "audio". rewrite Hup.
        rewrite upload_upsert. rewrite Hurl. reflexivity. }
    now rewrite commit_same. }
  assert (E4 : HomeEffect.step (App.Settle 2 srv)
                 (App.mkWorld (hm true) inp be'
                    ((((iss ++ reads) ++ [upload])
                      ++ [Backend.StorageGetPublicUrl "audio"
                            (Home.filePath (Backend.id tr))])
                     ++ [Backend.TableUpdate (Backend.id tr) url Backend.completed])
                    [App.KCountTotal; App.KNextPending;
                     App.KUpdate (Backend.id tr) true url])
               = App.mkWorld
                   (Home.mkState (Some true) None tot done None false Home.review lst
                      true None)
                   inp (Backend.update (Backend.id tr) url Backend.completed be')
                   ((((((iss ++ reads) ++ [upload])
                       ++ [Backend.StorageGetPublicUrl "audio"
                             (Home.filePath (Backend.id tr))])
                      ++ [Backend.TableUpdate (Backend.id tr) url Backend.completed])
                     ++ [Backend.SelectCompleted]) ++ reads)
                   [App.KCountTotal; App.KNextPending; App.KCompletedList;
                    App.KCountTotal; App.KNextPending]).
  { erewrite effect_step.
    2:{ cbn [App.step App.pending].
        cbn [lookup list_lookup delete list_delete App.resume App.home App.input
             App.backend App.issued].
        rewrite Hupd. reflexivity. }
    rewrite commit_changed; [reflexivity | intros Hd; discriminate Hd | reflexivity]. }
  subst w'. clearbody w1. subst w1. split; [repeat split|].
  unfold HomeEffect.run. cbn [fold_left]. rewrite E2, E3, E4.
  cbn [App.backend App.home App.pending App.issued Home.mode Home.transcriptToRerecord
       Home.isUploading Home.error Home.isFetchingReviewList].
  subst reads upload. rewrite <- !app_assoc. repeat split.
Qed.

Lemma X12_rerecord_witness :
  App.pending
    (HomeEffect.run [App.Confirm (Some [1; 2]) "t1";
                     App.Settle 2 exampleSrv; App.Settle 2 exampleSrv]
       (HomeEffect.step (App.StartRerecord doneRow) reviewWorld))
  = [App.KCountTotal; App.KNextPending; App.KCompletedList;
     App.KCountTotal; App.KNextPending] /\
  Home.mode
    (App.home
       (HomeEffect.run [App.Confirm (Some [1; 2]) "t1";
                        App.Settle 2 exampleSrv; App.Settle 2 exampleSrv]
          (HomeEffect.step (App.StartRerecord doneRow) reviewWorld)))
  = Home.review.
Proof.
  assert (Hne : Backend.id doneRow <> "") by discriminate.
  pose proof (X12_rerecord_from_choice_to_review exampleSrv doneRow [1; 2]
                "https://cdn/audio/t1.webm" reviewWorld eq_refl eq_refl eq_refl Hne
                eq_refl eq_refl eq_refl) as T.
  split; [exact (proj1 (proj2 (proj2 (proj2 (proj2 (proj2 (proj2 (proj2 T)))))))) |
          exact (proj1 (proj2 (proj2 T)))].
Defined.

(** ** What is on screen *)

(** X13. On the page (no early return): with transcripts present exactly
    one of the recorder area and the review list is rendered; the intake
    form excludes both and the mode buttons; the Recorder is given the
    active task (the re-record target before the pending one) and the
    Cancel Re-record button comes with a target only; and the 'Loading or
    state issue...' fallback is rendered exactly when the 'All Pending
    Done' card is. *)
Theorem X13_page_layout (isLoading : bool) (s : Home.State) :
  match HomeView.render isLoading s with
  | HomeView.Page buttons overlay intake area review fallback =>
      (Home.transcriptsExist s = Some true ->
       (area = HomeView.NoRecorderArea <-> review = true)) /\
      (Home.transcriptsExist s <> Some true ->
       area = HomeView.NoRecorderArea /\ review = false /\ buttons = None) /\
      (intake = true ->
       area = HomeView.NoRecorderArea /\ review = false /\ buttons = None) /\
      (forall tr cancel,
         area = HomeView.RecorderFor tr cancel ->
         Home.activeTranscript s = Some tr /\
         (cancel = true <-> Home.transcriptToRerecord s <> None)) /\
      (fallback = true <-> area = HomeView.AllPendingDone) /\
      overlay = Home.isUploading s
  | _ => True
  end.
Proof.
  unfold HomeView.render.
  destruct (isLoading && _); [exact I|].
  destruct (HomeView.shownError (Home.error s)); [exact I|].
  unfold Home.activeTranscript.
  destruct (Home.transcriptsExist s) as [[|]|];
    destruct (Home.mode s); destruct (Home.transcriptToRerecord s) as [r|];
    destruct (Home.currentTranscript s) as [c|]; destruct isLoading; cbn;
    repeat split; try congruence; try discriminate;
    try (intros; congruence); try (intros; discriminate);
    try (intros tr cancel H; inversion H; subst; reflexivity);
    try (intros tr cancel H; inversion H; subst; intros; congruence);
    try (intros tr cancel H; inversion H; subst; intros; discriminate).
Qed.

(** ** The recorder: streams *)

Section Streams.

Import Recorder.

Lemma live_snoc (l : list bool) (b : bool) :
  live (l ++ [b]) = (live l + (if b then 1 else 0))%nat.
Proof.
  unfold live. rewrite List.filter_app, length_app. destruct b; reflexivity.
Qed.

Lemma snoc_insert {A} (l : list A) (x y : A) :
  <[length l := y]> (l ++ [x]) = l ++ [y].
Proof. induction l as [|a l IH]; simpl; [reflexivity | now rewrite IH]. Qed.

Lemma snoc_lookup {A} (l : list A) (x : A) : (l ++ [x]) !! length l = Some x.
Proof. induction l as [|a l IH]; simpl; [reflexivity | exact IH]. Qed.

Lemma live_insert_false (l : list bool) (s : nat) :
  (live (<[s := false]> l) <= live l)%nat.
Proof.
  unfold live. revert s. induction l as [|b l IH]; intros s; [reflexivity|].
  destruct s as [|s]; simpl.
  - destruct b; simpl; lia.
  - specialize (IH s). destruct b; simpl; lia.
Qed.

Lemma setRecorderState_streams (r : nat) (st : RecordingState) (p : Platform) :
  streams (setRecorderState r st p) = streams p.
Proof. unfold setRecorderState. destruct (recorders p !! r); reflexivity. Qed.

Lemma openStreams_live (w : World) : openStreams w = live (streams (platform w)).
Proof. reflexivity. Qed.

Lemma startCapture_streams (cl : Closure) (w : World) :
  streams (platform (startCapture cl w)) = streams (platform w).
Proof. unfold startCapture. cbn. apply resetState_streams. Qed.

Lemma getMicPermission_platform (next : option Closure) (w : World) :
  platform (snd (getMicPermission next w)) = platform w.
Proof. unfold getMicPermission. cbn. destruct (negb _); reflexivity. Qed.

Lemma startRecording_streams (cl : Closure) (w : World) :
  streams (platform (startRecording cl w)) = streams (platform w).
Proof.
  unfold startRecording. destruct (negb _).
  - now rewrite getMicPermission_platform.
  - apply startCapture_streams.
Qed.

Lemma stopRecording_streams (w : World) :
  streams (platform (stopRecording w)) = streams (platform w).
Proof.
  unfold stopRecording, recorderStop, setRecorderState.
  destruct (mediaRecorder (ui w)) as [r|]; [|reflexivity].
  destruct (isRecordingState _); [|reflexivity]. cbn.
  destruct (recorders (platform w) !! r); reflexivity.
Qed.

Lemma transcriptEffect_streams (w : World) :
  streams (platform (transcriptEffect w)) = streams (platform w).
Proof.
  unfold transcriptEffect.
  rewrite (proj1 (resetState_streams _ _)). now rewrite getMicPermission_platform.
Qed.

Lemma permission_settled_streams (o : Outcome) (next : option Closure) (w : World) :
  live (streams (platform (resume o (KPermission next) w))) = live (streams (platform w)).
Proof.
  cbn [resume]. destruct o as [a|m]; destruct next as [cl|]; cbn;
    rewrite ?snoc_insert, ?live_snoc; lia.
Qed.

Lemma changeAudioUrl_streams (v : option nat) (w : World) :
  streams (platform (changeAudioUrl v w)) = streams (platform w).
Proof.
  unfold changeAudioUrl. destruct (audioUrl (ui w)) as [u|]; [|reflexivity].
  destruct (sameUrl v (Some u)); reflexivity.
Qed.

Lemma fireStop_streams (r : nat) (data : Backend.Blob) (w : World) :
  (live (streams (platform (fireStop r data w))) <= live (streams (platform w)))%nat.
Proof.
  unfold fireStop. destruct (recorders (platform w) !! r) as [rec|] eqn:E; [|reflexivity].
  set (w1 := if Nat.ltb 0 (length data) then _ else w).
  assert (Hs : streams (platform w1) = streams (platform w))
    by (subst w1; destruct (Nat.ltb 0 (length data)); reflexivity).
  clearbody w1. unfold createObjectURL.
  cbn [platform onPlatform onUi streams stopTracks].
  rewrite changeAudioUrl_streams. cbn. rewrite Hs. apply live_insert_false.
Qed.

End Streams.

(** X14. Asking for microphone permission never leaves a stream open: when
    the request of [getMicPermission] settles, as many streams are live as
    before, and the permission flag tells whether it was granted. *)
Theorem X14_permission_check_releases_its_stream
    (o : Recorder.Outcome) (next : option Recorder.Closure) (w : Recorder.World) :
  let w' := Recorder.resume o (Recorder.KPermission next) w in
  Recorder.openStreams w' = Recorder.openStreams w /\
  length (Recorder.streams (Recorder.platform w'))
  = (length (Recorder.streams (Recorder.platform w))
     + match o with Recorder.Resolved _ => 1 | Recorder.Rejected _ => 0 end)%nat /\
  Recorder.permissionGranted (Recorder.ui w')
  = Some match o with Recorder.Resolved _ => true | Recorder.Rejected _ => false end /\
  Recorder.isRecording (Recorder.ui w') = Recorder.isRecording (Recorder.ui w).
Proof.
  intros w'. split; [apply permission_settled_streams|].
  subst w'. cbn [Recorder.resume].
  destruct o as [a|m]; destruct next as [cl|]; cbn;
    rewrite ?length_insert, ?length_app; cbn; repeat split; lia.
Qed.

(** X15. The only event that raises the number of live streams is a
    capture request of [startRecording] that resolves, and it raises it by
    one; no click, prop change, permission check or stop event does. *)
Theorem X15_only_a_resolved_capture_opens_a_stream
    (e : Recorder.Event) (w : Recorder.World) :
  (Recorder.openStreams (Recorder.step e w) <= Recorder.openStreams w)%nat \/
  exists n a cl,
    e = Recorder.Settle n (Recorder.Resolved a) /\
    Recorder.pending w !! n = Some (Recorder.KCapture cl) /\
    Recorder.openStreams (Recorder.step e w) = (Recorder.openStreams w + 1)%nat.
Proof.
  rewrite !openStreams_live.
  destruct e as [ | | | | |newId|b|n o|n data]; cbn [Recorder.step].
  - left. destruct (Recorder.render w) as [| |[|] ? ? [|]]; try reflexivity.
    now rewrite startRecording_streams.
  - left. destruct (Recorder.render w) as [| |? [|] ? [|]]; try reflexivity.
    now rewrite stopRecording_streams.
  - left. destruct (Recorder.render w) as [| |? ? [|] [|]]; try reflexivity.
    now rewrite (proj1 (resetState_streams _ _)).
  - left. destruct (Recorder.render w) as [| |? ? [|] [|]]; try reflexivity.
    unfold Recorder.handleConfirm. destruct (Recorder.audioBlob _); reflexivity.
  - left. destruct (Recorder.render w); try reflexivity.
    now rewrite getMicPermission_platform.
  - left. destruct (String.eqb _ _); [reflexivity|].
    now rewrite transcriptEffect_streams.
  - left. reflexivity.
  - destruct (Recorder.pending w !! n) as [k|] eqn:E; [|left; reflexivity].
    destruct k as [next|cl|cl].
    + left. rewrite permission_settled_streams. reflexivity.
    + left. cbn [Recorder.resume].
      destruct o as [[|]|m]; try reflexivity.
      destruct (Recorder.c_permissionGranted cl) as [[|]|]; try reflexivity;
        now rewrite startCapture_streams.
    + destruct o as [a|m].
      * right. exists n, a, cl. split; [reflexivity|]. split; [exact E|].
        cbn [Recorder.resume]. cbn.
        destruct (Recorder.recorderError (Recorder.platform w)).
        -- rewrite (proj1 (resetState_streams _ _)). cbn. now rewrite live_snoc.
        -- cbn. rewrite setRecorderState_streams. cbn. now rewrite live_snoc.
      * left. cbn [Recorder.resume]. now rewrite (proj1 (resetState_streams _ _)).
  - destruct (Recorder.stopTasks w !! n) as [r|]; [|left; reflexivity].
    left. apply (fireStop_streams r data
                   (Recorder.mkWorld (Recorder.ui w) (Recorder.transcriptId w)
                      (Recorder.isUploading w) (Recorder.platform w) (Recorder.pending w)
                      (delete n (Recorder.stopTasks w)) (Recorder.confirmed w))).
Qed.

(** ** The recorder: one recording *)

Section Cycle.

Import Recorder.

Lemma setRecorderState_snoc h e strs recs us st0 st s cl :
  setRecorderState (length recs) st
    (mkPlatform h e strs (recs ++ [mkRecorder st0 s cl]) us)
  = mkPlatform h e strs (recs ++ [mkRecorder st s cl]) us.
Proof.
  unfold setRecorderState. cbn [recorders]. rewrite snoc_lookup. cbn.
  now rewrite snoc_insert.
Qed.

Lemma recorderState_snoc h e strs recs us st s cl :
  recorderState (length recs) (mkPlatform h e strs (recs ++ [mkRecorder st s cl]) us) = st.
Proof. unfold recorderState. cbn [recorders]. now rewrite snoc_lookup. Qed.

Lemma resetState_ui (cl : Closure) (w : World) :
  ui (resetState cl w)
  = mkState false None
      (match c_audioUrl cl with Some _ => None | None => audioUrl (ui w) end)
      (permissionGranted (ui w)) (error (ui w)) None [].
Proof.
  destruct w as [[isRec blob url perm err mr chunks] tid up [hmd rerr strs recs us]
                   pend stops conf].
  destruct cl as [cp [u|]]; destruct url as [u'|]; destruct mr as [r|];
    unfold resetState, changeAudioUrl, recorderStop, setRecorderState, recorderState;
    cbn; try reflexivity;
    destruct (recs !! r) as [rec|] eqn:E; cbn; try reflexivity;
    destruct (isInactive (state rec)); cbn; rewrite ?E; reflexivity.
Qed.

Lemma resetState_urls_eq (cl : Closure) (w : World) :
  urls (platform (resetState cl w))
  = match c_audioUrl cl with
    | Some u =>
        match audioUrl (ui w) with
        | Some u' => <[u' := false]> (<[u := false]> (urls (platform w)))
        | None => <[u := false]> (urls (platform w))
        end
    | None => urls (platform w)
    end.
Proof.
  destruct w as [[isRec blob url perm err mr chunks] tid up [hmd rerr strs recs us]
                   pend stops conf].
  destruct cl as [cp [u|]]; destruct url as [u'|]; destruct mr as [r|];
    unfold resetState, changeAudioUrl, recorderStop, setRecorderState, recorderState;
    cbn; try reflexivity;
    destruct (recs !! r) as [rec|] eqn:E; cbn; try reflexivity;
    destruct (isInactive (state rec)); cbn; rewrite ?E; reflexivity.
Qed.

Lemma fireStop_ui (r : nat) (data : Backend.Blob) (w : World) (rec : MediaRecorder) :
  recorders (platform w) !! r = Some rec ->
  ui (fireStop r data w)
  = mkState (isRecording (ui w))
      (Some (concat (if Nat.ltb 0 (length data)
                     then audioChunks (ui w) ++ [data] else audioChunks (ui w))))
      (Some (length (urls (platform w))))
      (permissionGranted (ui w)) (error (ui w)) (mediaRecorder (ui w)) [] /\
  transcriptId (fireStop r data w) = transcriptId w /\
  isUploading (fireStop r data w) = isUploading w /\
  confirmed (fireStop r data w) = confirmed w.
Proof.
  destruct w as [[isRec blob url perm err mr chunks] tid up [hmd rerr strs recs us]
                   pend stops conf].
  cbn [platform recorders]. intros E. unfold fireStop. cbn [platform recorders].
  rewrite E.
  destruct (Nat.ltb 0 (length data)); destruct url as [u'|];
    unfold changeAudioUrl; cbn; try (destruct (Nat.eqb (length us) u'));
    repeat split.
Qed.

End Cycle.

(** X16. One recording from the ready state (permission granted, nothing
    recorded, nothing pending, no upload): record and resolved capture
    open one stream and show the stop control; stop and its stop event
    release that stream, make the delivered data the blob and register one
    preview URL, and show Redo and Confirm; Confirm then hands the blob and
    the task identifier to the page; Redo instead revokes the URL and
    returns the component to the state it started from. *)
Theorem X16_one_recording_round
    (w : Recorder.World) (a : bool) (data : Backend.Blob) :
  Recorder.permissionGranted (Recorder.ui w) = Some true ->
  Recorder.isRecording (Recorder.ui w) = false ->
  Recorder.audioBlob (Recorder.ui w) = None ->
  Recorder.audioUrl (Recorder.ui w) = None ->
  Recorder.mediaRecorder (Recorder.ui w) = None ->
  Recorder.isUploading w = false ->
  Recorder.pending w = [] ->
  Recorder.stopTasks w = [] ->
  Recorder.recorderError (Recorder.platform w) = None ->
  data <> [] ->
  let u := length (Recorder.urls (Recorder.platform w)) in
  let w1 := Recorder.run
              [Recorder.ClickRecord; Recorder.Settle 0 (Recorder.Resolved a)] w in
  let w2 := Recorder.run [Recorder.ClickStop; Recorder.FireStop 0 data] w1 in
  (Recorder.openStreams w1 = (Recorder.openStreams w + 1)%nat /\
   Recorder.render w1 = Recorder.Controls false true false false) /\
  (Recorder.openStreams w2 = Recorder.openStreams w /\
   Recorder.audioBlob (Recorder.ui w2) = Some data /\
   Recorder.audioUrl (Recorder.ui w2) = Some u /\
   Recorder.urls (Recorder.platform w2) !! u = Some true /\
   Recorder.render w2 = Recorder.Controls false false true false /\
   Recorder.pending w2 = [] /\ Recorder.stopTasks w2 = []) /\
  Recorder.confirmed (Recorder.step Recorder.ClickConfirm w2)
  = Recorder.confirmed w ++ [(data, Recorder.transcriptId w)] /\
  (Recorder.ui (Recorder.step Recorder.ClickRedo w2)
   = Recorder.setAudioChunks [] (Recorder.setError None (Recorder.ui w)) /\
   Recorder.urls (Recorder.platform (Recorder.step Recorder.ClickRedo w2)) !! u
   = Some false /\
   Recorder.openStreams (Recorder.step Recorder.ClickRedo w2) = Recorder.openStreams w).
Proof.
  intros H1 H2 H3 H4 H5 H6 H7 H8 H9 Hdata u w1 w2.
  destruct w as [[isRec blob url perm err mr chunks] tid up [hmd rerr strs recs us]
                   pend stops conf].
  cbn in H1, H2, H3, H4, H5, H6, H7, H8, H9. subst.
  cbn [Recorder.confirmed Recorder.transcriptId Recorder.ui].
  set (cl := Recorder.mkClosure (Some true) None).
  assert (E1 : w1 = Recorder.mkWorld
                 (Recorder.mkState true None None (Some true) None (Some (length recs)) [])
                 tid false
                 (Recorder.mkPlatform hmd None (strs ++ [true])
                    (recs ++ [Recorder.mkRecorder Recorder.recording (length strs) cl]) us)
                 [] [] conf).
  { subst w1. unfold Recorder.run. cbn [fold_left]. cbn.
    unfold Recorder.onUi, Recorder.onPlatform, Recorder.closureOf. cbn.
    rewrite setRecorderState_snoc. reflexivity. }
  assert (E2 : w2 = Recorder.mkWorld
                 (Recorder.mkState false (Some data) (Some (length us)) (Some true) None
                    (Some (length recs)) [])
                 tid false
                 (Recorder.mkPlatform hmd None (strs ++ [false])
                    (recs ++ [Recorder.mkRecorder Recorder.inactive (length strs) cl])
                    (us ++ [true]))
                 [] [] conf).
  { subst w2. rewrite E1. unfold Recorder.run. cbn [fold_left].
    cbn [Recorder.step Recorder.render Recorder.ui Recorder.permissionGranted
         Recorder.isRecording Recorder.audioBlob Recorder.audioUrl Recorder.isUploading
         Recorder.isSome negb andb].
    unfold Recorder.stopRecording.
    cbn [Recorder.ui Recorder.mediaRecorder Recorder.platform].
    rewrite recorderState_snoc. cbn [Recorder.isRecordingState].
    unfold Recorder.recorderStop, Recorder.onUi, Recorder.onPlatform, Recorder.queueStop.
    cbn [Recorder.platform Recorder.ui Recorder.transcriptId
         Recorder.isUploading Recorder.pending Recorder.stopTasks Recorder.confirmed].
    rewrite setRecorderState_snoc.
    cbn [app lookup list_lookup delete list_delete Recorder.setIsRecording
         Recorder.isRecording Recorder.audioBlob Recorder.audioUrl
         Recorder.permissionGranted Recorder.error Recorder.mediaRecorder
         Recorder.audioChunks].
    unfold Recorder.fireStop. cbn [Recorder.platform Recorder.recorders].
    rewrite snoc_lookup.
    destruct data as [|d0 data']; [congruence|].
    unfold Recorder.onUi, Recorder.onPlatform, Recorder.changeAudioUrl. cbn.
    unfold Recorder.stopTracks.
    cbn [Recorder.streams Recorder.hasMediaDevices Recorder.recorderError
         Recorder.recorders Recorder.urls].
    rewrite snoc_insert, app_nil_r. reflexivity. }
  rewrite !openStreams_live. split; [|split; [|split]].
  - rewrite E1. cbn. rewrite live_snoc. split; reflexivity.
  - rewrite E2. cbn. rewrite live_snoc, snoc_lookup. repeat split. lia.
  - rewrite E2. reflexivity.
  - rewrite E2. cbn [Recorder.step Recorder.render Recorder.ui Recorder.permissionGranted
         Recorder.isRecording Recorder.audioBlob Recorder.audioUrl Recorder.isUploading
         Recorder.isSome negb andb].
    rewrite resetState_ui, resetState_urls_eq, (proj1 (resetState_streams _ _)).
    cbn. rewrite !snoc_insert. rewrite live_snoc, snoc_lookup. repeat split. lia.
Qed.

Lemma X16_one_recording_witness :
  Recorder.openStreams
    (Recorder.run [Recorder.ClickStop; Recorder.FireStop 0 [1; 2; 3]]
       (Recorder.run [Recorder.ClickRecord; Recorder.Settle 0 (Recorder.Resolved true)]
          readyRecorder))
  = Recorder.openStreams readyRecorder /\
  Recorder.audioBlob
    (Recorder.ui
       (Recorder.run [Recorder.ClickStop; Recorder.FireStop 0 [1; 2; 3]]
          (Recorder.run [Recorder.ClickRecord; Recorder.Settle 0 (Recorder.Resolved true)]
             readyRecorder)))
  = Some [1; 2; 3].
Proof.
  assert (Hd : [1; 2; 3] <> @nil N) by discriminate.
  pose proof (X16_one_recording_round readyRecorder true [1; 2; 3]
                eq_refl eq_refl eq_refl eq_refl eq_refl eq_refl eq_refl eq_refl eq_refl
                Hd) as T.
  destruct T as (_ & (H1 & H2 & _) & _).
  split; [exact H1 | exact H2].
Defined.

(** ** The recorder: invariants of every run *)

Section RecorderInvariants.

Import Recorder.

Lemma keeps_consistent (w w' : World) :
  keeps w w' -> recordingConsistent w -> recordingConsistent w'.
Proof.
  intros (Hi & Hm & Hr) Hc H. rewrite Hi in H. destruct (Hc H) as (r & Hr1 & Hr2).
  exists r. rewrite Hm. split; [exact Hr1|].
  unfold recorderState in *. now rewrite Hr.
Qed.

Lemma settled_consistent (w' : World) : settled w' -> recordingConsistent w'.
Proof.
  intros [H | H] Hrec; [congruence | exact H].
Qed.

Lemma fireStop_fields (r : nat) (data : Backend.Blob) (w : World) (rec : MediaRecorder) :
  recorders (platform w) !! r = Some rec ->
  let w' := fireStop r data w in
  isRecording (ui w') = isRecording (ui w) /\
  mediaRecorder (ui w') = mediaRecorder (ui w) /\
  recorders (platform w') = recorders (platform w) /\
  audioUrl (ui w') = Some (length (urls (platform w))) /\
  urls (platform w')
  = match audioUrl (ui w) with
    | Some u' =>
        if Nat.eqb (length (urls (platform w))) u'
        then urls (platform w) ++ [true]
        else <[u' := false]> (urls (platform w) ++ [true])
    | None => urls (platform w) ++ [true]
    end.
Proof.
  intros E w'. subst w'. unfold fireStop. rewrite E.
  set (w1 := if Nat.ltb 0 (length data) then _ else w).
  assert (H1 : isRecording (ui w1) = isRecording (ui w)
               /\ mediaRecorder (ui w1) = mediaRecorder (ui w)
               /\ audioUrl (ui w1) = audioUrl (ui w)
               /\ platform w1 = platform w)
    by (subst w1; destruct (Nat.ltb 0 (length data)); repeat split).
  destruct H1 as (Hi & Hm & Hu & Hp). clearbody w1.
  unfold createObjectURL, changeAudioUrl, onUi, onPlatform, stopTracks, revokeObjectURL.
  cbn [platform ui audioUrl setAudioBlob setAudioUrl setAudioChunks isRecording
       mediaRecorder audioBlob permissionGranted error audioChunks].
  rewrite Hu, Hp. destruct (audioUrl (ui w)) as [u'|]; cbn [sameUrl].
  - destruct (Nat.eqb (length (urls (platform w))) u'); cbn; rewrite Hi, Hm; repeat split.
  - cbn. rewrite Hi, Hm. repeat split.
Qed.

Lemma resetState_down (cl : Closure) (w : World) :
  isRecording (ui (resetState cl w)) = false.
Proof. apply resetState_streams. Qed.

Lemma startCapture_down (cl : Closure) (w : World) :
  isRecording (ui (startCapture cl w)) = false.
Proof.
  unfold startCapture.
  change (isRecording (ui (resetState cl w)) = false). apply resetState_down.
Qed.

Lemma getMicPermission_keeps (next : option Closure) (w : World) :
  keeps w (snd (getMicPermission next w)).
Proof. unfold getMicPermission. destruct (negb _); repeat split. Qed.

Lemma resume_recording (o : Outcome) (k : Kont) (w : World) :
  keeps w (resume o k w) \/ settled (resume o k w).
Proof.
  destruct k as [next|cl|cl]; cbn [resume].
  - left. destruct o as [a|m]; destruct next as [c|]; repeat split.
  - destruct o as [[|]|m]; [|left; repeat split|left; repeat split].
    destruct (c_permissionGranted cl) as [[|]|];
      [right; left; apply startCapture_down | left; repeat split
      | right; left; apply startCapture_down].
  - right. destruct o as [a|m]; [|left; apply resetState_down].
    unfold openStream. cbn [recorderError].
    destruct (recorderError (platform w)); [left; apply resetState_down|].
    right. exists (length (recorders (platform w))).
    unfold newRecorder, onUi, onPlatform.
    cbn [ui platform mediaRecorder setIsRecording setMediaRecorder recorders].
    split; [reflexivity|].
    unfold setRecorderState, recorderState. cbn [recorders].
    rewrite snoc_lookup. cbn [recorders]. rewrite snoc_insert, snoc_lookup. reflexivity.
Qed.

Lemma step_recording (e : Event) (w : World) :
  keeps w (step e w) \/ settled (step e w).
Proof.
  destruct e as [ | | | | |newId|b|n o|n data]; cbn [step].
  - destruct (render w) as [| |[|] ? ? [|]]; try solve [left; repeat split].
    unfold startRecording. destruct (negb _).
    + left. apply getMicPermission_keeps.
    + right. left. apply startCapture_down.
  - destruct (render w) as [| |? [|] ? [|]]; try solve [left; repeat split].
    unfold stopRecording. destruct (mediaRecorder (ui w)) as [r|]; [|left; repeat split].
    destruct (isRecordingState _); [right; left; reflexivity | left; repeat split].
  - destruct (render w) as [| |? ? [|] [|]]; try solve [left; repeat split].
    right. left. apply resetState_down.
  - left. destruct (render w) as [| |? ? [|] [|]]; try solve [repeat split].
    unfold handleConfirm. destruct (audioBlob (ui w)); repeat split.
  - left. destruct (render w); try solve [repeat split].
    apply getMicPermission_keeps.
  - destruct (String.eqb _ _); [left; repeat split|].
    right. left. unfold transcriptEffect. apply resetState_down.
  - left. repeat split.
  - destruct (pending w !! n) as [k|]; [|left; repeat split].
    apply (resume_recording o k
             (mkWorld (ui w) (transcriptId w) (isUploading w) (platform w)
                (delete n (pending w)) (stopTasks w) (confirmed w))).
  - destruct (stopTasks w !! n) as [r|]; [|left; repeat split].
    left. destruct (recorders (platform w) !! r) as [rec|] eqn:E.
    + destruct (fireStop_fields r data
                  (mkWorld (ui w) (transcriptId w) (isUploading w) (platform w)
                     (pending w) (delete n (stopTasks w)) (confirmed w)) rec E)
        as (Hi & Hm & Hr & _).
      repeat split; assumption.
    + unfold fireStop. cbn [platform]. rewrite E. repeat split.
Qed.

Lemma onerror_recording (r : nat) (w : World) :
  keeps w (PlatformEvents.onerror r w) \/ settled (PlatformEvents.onerror r w).
Proof.
  unfold PlatformEvents.onerror.
  destruct (recorders (platform w) !! r) as [rec|]; [|left; repeat split].
  right. left. cbn [ui onPlatform]. apply resetState_down.
Qed.

Lemma platform_step_recording (e : PlatformEvents.Event) (w : World) :
  PlatformEvents.isPlatformStop e = false ->
  keeps w (PlatformEvents.step e w) \/ settled (PlatformEvents.step e w).
Proof.
  destruct e as [e'|r|r]; intros H;
    [apply step_recording | apply onerror_recording | discriminate H].
Qed.

Lemma platform_run_recording (es : list PlatformEvents.Event) (w : World) :
  Forall (fun e => PlatformEvents.isPlatformStop e = false) es ->
  recordingConsistent w -> recordingConsistent (PlatformEvents.run es w).
Proof.
  revert w. induction es as [|e es IH]; intros w Hes H; [exact H|].
  inversion Hes as [|e0 es0 He Hes']; subst.
  change (PlatformEvents.run (e :: es) w)
    with (PlatformEvents.run es (PlatformEvents.step e w)).
  apply IH; [exact Hes'|].
  destruct (platform_step_recording e w He) as [K | S];
    [now apply (keeps_consistent w) | now apply settled_consistent].
Qed.

Lemma insert_false_live (l : list bool) (u v : nat) :
  <[u := false]> l !! v = Some true -> l !! v = Some true /\ v <> u.
Proof.
  intros H. destruct (decide (u = v)) as [<- | Hne].
  - exfalso. destruct (decide (u < length l)%nat) as [Hlt | Hge].
    + rewrite list_lookup_insert_eq in H by exact Hlt. discriminate.
    + rewrite list_insert_ge in H by lia.
      rewrite lookup_ge_None_2 in H by lia. discriminate.
  - rewrite list_lookup_insert_ne in H by exact Hne. split; [exact H | congruence].
Qed.

Lemma snoc_live (l : list bool) (v : nat) :
  (l ++ [true]) !! v = Some true -> l !! v = Some true \/ v = length l.
Proof.
  intros H. destruct (decide (v < length l)%nat) as [Hlt | Hge].
  - left. now rewrite lookup_app_l in H by exact Hlt.
  - right. destruct (decide (v = length l)) as [E | Hne]; [exact E|].
    rewrite lookup_ge_None_2 in H; [discriminate|]. rewrite length_app. simpl. lia.
Qed.

Lemma resetState_urls (cl : Closure) (w : World) :
  urlsTidy w -> urlsTidy (resetState cl w).
Proof.
  intros Ht v. rewrite resetState_urls_eq, resetState_ui. cbn [audioUrl].
  destruct (c_audioUrl cl) as [u|]; [|apply Ht].
  intros H. exfalso. destruct (audioUrl (ui w)) as [u'|] eqn:E.
  - apply insert_false_live in H. destruct H as [H Hne].
    apply insert_false_live in H. destruct H as [H _].
    apply Ht in H. congruence.
  - apply insert_false_live in H. destruct H as [H _].
    apply Ht in H. congruence.
Qed.

Lemma fireStop_urls (r : nat) (data : Backend.Blob) (w : World) :
  urlsTidy w -> urlsTidy (fireStop r data w).
Proof.
  intros Ht. destruct (recorders (platform w) !! r) as [rec|] eqn:E.
  - destruct (fireStop_fields r data w rec E) as (_ & _ & _ & Hu & Hl).
    intros v. rewrite Hu, Hl. intros H.
    assert (Hcase : urls (platform w) !! v = Some true
                    /\ audioUrl (ui w) <> Some v
                    \/ v = length (urls (platform w))).
    { destruct (audioUrl (ui w)) as [u'|] eqn:A.
      - destruct (Nat.eqb (length (urls (platform w))) u') eqn:C.
        + apply Nat.eqb_eq in C. apply snoc_live in H. destruct H as [H | H]; [|now right].
          pose proof (Ht v H) as Hv. rewrite A in Hv. inversion Hv; subst.
          apply lookup_lt_Some in H. lia.
        + apply insert_false_live in H. destruct H as [H Hne].
          apply snoc_live in H. destruct H as [H | H]; [|now right].
          left. split; [exact H | congruence].
      - apply snoc_live in H. destruct H as [H | H]; [|now right].
        left. split; [exact H | discriminate]. }
    destruct Hcase as [[H1 H2] | ->]; [|reflexivity].
    exfalso. apply H2. now apply Ht.
  - unfold fireStop. rewrite E. exact Ht.
Qed.

Lemma tidy_same (w w' : World) :
  audioUrl (ui w') = audioUrl (ui w) ->
  urls (platform w') = urls (platform w) ->
  urlsTidy w -> urlsTidy w'.
Proof. intros Hu Hl Ht v. rewrite Hu, Hl. apply Ht. Qed.

Lemma getMicPermission_tidy (next : option Closure) (w : World) :
  urlsTidy w -> urlsTidy (snd (getMicPermission next w)).
Proof.
  apply tidy_same; unfold getMicPermission; cbn; destruct (negb _); reflexivity.
Qed.

Lemma startCapture_tidy (cl : Closure) (w : World) :
  urlsTidy w -> urlsTidy (startCapture cl w).
Proof.
  intros H. apply (tidy_same (resetState cl w)); [reflexivity | reflexivity|].
  now apply resetState_urls.
Qed.

Lemma resume_tidy (o : Outcome) (k : Kont) (w : World) :
  urlsTidy w -> urlsTidy (resume o k w).
Proof.
  intros Ht. destruct k as [next|cl|cl]; cbn [resume].
  - revert Ht. apply tidy_same; destruct o as [a|m]; destruct next as [c|]; reflexivity.
  - destruct o as [[|]|m]; try (revert Ht; apply tidy_same; reflexivity).
    destruct (c_permissionGranted cl) as [[|]|]; try exact Ht;
      now apply startCapture_tidy.
  - destruct o as [a|m].
    + cbn. destruct (recorderError (platform w)).
      * apply resetState_urls. revert Ht. apply tidy_same; reflexivity.
      * revert Ht. apply tidy_same; cbn; [reflexivity|].
        unfold setRecorderState. cbn. now rewrite snoc_lookup.
    + apply resetState_urls. revert Ht. apply tidy_same; reflexivity.
Qed.

Lemma step_tidy (e : Event) (w : World) : urlsTidy w -> urlsTidy (step e w).
Proof.
  intros Ht. destruct e as [ | | | | |newId|b|n o|n data]; cbn [step].
  - destruct (render w) as [| |[|] ? ? [|]]; try exact Ht.
    unfold startRecording. destruct (negb _);
      [now apply getMicPermission_tidy | now apply startCapture_tidy].
  - destruct (render w) as [| |? [|] ? [|]]; try exact Ht.
    revert Ht. apply tidy_same; unfold stopRecording, recorderStop, setRecorderState;
      destruct (mediaRecorder (ui w)) as [r|]; try reflexivity;
      destruct (isRecordingState _); try reflexivity; cbn;
      destruct (recorders (platform w) !! r); reflexivity.
  - destruct (render w) as [| |? ? [|] [|]]; try exact Ht. now apply resetState_urls.
  - destruct (render w) as [| |? ? [|] [|]]; try exact Ht.
    revert Ht. apply tidy_same; unfold handleConfirm;
      destruct (audioBlob (ui w)); reflexivity.
  - destruct (render w); try exact Ht. now apply getMicPermission_tidy.
  - destruct (String.eqb _ _); [exact Ht|].
    unfold transcriptEffect. apply resetState_urls. apply getMicPermission_tidy.
    revert Ht. apply tidy_same; reflexivity.
  - revert Ht. apply tidy_same; reflexivity.
  - destruct (pending w !! n) as [k|]; [|exact Ht].
    apply resume_tidy. revert Ht. apply tidy_same; reflexivity.
  - destruct (stopTasks w !! n) as [r|]; [|exact Ht].
    apply fireStop_urls. revert Ht. apply tidy_same; reflexivity.
Qed.

Lemma run_tidy (es : list Event) (w : World) : urlsTidy w -> urlsTidy (run es w).
Proof.
  revert w. induction es as [|e es IH]; intros w H; [exact H|].
  change (run (e :: es) w) with (run es (step e w)). apply IH. now apply step_tidy.
Qed.

End RecorderInvariants.

(** X17. As long as no recording is ended by the platform itself, the
    recording flag is up only while the recorder held in the ref is
    recording: this holds after every run of a mounted recorder made of
    the component's own events (clicks, prop changes, settling promises,
    the stop events of recorders the component stopped) and of recorder
    error events.  So whenever the stop control is then shown and
    enabled, a click on it stops that recorder, queues its stop event and
    lowers the flag. *)
Theorem X17_stop_control_always_stops_a_recorder
    (es : list PlatformEvents.Event) (tid : string) (up : bool)
    (p : Recorder.Platform) :
  Forall (fun e => PlatformEvents.isPlatformStop e = false) es ->
  let w := PlatformEvents.run es (Recorder.mount tid up p) in
  recordingConsistent w /\
  (Recorder.isRecording (Recorder.ui w) = true ->
   Recorder.permissionGranted (Recorder.ui w) = Some true ->
   Recorder.isUploading w = false ->
   exists r,
     Recorder.mediaRecorder (Recorder.ui w) = Some r /\
     Recorder.recorderState r (Recorder.platform w) = Recorder.recording /\
     Recorder.stopTasks (Recorder.step Recorder.ClickStop w)
     = Recorder.stopTasks w ++ [r] /\
     Recorder.recorderState r (Recorder.platform (Recorder.step Recorder.ClickStop w))
     = Recorder.inactive /\
     Recorder.isRecording (Recorder.ui (Recorder.step Recorder.ClickStop w)) = false).
Proof.
  intros Hes w.
  assert (Hc : recordingConsistent w).
  { subst w. apply platform_run_recording; [exact Hes|]. apply settled_consistent. left.
    unfold Recorder.mount, Recorder.transcriptEffect. apply resetState_streams. }
  split; [exact Hc|]. clearbody w. intros Hrec Hperm Hup.
  destruct (Hc Hrec) as (r & Hm & Hs). exists r. split; [exact Hm|]. split; [exact Hs|].
  cbn [Recorder.step]. unfold Recorder.render. rewrite Hperm, Hrec, Hup.
  unfold Recorder.stopRecording. rewrite Hm, Hs. cbn [Recorder.isRecordingState].
  unfold Recorder.recorderState in Hs.
  destruct (Recorder.recorders (Recorder.platform w) !! r) as [rec|] eqn:E;
    [|discriminate].
  unfold Recorder.recorderStop, Recorder.setRecorderState, Recorder.recorderState.
  cbn. rewrite E. cbn. split; [reflexivity|]. split; [|reflexivity].
  rewrite list_lookup_insert_eq by (eapply lookup_lt_Some; exact E). reflexivity.
Qed.

Lemma X17_stop_control_witness :
  Recorder.stopTasks
    (Recorder.step Recorder.ClickStop
       (PlatformEvents.run recordedAfterError (Recorder.mount "t1" false browser)))
  = Recorder.stopTasks
      (PlatformEvents.run recordedAfterError (Recorder.mount "t1" false browser))
    ++ [1%nat].
Proof.
  assert (Hes : Forall (fun e => PlatformEvents.isPlatformStop e = false)
                  recordedAfterError)
    by (repeat constructor).
  assert (H1 : Recorder.isRecording
                 (Recorder.ui (PlatformEvents.run recordedAfterError
                                 (Recorder.mount "t1" false browser))) = true)
    by (vm_compute; reflexivity).
  assert (H2 : Recorder.permissionGranted
                 (Recorder.ui (PlatformEvents.run recordedAfterError
                                 (Recorder.mount "t1" false browser))) = Some true)
    by (vm_compute; reflexivity).
  assert (H3 : Recorder.isUploading
                 (PlatformEvents.run recordedAfterError
                    (Recorder.mount "t1" false browser)) = false)
    by (vm_compute; reflexivity).
  assert (H4 : Recorder.mediaRecorder
                 (Recorder.ui (PlatformEvents.run recordedAfterError
                                 (Recorder.mount "t1" false browser))) = Some 1%nat)
    by (vm_compute; reflexivity).
  destruct (proj2 (X17_stop_control_always_stops_a_recorder
                     recordedAfterError "t1" false browser Hes) H1 H2 H3)
    as (r & Hm & _ & Hs & _).
  rewrite H4 in Hm. inversion Hm; subst r. exact Hs.
Defined.

(** X18. Preview URLs do not pile up: in every run of a recorder mounted
    on a platform without registered object URLs, an object URL that is
    still registered is the one in [audioUrl]; there is never more than
    one. *)
Theorem X18_at_most_one_preview_url
    (es : list Recorder.Event) (tid : string) (up : bool) (p : Recorder.Platform) :
  (forall v, Recorder.urls p !! v <> Some true) ->
  let w := Recorder.run es (Recorder.mount tid up p) in
  (forall v, Recorder.urls (Recorder.platform w) !! v = Some true ->
             Recorder.audioUrl (Recorder.ui w) = Some v) /\
  (forall v v', Recorder.urls (Recorder.platform w) !! v = Some true ->
                Recorder.urls (Recorder.platform w) !! v' = Some true -> v = v').
Proof.
  intros Hp w.
  assert (Ht : urlsTidy w).
  { subst w. apply run_tidy. unfold Recorder.mount, Recorder.transcriptEffect.
    apply resetState_urls. apply getMicPermission_tidy.
    intros v H. cbn in H. now apply Hp in H. }
  split; [exact Ht|].
  intros v v' H H'. apply Ht in H. apply Ht in H'. congruence.
Qed.

Lemma X18_at_most_one_preview_url_witness :
  Recorder.audioUrl
    (Recorder.ui
       (Recorder.run
          [Recorder.Settle 0 (Recorder.Resolved true); Recorder.ClickRecord;
           Recorder.Settle 0 (Recorder.Resolved true); Recorder.ClickStop;
           Recorder.FireStop 0 [1; 2]; Recorder.ClickRedo; Recorder.ClickRecord;
           Recorder.Settle 0 (Recorder.Resolved true); Recorder.ClickStop;
           Recorder.FireStop 0 [3]]
          (Recorder.mount "t1" false browser)))
  = Some 1%nat.
Proof.
  assert (Hp : forall v, Recorder.urls browser !! v <> Some true) by (intros v; discriminate).
  exact (proj1 (X18_at_most_one_preview_url
                  [Recorder.Settle 0 (Recorder.Resolved true); Recorder.ClickRecord;
                   Recorder.Settle 0 (Recorder.Resolved true); Recorder.ClickStop;
                   Recorder.FireStop 0 [1; 2]; Recorder.ClickRedo; Recorder.ClickRecord;
                   Recorder.Settle 0 (Recorder.Resolved true); Recorder.ClickStop;
                   Recorder.FireStop 0 [3]] "t1" false browser Hp) 1%nat eq_refl).
Defined.

(** X19. A stop event delivered after [resetState] still stores its
    recording.  When the task changes while a recording is running, the
    effect stops the recorder; once its stop event arrives, the data
    recorded for the old task is the preview of the new one, and Confirm
    hands it to the page under the new task's identifier. *)
Theorem X19_late_stop_event_crosses_tasks
    (w : Recorder.World) (r : nat) (rec : Recorder.MediaRecorder)
    (newId : string) (data : Backend.Blob) :
  Recorder.mediaRecorder (Recorder.ui w) = Some r ->
  Recorder.recorders (Recorder.platform w) !! r = Some rec ->
  Recorder.state rec = Recorder.recording ->
  Recorder.stopTasks w = [] ->
  Recorder.hasMediaDevices (Recorder.platform w) = true ->
  Recorder.permissionGranted (Recorder.ui w) = Some true ->
  Recorder.isUploading w = false ->
  String.eqb newId (Recorder.transcriptId w) = false ->
  data <> [] ->
  let w1 := Recorder.step (Recorder.TranscriptChanged newId) w in
  let w2 := Recorder.step (Recorder.FireStop 0 data) w1 in
  (Recorder.transcriptId w1 = newId /\
   Recorder.audioBlob (Recorder.ui w1) = None /\
   Recorder.stopTasks w1 = [r]) /\
  (Recorder.transcriptId w2 = newId /\
   Recorder.audioBlob (Recorder.ui w2) = Some data /\
   Recorder.render w2 = Recorder.Controls false false true false) /\
  Recorder.confirmed (Recorder.step Recorder.ClickConfirm w2)
  = Recorder.confirmed w ++ [(data, newId)].
Proof.
  intros Hm Hr Hs Hst Hmd Hperm Hup Hid Hdata w1 w2.
  destruct w as [[isRec blob url perm err mr chunks] tid up [hmd rerr strs recs us]
                   pend stops conf].
  cbn in Hm, Hr, Hst, Hmd, Hperm, Hup, Hid. subst mr stops hmd perm up.
  destruct rec as [st s cl]. cbn in Hs. subst st.
  assert (Hlt : (r < length recs)%nat) by (eapply lookup_lt_Some; exact Hr).
  assert (E1 : Recorder.transcriptId w1 = newId /\
               Recorder.ui w1
               = Recorder.mkState false None
                   (match url with Some _ => None | None => None end)
                   (Some true) None None [] /\
               Recorder.isUploading w1 = false /\
               Recorder.recorders (Recorder.platform w1)
               = <[r := Recorder.mkRecorder Recorder.inactive s cl]> recs /\
               Recorder.stopTasks w1 = [r] /\
               Recorder.confirmed w1 = conf).
  { subst w1. cbn [Recorder.step Recorder.transcriptId]. rewrite Hid.
    unfold Recorder.transcriptEffect, Recorder.getMicPermission, Recorder.resetState,
      Recorder.changeAudioUrl, Recorder.recorderStop, Recorder.setRecorderState,
      Recorder.recorderState.
    destruct url as [u0|]; cbn; rewrite Hr; cbn; rewrite Hr; repeat split. }
  destruct E1 as (Ht1 & Hui1 & Hup1 & Hrec1 & Hst1 & Hc1).
  assert (Hblob1 : Recorder.audioBlob (Recorder.ui w1) = None) by now rewrite Hui1.
  assert (E2 : Recorder.transcriptId w2 = newId /\
               Recorder.audioBlob (Recorder.ui w2) = Some data /\
               Recorder.audioUrl (Recorder.ui w2)
               = Some (length (Recorder.urls (Recorder.platform w1))) /\
               Recorder.isRecording (Recorder.ui w2) = false /\
               Recorder.permissionGranted (Recorder.ui w2) = Some true /\
               Recorder.isUploading w2 = false /\
               Recorder.confirmed w2 = conf).
  { subst w2. clearbody w1. cbn [Recorder.step]. rewrite Hst1.
    cbn [lookup list_lookup delete list_delete].
    assert (Hl : Recorder.recorders
                   (Recorder.platform
                      (Recorder.mkWorld (Recorder.ui w1) (Recorder.transcriptId w1)
                         (Recorder.isUploading w1) (Recorder.platform w1)
                         (Recorder.pending w1) [] (Recorder.confirmed w1))) !! r
                 = Some (Recorder.mkRecorder Recorder.inactive s cl)).
    { cbn [Recorder.platform]. rewrite Hrec1.
      now rewrite list_lookup_insert_eq by exact Hlt. }
    destruct (fireStop_ui r data _ _ Hl) as (Hui & Htid & Hupl & Hconf).
    rewrite Hui, Htid, Hupl, Hconf.
    cbn [Recorder.ui Recorder.transcriptId Recorder.isUploading Recorder.confirmed
         Recorder.platform Recorder.audioBlob Recorder.audioUrl Recorder.isRecording
         Recorder.permissionGranted].
    rewrite Hui1. cbn [Recorder.isRecording Recorder.permissionGranted
                       Recorder.audioChunks].
    destruct data as [|d0 data']; [congruence|].
    cbn. rewrite app_nil_r. repeat split; assumption. }
  destruct E2 as (Ht2 & Hb2 & Hu2 & Hi2 & Hp2 & Hup2 & Hc2).
  split; [repeat split; assumption|]. clearbody w2 w1.
  assert (Hrender : Recorder.render w2 = Recorder.Controls false false true false).
  { unfold Recorder.render. now rewrite Hp2, Hi2, Hb2, Hu2, Hup2. }
  split; [repeat split; assumption|].
  cbn [Recorder.step]. rewrite Hrender. unfold Recorder.handleConfirm.
  rewrite Hb2, Ht2, Hc2. reflexivity.
Qed.

Lemma X19_late_stop_event_witness :
  Recorder.confirmed
    (Recorder.step Recorder.ClickConfirm
       (Recorder.step (Recorder.FireStop 0 [7; 8])
          (Recorder.step (Recorder.TranscriptChanged "t2") recorderAtWork)))
  = Recorder.confirmed recorderAtWork ++ [([7; 8], "t2")].
Proof.
  assert (Hd : [7; 8] <> @nil N) by discriminate.
  assert (H1 : Recorder.mediaRecorder (Recorder.ui recorderAtWork) = Some 0%nat)
    by (vm_compute; reflexivity).
  assert (H2 : Recorder.recorders (Recorder.platform recorderAtWork) !! 0%nat
               = Some (Recorder.mkRecorder Recorder.recording 1
                         (Recorder.mkClosure (Some true) None)))
    by (vm_compute; reflexivity).
  assert (H3 : Recorder.stopTasks recorderAtWork = []) by (vm_compute; reflexivity).
  assert (H4 : Recorder.hasMediaDevices (Recorder.platform recorderAtWork) = true)
    by (vm_compute; reflexivity).
  assert (H5 : Recorder.permissionGranted (Recorder.ui recorderAtWork) = Some true)
    by (vm_compute; reflexivity).
  assert (H6 : Recorder.isUploading recorderAtWork = false) by (vm_compute; reflexivity).
  assert (H7 : String.eqb "t2" (Recorder.transcriptId recorderAtWork) = false)
    by (vm_compute; reflexivity).
  exact (proj2 (proj2
    (X19_late_stop_event_crosses_tasks recorderAtWork 0%nat
       (Recorder.mkRecorder Recorder.recording 1 (Recorder.mkClosure (Some true) None))
       "t2" [7; 8] H1 H2 eq_refl H3 H4 H5 H6 H7 Hd))).
Defined.

(** X21. A recording the platform ends by itself leaves the stop control
    without effect.  When the recorder in the ref stops recording without
    [stopRecording] or [resetState] having asked for it, nothing lowers
    the recording flag: [onstop] stores the blob and the preview URL and
    leaves the flag up.  The flag is then up over an inactive recorder,
    the stop control is shown next to the preview, a click on it changes
    nothing, and Redo is what lowers the flag. *)
Theorem X21_recording_ended_by_the_platform
    (w : Recorder.World) (r : nat) (rec : Recorder.MediaRecorder)
    (data : Backend.Blob) :
  Recorder.mediaRecorder (Recorder.ui w) = Some r ->
  Recorder.recorders (Recorder.platform w) !! r = Some rec ->
  Recorder.state rec = Recorder.recording ->
  Recorder.isRecording (Recorder.ui w) = true ->
  Recorder.permissionGranted (Recorder.ui w) = Some true ->
  Recorder.isUploading w = false ->
  Recorder.stopTasks w = [] ->
  let w1 := PlatformEvents.step (PlatformEvents.PlatformStop r) w in
  let w2 := PlatformEvents.step
              (PlatformEvents.Component (Recorder.FireStop 0 data)) w1 in
  (Recorder.isRecording (Recorder.ui w1) = true /\
   Recorder.recorderState r (Recorder.platform w1) = Recorder.inactive /\
   Recorder.stopTasks w1 = [r] /\
   ~ recordingConsistent w1 /\
   Recorder.step Recorder.ClickStop w1 = w1) /\
  (Recorder.render w2 = Recorder.Controls false true true false /\
   Recorder.step Recorder.ClickStop w2 = w2 /\
   Recorder.isRecording (Recorder.ui (Recorder.step Recorder.ClickRedo w2)) = false).
Proof.
  intros Hm Hr Hs Hrec Hperm Hup Hst w1 w2.
  destruct w as [[isRec blob url perm err mr chunks] tid up [hmd rerr strs recs us]
                   pend stops conf].
  cbn in Hm, Hr, Hrec, Hperm, Hup, Hst. subst mr isRec perm up stops.
  destruct rec as [st s cl]. cbn in Hs. subst st.
  assert (Hlt : (r < length recs)%nat) by (eapply lookup_lt_Some; exact Hr).
  set (recs' := <[r := Recorder.mkRecorder Recorder.inactive s cl]> recs).
  assert (Hl : recs' !! r = Some (Recorder.mkRecorder Recorder.inactive s cl))
    by (subst recs'; now rewrite list_lookup_insert_eq by exact Hlt).
  assert (E1 : w1 = Recorder.mkWorld
                 (Recorder.mkState true blob url (Some true) err (Some r) chunks)
                 tid false (Recorder.mkPlatform hmd rerr strs recs' us)
                 pend [r] conf).
  { subst w1. cbn [PlatformEvents.step].
    unfold PlatformEvents.endedByPlatform, Recorder.recorderState.
    cbn [Recorder.platform Recorder.recorders]. rewrite Hr.
    cbn [Recorder.state Recorder.isInactive].
    unfold Recorder.recorderStop, Recorder.queueStop, Recorder.onPlatform,
      Recorder.setRecorderState.
    cbn. rewrite Hr. reflexivity. }
  subst w2. clearbody w1. subst w1.
  assert (Hstop : forall w0 : Recorder.World,
            Recorder.isRecording (Recorder.ui w0) = true ->
            Recorder.permissionGranted (Recorder.ui w0) = Some true ->
            Recorder.mediaRecorder (Recorder.ui w0) = Some r ->
            Recorder.isUploading w0 = false ->
            Recorder.recorders (Recorder.platform w0) = recs' ->
            Recorder.step Recorder.ClickStop w0 = w0).
  { intros w0 Hi Hp Hmr Hu Hrs. cbn [Recorder.step]. unfold Recorder.render.
    rewrite Hp, Hi, Hu. unfold Recorder.stopRecording, Recorder.recorderState.
    rewrite Hmr, Hrs, Hl. reflexivity. }
  split.
  - split; [reflexivity|]. split.
    { unfold Recorder.recorderState. cbn [Recorder.platform Recorder.recorders].
      now rewrite Hl. }
    split; [reflexivity|]. split; [|now apply Hstop].
    intros Hc. destruct (Hc eq_refl) as (r0 & Hm0 & Hs0).
    cbn in Hm0. inversion Hm0; subst r0.
    unfold Recorder.recorderState in Hs0.
    cbn [Recorder.platform Recorder.recorders] in Hs0. rewrite Hl in Hs0.
    discriminate Hs0.
  - cbn [PlatformEvents.step Recorder.step Recorder.stopTasks lookup list_lookup
         delete list_delete Recorder.ui Recorder.transcriptId Recorder.isUploading
         Recorder.platform Recorder.pending Recorder.confirmed].
    set (w0 := Recorder.mkWorld _ tid false _ pend [] conf).
    assert (Hl0 : Recorder.recorders (Recorder.platform w0) !! r
                  = Some (Recorder.mkRecorder Recorder.inactive s cl)) by exact Hl.
    destruct (fireStop_ui r data w0 _ Hl0) as (Hui & _ & Hupl & _).
    destruct (fireStop_fields r data w0 _ Hl0) as (_ & _ & Hrs & _).
    set (w2 := Recorder.fireStop r data w0) in *.
    assert (Hi2 : Recorder.isRecording (Recorder.ui w2) = true) by now rewrite Hui.
    assert (Hp2 : Recorder.permissionGranted (Recorder.ui w2) = Some true)
      by now rewrite Hui.
    assert (Hm2 : Recorder.mediaRecorder (Recorder.ui w2) = Some r) by now rewrite Hui.
    assert (Hb2 : Recorder.isSome (Recorder.audioBlob (Recorder.ui w2)) = true)
      by now rewrite Hui.
    assert (Hu2 : Recorder.isSome (Recorder.audioUrl (Recorder.ui w2)) = true)
      by now rewrite Hui.
    assert (Hup2 : Recorder.isUploading w2 = false) by exact Hupl.
    clearbody w2.
    assert (Hrender : Recorder.render w2 = Recorder.Controls false true true false).
    { unfold Recorder.render. now rewrite Hp2, Hi2, Hb2, Hu2, Hup2. }
    split; [exact Hrender|]. split; [now apply Hstop|].
    cbn [Recorder.step]. rewrite Hrender. apply resetState_down.
Qed.

Lemma X21_recording_ended_witness :
  Recorder.render
    (PlatformEvents.step (PlatformEvents.Component (Recorder.FireStop 0 [7; 8]))
       (PlatformEvents.step (PlatformEvents.PlatformStop 0) recorderAtWork))
  = Recorder.Controls false true true false.
Proof.
  assert (H1 : Recorder.mediaRecorder (Recorder.ui recorderAtWork) = Some 0%nat)
    by (vm_compute; reflexivity).
  assert (H2 : Recorder.recorders (Recorder.platform recorderAtWork) !! 0%nat
               = Some (Recorder.mkRecorder Recorder.recording 1
                         (Recorder.mkClosure (Some true) None)))
    by (vm_compute; reflexivity).
  assert (H3 : Recorder.isRecording (Recorder.ui recorderAtWork) = true)
    by (vm_compute; reflexivity).
  assert (H4 : Recorder.permissionGranted (Recorder.ui recorderAtWork) = Some true)
    by (vm_compute; reflexivity).
  assert (H5 : Recorder.isUploading recorderAtWork = false) by (vm_compute; reflexivity).
  assert (H6 : Recorder.stopTasks recorderAtWork = []) by (vm_compute; reflexivity).
  exact (proj1 (proj2
    (X21_recording_ended_by_the_platform recorderAtWork 0%nat
       (Recorder.mkRecorder Recorder.recording 1 (Recorder.mkClosure (Some true) None))
       [7; 8] H1 H2 eq_refl H3 H4 H5 H6))).
Defined.

Lemma X13_page_layout_witness :
  Home.activeTranscript (App.home rerecordWorld) = Some doneRow /\
  (true = true <-> Home.transcriptToRerecord (App.home rerecordWorld) <> None).
Proof.
  pose proof (X13_page_layout false (App.home rerecordWorld)) as T.
  cbn in T. destruct T as (_ & _ & _ & T & _).
  exact (T doneRow true eq_refl).
Defined.

(** ** Start of the page *)

(** X20. On mount the page shows the loading screen while the existence
    check is under way.  When the check is answered the loading flag is
    lowered; on an error the error screen shows 'Failed to check for
    transcripts: ...'; otherwise transcripts are taken to exist exactly
    when the table is not empty; with an empty table the page shows the
    intake form alone, and with records, as long as the second effect has
    not raised the loading flag again and fetched the next task, the
    'All Pending Done' card with its fallback line. *)
Theorem X20_existence_check_decides_the_first_screen
    (b : Backend.t) (err : option string) :
  let l1 := Startup.checkExistence (Startup.mounted b) in
  let l2 := Startup.settle (Startup.answerOf err l1) l1 in
  Startup.screen l1 = HomeView.LoadingScreen /\
  Startup.isLoading l2 = false /\
  App.backend (Startup.page l2) = b /\
  (forall e, err = Some e ->
     Home.transcriptsExist (App.home (Startup.page l2)) = Some false /\
     Startup.screen l2
     = HomeView.ErrorScreen (String.append "Failed to check for transcripts: " e)) /\
  (err = None ->
   (Home.transcriptsExist (App.home (Startup.page l2)) = Some true
    <-> Backend.table b <> []) /\
   (Backend.table b = [] ->
    Startup.screen l2
    = HomeView.Page None false true HomeView.NoRecorderArea false false) /\
   (Backend.table b <> [] ->
    Startup.screen l2
    = HomeView.Page (Some (true, false)) false false HomeView.AllPendingDone false true)).
Proof.
  intros l1 l2. split; [reflexivity|]. subst l2 l1.
  destruct err as [e|]; cbn.
  - split; [reflexivity|]. split; [reflexivity|]. split; [|intros H; discriminate H].
    intros e' H. inversion H; subst. split; reflexivity.
  - destruct b as [[|r rest] sto]; cbn.
    + split; [reflexivity|]. split; [reflexivity|].
      split; [intros e H; discriminate H|]. intros _.
      split; [split; intros H; [discriminate H | congruence]|].
      split; [reflexivity|]. intros H. congruence.
    + split; [reflexivity|]. split; [reflexivity|].
      split; [intros e H; discriminate H|]. intros _.
      split; [split; [discriminate | reflexivity]|].
      split; [intros H; discriminate H|]. intros _. reflexivity.
Qed.

Lemma X20_existence_check_witness :
  Startup.screen
    (Startup.settle
       (Startup.answerOf None (Startup.checkExistence (Startup.mounted emptyBackend)))
       (Startup.checkExistence (Startup.mounted emptyBackend)))
  = HomeView.Page None false true HomeView.NoRecorderArea false false /\
  Startup.screen
    (Startup.settle
       (Startup.answerOf (Some "timeout")
          (Startup.checkExistence (Startup.mounted emptyBackend)))
       (Startup.checkExistence (Startup.mounted emptyBackend)))
  = HomeView.ErrorScreen "Failed to check for transcripts: timeout".
Proof.
  split.
  - exact (proj1 (proj2 (proj2 (proj2 (proj2 (proj2
      (X20_existence_check_decides_the_first_screen emptyBackend None)))) eq_refl))
      eq_refl).
  - exact (proj2 (proj1 (proj2 (proj2 (proj2
      (X20_existence_check_decides_the_first_screen emptyBackend (Some "timeout")))))
      "timeout" eq_refl)).
Defined.
